(** * guMCP: the session router and the Discord adapter

    A shallow embedding of

    - [src/servers/remote.py]: the Starlette application that keeps one
      MCP server instance per session key and one SSE transport per live
      connection ([handle_sse], [handle_message]);
    - [src/servers/discord/main.py]: the Discord adapter ([create_server]
      and the four handlers it registers, with the process-wide [bot]).

    Python objects with identity (transports, server instances, bots) are
    numbered in allocation order.  Exceptions are values of [exn]; a
    function that can raise returns [result].  The asyncio event loop is
    cooperative: a coroutine runs without interruption between two
    [await]s, so every stretch of code between two suspension points is
    one atomic transition of the model. *)

From Stdlib Require Import ZArith String Ascii List Lia QArith Qround.
From Stdlib Require Import DecimalString DecimalZ DecimalPos.
From stdpp Require Import gmap strings list.

Local Open Scope Z_scope.

(** ** Python values, exceptions and string built-ins *)

Module Py.

(** The exception classes the two modules raise or catch.  [NotFound] and
    [Forbidden] are discord.py's subclasses of [HTTPException]. *)
Inductive exn :=
| ValueError (msg : string)
| TypeError (msg : string)
| OverflowError (msg : string)
| AttributeError (msg : string)
| TimeoutError
| NotFound (msg : string)
| Forbidden (msg : string)
| HTTPException (msg : string).

(** [str(e)]. *)
Definition exn_str (e : exn) : string :=
  match e with
  | ValueError m | TypeError m | OverflowError m | AttributeError m
  | NotFound m | Forbidden m | HTTPException m => m
  | TimeoutError => ""
  end.

Inductive result (A : Type) :=
| Ok (a : A)
| Raise (e : exn).
Arguments Ok {A} a.
Arguments Raise {A} e.

(** Sequencing stops at the first exception: [x ← r; k]. *)
#[global] Instance result_bind : MBind result := fun A B k r =>
  match r with
  | Ok a => k a
  | Raise e => Raise e
  end.

(** [s.startswith(p)]. *)
Definition startswith (s p : string) : bool := String.prefix p s.

(** [c in s] for a one-character [c]. *)
Fixpoint contains_char (c : ascii) (s : string) : bool :=
  match s with
  | EmptyString => false
  | String d r => Ascii.eqb d c || contains_char c r
  end.

(** [s.replace(old, new)] for a non-empty [old]: every occurrence, left to
    right, without overlap.  [skip] counts the characters of the occurrence
    just matched that are still to be dropped. *)
Fixpoint replace_from (old new : string) (skip : nat) (s : string) : string :=
  match s with
  | EmptyString => EmptyString
  | String c r =>
      match skip with
      | S k => replace_from old new k r
      | O =>
          if String.prefix old s
          then new +:+ replace_from old new (String.length old - 1) r
          else String c (replace_from old new 0 r)
      end
  end.

Definition replace (s old new : string) : string := replace_from old new 0 s.

(** The first occurrence of the separator, if any: what is before it and
    what is after it. *)
Fixpoint cut (sep : ascii) (s : string) : option (string * string) :=
  match s with
  | EmptyString => None
  | String c r =>
      if Ascii.eqb c sep then Some (EmptyString, r)
      else match cut sep r with
           | Some (a, b) => Some (String c a, b)
           | None => None
           end
  end.

(** [s.split(sep, 1)] for a one-character [sep]. *)
Definition split1 (s : string) (sep : ascii) : list string :=
  match cut sep s with
  | Some (a, b) => [a; b]
  | None => [s]
  end.

(** [s.split(sep)] for a one-character [sep]. *)
Fixpoint split (s : string) (sep : ascii) : list string :=
  match s with
  | EmptyString => [EmptyString]
  | String c r =>
      if Ascii.eqb c sep then EmptyString :: split r sep
      else match split r sep with
           | h :: t => String c h :: t
           | [] => [String c EmptyString]
           end
  end.

End Py.

(** ** The session router of [remote.py] *)

Module Remote.

(** The local variables of one [handle_sse] call that are live across its
    [await]: the session key, the transport it created and the server
    instance it runs. *)
Record Conn := {
  conn_key : string;
  conn_transport : nat;
  conn_instance : nat
}.

(** [f"{server_name}:{session_key_encoded}"] *)
Definition session_key (server_name session_key_encoded : string) : string :=
  server_name +:+ ":" +:+ session_key_encoded.

(** Lines 91-98: [user_id] and [api_key] out of the path parameter. *)
Definition user_and_api_key (session_key_encoded : string)
  : string * option string :=
  if Py.contains_char ":" session_key_encoded then
    let parts := Py.split session_key_encoded ":" in
    (nth 0 parts EmptyString, Some (nth 1 parts EmptyString))
  else (session_key_encoded, None).

Inductive Request :=
| Connect (server_name session_key_encoded : string)
| Disconnect (transport : nat)
| Post (server_name session_key_encoded : string).

Inductive Reply :=
| Established (c : Conn)
| ConstructionFailed
| Closed
| NoSuchConnection
| NoRoute
| Response404 (body : string)
| Forwarded (transport : nat).

Section Router.

(** What a server factory builds. *)
Context {Obj : Type}.

(** The [servers] dictionary once [discover_servers] has run: the
    factory of each discovered server.  A factory is called
    synchronously; [None] stands for a call that raises. *)
Variable servers : string -> option (string -> option string -> option Obj).

(** The module-level dictionaries, the objects allocated so far, and the
    [handle_sse] coroutines suspended in [server_instance.run], keyed by
    the transport each one created.  [factory_calls] records, per call
    of a factory, the session key it was called for. *)
Record State := {
  user_session_transports : gmap string nat;
  user_server_instances : gmap string nat;
  objects : list Obj;
  transports_made : nat;
  factory_calls : list string;
  streaming : gmap nat Conn
}.

Definition initial : State :=
  {| user_session_transports := ∅;
     user_server_instances := ∅;
     objects := [];
     transports_made := 0%nat;
     factory_calls := [];
     streaming := ∅ |}.

(** [handle_sse], lines 87-121: everything up to the first [await].  The
    transport is stored before the instance is looked up; a factory that
    raises leaves [user_server_instances] as it was (the [try] block has
    not been entered yet, so the [finally] clause does not run).
    [get_init_options] (line 121) only reads the instance and is taken to
    return. *)
Definition handle_sse_enter
    (server_factory : string -> option string -> option Obj)
    (server_name session_key_encoded : string) (st : State)
  : State * Reply :=
  let key := session_key server_name session_key_encoded in
  let '(user_id, api_key) := user_and_api_key session_key_encoded in
  let sse_transport := transports_made st in
  let transports := <[key := sse_transport]> (user_session_transports st) in
  match user_server_instances st !! key with
  | None =>
      match server_factory user_id api_key with
      | None =>
          ({| user_session_transports := transports;
              user_server_instances := user_server_instances st;
              objects := objects st;
              transports_made := S sse_transport;
              factory_calls := key :: factory_calls st;
              streaming := streaming st |},
           ConstructionFailed)
      | Some obj =>
          let server_instance := length (objects st) in
          let c := {| conn_key := key;
                      conn_transport := sse_transport;
                      conn_instance := server_instance |} in
          ({| user_session_transports := transports;
              user_server_instances :=
                <[key := server_instance]> (user_server_instances st);
              objects := objects st ++ [obj];
              transports_made := S sse_transport;
              factory_calls := key :: factory_calls st;
              streaming := <[sse_transport := c]> (streaming st) |},
           Established c)
      end
  | Some server_instance =>
      let c := {| conn_key := key;
                  conn_transport := sse_transport;
                  conn_instance := server_instance |} in
      ({| user_session_transports := transports;
          user_server_instances := user_server_instances st;
          objects := objects st;
          transports_made := S sse_transport;
          factory_calls := factory_calls st;
          streaming := <[sse_transport := c]> (streaming st) |},
       Established c)
  end.

(** [handle_sse], lines 135-141: the [finally] clause, run when the
    connection of [c] ends. *)
Definition handle_sse_finally (c : Conn) (st : State) : State :=
  {| user_session_transports :=
       match user_session_transports st !! conn_key c with
       | Some _ => delete (conn_key c) (user_session_transports st)
       | None => user_session_transports st
       end;
     user_server_instances := user_server_instances st;
     objects := objects st;
     transports_made := transports_made st;
     factory_calls := factory_calls st;
     streaming := delete (conn_transport c) (streaming st) |}.

(** [handle_message], lines 157-166. *)
Definition handle_message (server_name session_key_encoded : string)
    (st : State) : Reply :=
  let key := session_key server_name session_key_encoded in
  match user_session_transports st !! key with
  | None =>
      Response404 ("Session not found or expired for session " +:+ key)
  | Some transport => Forwarded transport
  end.

(** One atomic transition of the process.  Routes exist only for the
    discovered servers. *)
Definition step (rq : Request) (st : State) : State * Reply :=
  match rq with
  | Connect name enc =>
      match servers name with
      | Some server_factory => handle_sse_enter server_factory name enc st
      | None => (st, NoRoute)
      end
  | Disconnect t =>
      match streaming st !! t with
      | Some c => (handle_sse_finally c st, Closed)
      | None => (st, NoSuchConnection)
      end
  | Post name enc =>
      match servers name with
      | Some _ => (st, handle_message name enc st)
      | None => (st, NoRoute)
      end
  end.

(** Any interleaving of the coroutines is a list of transitions. *)
Fixpoint run (rqs : list Request) (st : State) : State * list Reply :=
  match rqs with
  | [] => (st, [])
  | rq :: rest =>
      let '(st1, rp) := step rq st in
      let '(st2, rps) := run rest st1 in
      (st2, rp :: rps)
  end.

(** How often a factory has been called for a session key. *)
Definition calls_for (key : string) (st : State) : nat :=
  length (filter (fun k => k = key) (factory_calls st)).

(** The live connections whose transport drives a given instance. *)
Definition attached (instance : nat) (st : State) : list Conn :=
  filter (fun c => conn_instance c = instance)
         (snd <$> map_to_list (streaming st)).

(** A request that asks for a session with a given key. *)
Definition requests_key (key : string) (rq : Request) : Prop :=
  match rq with
  | Connect name enc =>
      session_key name enc = key /\ is_Some (servers name)
  | _ => False
  end.

(** Every factory that can be called for the key builds an instance. *)
Definition construction_succeeds (key : string) : Prop :=
  forall name enc server_factory,
    session_key name enc = key ->
    servers name = Some server_factory ->
    is_Some (server_factory (user_and_api_key enc).1 (user_and_api_key enc).2).

(** The invariant of the live connections: each is filed under the
    transport it created, that transport is older than the next one to be
    made, and the instance it runs is the one stored for its key. *)
Definition consistent (st : State) : Prop :=
  forall t c, streaming st !! t = Some c ->
    conn_transport c = t /\ (t < transports_made st)%nat /\
    user_server_instances st !! conn_key c = Some (conn_instance c).

End Router.

End Remote.

(** ** The Discord adapter of [discord/main.py] *)

Module Discord.

Import Py.

(** *** JSON arguments *)

(** What [arguments] can hold once the JSON request is decoded.  Floats
    are the rationals they denote, with [VInf] and [VNaN] apart; arrays
    and objects are not looked into by the code modelled here. *)
Inductive value :=
| VNone
| VBool (b : bool)
| VInt (z : Z)
| VFloat (q : Q)
| VInf
| VNaN
| VStr (s : string)
| VCompound.

(** [str(n)] for an integer.  (The cap CPython can put on the number of
    digits of a conversion, 4300 by default, is not modelled; Discord's
    identifiers have at most 20 digits.) *)
Definition str_of_Z (z : Z) : string := NilZero.string_of_int (Z.to_int z).

(** [repr(s)] when [s] needs no escaping. *)
Definition repr_str (s : string) : string := "'" +:+ s +:+ "'".

(** [repr(l)] for a list of strings. *)
Definition repr_list (l : list string) : string :=
  "[" +:+ String.concat ", " (map repr_str l) +:+ "]".

Definition is_space (c : ascii) : bool :=
  existsb (Ascii.eqb c) [" "; "009"; "010"; "011"; "012"; "013"]%char.

Fixpoint lstrip (s : string) : string :=
  match s with
  | String c r => if is_space c then lstrip r else s
  | EmptyString => EmptyString
  end.

Fixpoint rstrip (s : string) : string :=
  match s with
  | String c r =>
      match rstrip r with
      | EmptyString => if is_space c then EmptyString else String c EmptyString
      | r' => String c r'
      end
  | EmptyString => EmptyString
  end.

(** [int(s)] for a string: surrounding white space, an optional sign and
    ASCII decimal digits.  (Python also takes underscores between digits
    and non-ASCII digits; those literals are read as invalid here.) *)
Definition signed_numeral (t : string) : option Z :=
  match t with
  | String c r =>
      if Ascii.eqb c "+" then Z.of_uint <$> NilZero.uint_of_string r
      else Z.of_int <$> NilZero.int_of_string t
  | EmptyString => None
  end.

Definition int_of_str (s : string) : result Z :=
  match signed_numeral (rstrip (lstrip s)) with
  | Some z => Ok z
  | None =>
      Raise (ValueError
               ("invalid literal for int() with base 10: " +:+ repr_str s))
  end.

(** The characters of [str(n)]. *)
Definition numeral_char (c : ascii) : bool :=
  existsb (Ascii.eqb c)
    ["0"; "1"; "2"; "3"; "4"; "5"; "6"; "7"; "8"; "9"; "-"]%char.

(** [int(x)] truncates a float towards zero. *)
Definition truncate (q : Q) : Z :=
  if Qle_bool 0 q then Qfloor q else Qceiling q.

(** [int(v)]. *)
Definition py_int (v : value) : result Z :=
  match v with
  | VInt z => Ok z
  | VBool b => Ok (if b then 1 else 0)
  | VFloat q => Ok (truncate q)
  | VInf => Raise (OverflowError "cannot convert float infinity to integer")
  | VNaN => Raise (ValueError "cannot convert float NaN to integer")
  | VStr s => int_of_str s
  | VNone | VCompound =>
      Raise (TypeError
               "int() argument must be a string, a bytes-like object or a real number")
  end.

(** [arguments.get(key, default)]. *)
Definition get (arguments : gmap string value) (key : string) (dflt : value)
  : value :=
  default dflt (arguments !! key).

(** [not arguments or k1 not in arguments or k2 not in arguments ...]:
    [arguments] is a dictionary or [None]; an empty dictionary is falsy. *)
Definition lacks (arguments : option (gmap string value)) (keys : list string)
  : bool :=
  match arguments with
  | None => true
  | Some d =>
      bool_decide (d = ∅) || existsb (fun k => bool_decide (d !! k = None)) keys
  end.

(** *** What Discord shows to the bot *)

Record Message := {
  author_name : string;
  created_at : string;
  content : string
}.

Record Channel := {
  channel_id : Z;
  channel_name : string;
  (** [channel.history(...)], newest first, or the exception it raises *)
  history : result (list Message)
}.

Record Member := {
  member_id : Z;
  member_name : string
}.

Record Guild := {
  guild_id : Z;
  guild_name : string;
  text_channels : list Channel;
  large : bool;
  (** [guild.members] as cached, and after [guild.chunk()] *)
  members : list Member;
  members_chunked : list Member;
  (** [guild.me.guild_permissions.ban_members] *)
  may_ban : bool
}.

(** A [commands.Bot]: its identity, and whether its gateway session has
    reached ready (its caches are empty before). *)
Record Bot := {
  bot_ident : nat;
  connected : bool
}.

(** The collaborators: the credential store behind [create_auth_client],
    the Discord gateway and REST API, and text renderings this model does
    not spell out. *)
Record Env := {
  (** [create_auth_client(api_key).get_user_credentials(SERVICE_NAME, user_id)] *)
  get_user_credentials : option string -> string -> option (gmap string string);
  (** time units between [bot.start(token)] and the [on_ready] event;
      [None] when the gateway never reports ready *)
  ready_after : string -> option nat;
  (** the guilds the bot sees once it is connected *)
  guilds : list Guild;
  (** [bot.fetch_channel(id)] *)
  fetch_channel : Z -> result Channel;
  (** [guild.ban(Object(id=user), reason=..., delete_message_days=...)] *)
  guild_ban : Z -> Z -> value -> Z -> result unit;
  (** what a tool other than [ban_member] and [list_members] does, with
      the global [bot] as it stands, once its arguments are checked *)
  upstream : string -> gmap string value -> option Bot -> result string;
  (** [str(v)] of a float, an array or an object *)
  str_other : value -> string;
  (** [json.dumps({"members": member_info}, indent=2)] *)
  dump_members : list Member -> string
}.

(** [f"{v}"]. *)
Definition py_str (env : Env) (v : value) : string :=
  match v with
  | VNone => "None"
  | VBool true => "True"
  | VBool false => "False"
  | VInt z => str_of_Z z
  | VStr s => s
  | _ => str_other env v
  end.

(** *** Module state and server instances *)

(** The module-level variable [bot] (line 39), and how many [Bot]s have
    been constructed. *)
Record Globals := {
  bot : option Bot;
  bots_made : nat
}.

Definition fresh : Globals := {| bot := None; bots_made := 0 |}.

(** The task [start_bot_background] was started in: still running with the
    bot it got, or ended by an exception. *)
Inductive Task :=
| Running (bot_ident : nat)
| Crashed (e : exn).

(** The attributes [create_server] puts on the [Server] object. *)
Record Server := {
  user_id : string;
  api_key : option string;
  bot_task : option Task;
  bot_ready : bool
}.

(** Effects of a handler that the claims speak about. *)
Inductive Event :=
| CreateTask
| WaitReady (timeout : nat)
| GuildBan (guild user : Z) (delete_message_days : Z)
| GuildChunk (guild : Z).

(** What a handler leaves behind: the server object and the globals as
    updated, the effects in order, and the value returned or the
    exception raised. *)
Record Outcome (A : Type) := {
  server_after : Server;
  globals_after : Globals;
  events : list Event;
  returned : result A
}.
Arguments server_after {A} _.
Arguments globals_after {A} _.
Arguments events {A} _.
Arguments returned {A} _.

(** [get_credentials], lines 73-99. *)
Definition get_credentials (env : Env) (user_id : string)
    (api_key : option string) : result string :=
  let missing :=
    Raise (ValueError ("Credentials not found for user " +:+ user_id)) in
  match get_user_credentials env api_key user_id with
  | None => missing
  | Some credentials_data =>
      if bool_decide (credentials_data = ∅) then missing
      else
        match credentials_data !! "token" with
        | Some (String c t) => Ok (String c t)
        | _ =>
            match credentials_data !! "access_token" with
            | Some (String c t) => Ok (String c t)
            | _ => missing
            end
        end
  end.

(** [create_discord_bot], lines 102-113: the global [bot] is returned when
    it is set, before any credential is looked up. *)
Definition create_discord_bot (env : Env) (user_id : string)
    (api_key : option string) (g : Globals) : Globals * result nat :=
  match bot g with
  | Some b => (g, Ok (bot_ident b))
  | None =>
      match get_credentials env user_id api_key with
      | Raise e => (g, Raise e)
      | Ok _token =>
          let b := {| bot_ident := bots_made g; connected := false |} in
          ({| bot := Some b; bots_made := S (bots_made g) |}, Ok (bot_ident b))
      end
  end.

(** [create_server], lines 116-123: the attributes of a new instance.  No
    credential is looked up and no bot is created here. *)
Definition create_server (user_id : string) (api_key : option string)
  : Server :=
  {| user_id := user_id; api_key := api_key;
     bot_task := None; bot_ready := false |}.

(** [start_bot_background], lines 125-138, up to [bot.start]: how the task
    stands, the globals, and when [on_ready] will fire. *)
Definition start_bot_background (env : Env) (s : Server) (g : Globals)
  : Task * Globals * option nat :=
  match create_discord_bot env (user_id s) (api_key s) g with
  | (g1, Raise e) => (Crashed e, g1, None)
  | (g1, Ok b) =>
      match get_credentials env (user_id s) (api_key s) with
      | Raise e => (Crashed e, g1, None)
      | Ok token => (Running b, g1, ready_after env token)
      end
  end.

(** The readiness bound of [asyncio.wait_for(..., timeout=30)]. *)
Definition READY_TIMEOUT : nat := 30.

(** The bot is marked connected when [on_ready] has fired. *)
Definition mark_connected (g : Globals) : Globals :=
  {| bot := (fun b => {| bot_ident := bot_ident b; connected := true |}) <$> bot g;
     bots_made := bots_made g |}.

(** The three lines every handler but [handle_list_tools] starts with
    (147-149, 171-173, 422-424): only a server whose [bot_task] is [None]
    starts the task and waits for [bot_ready]; the wait ends with
    [TimeoutError] unless the event is set, or [on_ready] fires, within
    the bound.  [bot_task] is assigned before the wait begins, so it is
    set in every state another operation of the server can observe. *)
Definition ensure_bot (env : Env) (s : Server) (g : Globals)
  : Outcome unit :=
  match bot_task s with
  | Some _ =>
      {| server_after := s; globals_after := g; events := [];
         returned := Ok () |}
  | None =>
      let '(task, g1, ready) := start_bot_background env s g in
      let in_time :=
        bot_ready s ||
        match ready with
        | Some d => (d <=? READY_TIMEOUT)%nat
        | None => false
        end in
      {| server_after :=
           {| user_id := user_id s; api_key := api_key s;
              bot_task := Some task; bot_ready := in_time |};
         globals_after := if in_time then mark_connected g1 else g1;
         events := [CreateTask; WaitReady READY_TIMEOUT];
         returned := if in_time then Ok () else Raise TimeoutError |}
  end.

(** A handler body run behind [ensure_bot]. *)
Definition behind_gate {A} (env : Env) (s : Server) (g : Globals)
    (body : Globals -> list Event * result A) : Outcome A :=
  let o := ensure_bot env s g in
  match returned o with
  | Raise e =>
      {| server_after := server_after o; globals_after := globals_after o;
         events := events o; returned := Raise e |}
  | Ok _ =>
      let '(evs, r) := body (globals_after o) in
      {| server_after := server_after o; globals_after := globals_after o;
         events := events o ++ evs; returned := r |}
  end.

(** Attribute access on the global [bot], which may still be [None]. *)
Definition bot_attr (g : Globals) (attr : string) : result Bot :=
  match bot g with
  | Some b => Ok b
  | None =>
      Raise (AttributeError
               ("'NoneType' object has no attribute " +:+ repr_str attr))
  end.

(** [bot.guilds]: the cache is filled when the gateway reports ready. *)
Definition bot_guilds (env : Env) (b : Bot) : list Guild :=
  if connected b then guilds env else [].

(** [bot.get_guild(id)]. *)
Definition get_guild (env : Env) (b : Bot) (id : Z) : option Guild :=
  List.find (fun gd => guild_id gd =? id) (bot_guilds env b).

(** [bot.get_channel(id)]. *)
Definition get_channel (env : Env) (b : Bot) (id : Z) : option Channel :=
  List.find (fun ch => channel_id ch =? id)
            (flat_map text_channels (bot_guilds env b)).

(** *** Resources *)

Record Resource := {
  uri : string;
  mime_type : string;
  name : string
}.

(** [f"discord:///{guild.id}/{channel.id}"] (line 158). *)
Definition resource_uri (guild channel : Z) : string :=
  "discord:///" +:+ str_of_Z guild +:+ "/" +:+ str_of_Z channel.

(** [handle_list_resources], lines 141-164. *)
Definition handle_list_resources (env : Env) (cursor : option string)
    (s : Server) (g : Globals) : Outcome (list Resource) :=
  behind_gate env s g (fun g1 =>
    ([], b ← bot_attr g1 "guilds";
         Ok (flat_map
               (fun guild =>
                  map (fun channel =>
                         {| uri := resource_uri (guild_id guild) (channel_id channel);
                            mime_type := "text/plain";
                            name := guild_name guild +:+ "/" +:+ channel_name channel |})
                      (text_channels guild))
               (bot_guilds env b)))).

(** Lines 181-189: the two identifiers of a resource URI. *)
Definition parse_uri (uri_str : string) : result (string * string) :=
  if startswith uri_str "discord:///" then
    let path := replace uri_str "discord:///" "" in
    let parts := split1 path "/" in
    match parts with
    | guild :: channel :: _ => Ok (guild, channel)
    | _ =>
        Raise (ValueError
                 ("Invalid URI format: " +:+ uri_str +:+ ", parts: "
                  +:+ repr_list parts))
    end
  else Raise (ValueError ("Unexpected URI format: " +:+ uri_str)).

(** The malformed URIs of the specification: the [discord:///] prefix is
    missing, or what follows it is one path segment instead of two. *)
Inductive Malformed : string -> Prop :=
| no_prefix uri_str :
    startswith uri_str "discord:///" = false -> Malformed uri_str
| one_segment segment :
    contains_char "/" segment = false -> Malformed ("discord:///" +:+ segment).

(** [f"{message.author.name} ({message.created_at}): {message.content}"] *)
Definition format_message (m : Message) : string :=
  author_name m +:+ " (" +:+ created_at m +:+ "): " +:+ content m.

(** Lines 204-208: the last 25 messages, one per line. *)
Definition read_history (channel : Channel) : result string :=
  messages ← history channel;
  Ok (String.concat (String "010" EmptyString)
        (map format_message (firstn 25 messages))).

(** The body of the [try] block of [handle_read_resource], lines 180-214. *)
Definition read_resource_try (env : Env) (g : Globals) (uri_str : string)
  : result string :=
  '(_, channel) ← parse_uri uri_str;
  b ← bot_attr g "get_channel";
  id ← int_of_str channel;
  match get_channel env b id with
  | Some ch => read_history ch
  | None =>
      match fetch_channel env id with
      | Raise (NotFound _) => Ok ("Channel not found: " +:+ channel)
      | Raise e => Raise e
      | Ok ch => read_history ch
      end
  end.

(** [handle_read_resource], lines 167-223: whatever the [try] block
    raises comes back as text. *)
Definition handle_read_resource (env : Env) (uri_str : string)
    (s : Server) (g : Globals) : Outcome string :=
  behind_gate env s g (fun g1 =>
    ([], match read_resource_try env g1 uri_str with
         | Ok text => Ok text
         | Raise e => Ok ("Error reading resource: " +:+ exn_str e)
         end)).

(** *** Tools *)

Record Tool := {
  tool_name : string;
  tool_description : string;
  properties : list string;
  required : list string
}.

(** [handle_list_tools], lines 226-411. *)
Definition handle_list_tools : list Tool :=
  [ {| tool_name := "send_message";
       tool_description := "Send a message to a Discord channel";
       properties := ["channel_id"; "content"];
       required := ["channel_id"; "content"] |};
    {| tool_name := "read_messages";
       tool_description := "Read recent messages from a Discord channel";
       properties := ["channel_id"; "limit"];
       required := ["channel_id"] |};
    {| tool_name := "add_reaction";
       tool_description := "Add a reaction to a message";
       properties := ["channel_id"; "message_id"; "emoji"];
       required := ["channel_id"; "message_id"; "emoji"] |};
    {| tool_name := "edit_message";
       tool_description := "Edit an existing message sent by the bot";
       properties := ["channel_id"; "message_id"; "content"];
       required := ["channel_id"; "message_id"; "content"] |};
    {| tool_name := "delete_message";
       tool_description := "Delete a message from a channel";
       properties := ["channel_id"; "message_id"];
       required := ["channel_id"; "message_id"] |};
    {| tool_name := "send_embed";
       tool_description := "Send a rich embed message to a channel";
       properties := ["channel_id"; "title"; "description"; "color"; "footer";
                      "image_url"; "thumbnail_url"; "fields"];
       required := ["channel_id"; "title"] |};
    {| tool_name := "get_user_info";
       tool_description := "Retrieve information about a user";
       properties := ["user_id"];
       required := ["user_id"] |};
    {| tool_name := "send_dm";
       tool_description := "Send a direct message to a user";
       properties := ["user_id"; "content"];
       required := ["user_id"; "content"] |};
    {| tool_name := "ban_member";
       tool_description := "Ban a member from a server";
       properties := ["guild_id"; "user_id"; "reason"; "delete_message_days"];
       required := ["guild_id"; "user_id"] |};
    {| tool_name := "kick_member";
       tool_description := "Kick a member from a server";
       properties := ["guild_id"; "user_id"; "reason"];
       required := ["guild_id"; "user_id"] |};
    {| tool_name := "mute_member";
       tool_description := "Mute or unmute a member in voice channels";
       properties := ["guild_id"; "user_id"; "mute"];
       required := ["guild_id"; "user_id"; "mute"] |};
    {| tool_name := "assign_role";
       tool_description := "Add or remove a role from a member";
       properties := ["guild_id"; "user_id"; "role_id"; "add"];
       required := ["guild_id"; "user_id"; "role_id"; "add"] |};
    {| tool_name := "list_members";
       tool_description := "Get a list of members in a server";
       properties := ["guild_id"; "limit"];
       required := ["guild_id"] |} ].

(** [arguments[key]] for a key the caller has checked. *)
Definition item (arguments : gmap string value) (key : string) : value :=
  default VNone (arguments !! key).

(** [l[:n]]. *)
Definition slice_to {A} (l : list A) (n : Z) : list A :=
  if 0 <=? n then firstn (Z.to_nat n) l
  else firstn (length l - Z.to_nat (- n)) l.

(** Line 692: [min(7, max(0, int(arguments.get("delete_message_days", 0))))] *)
Definition delete_message_days (arguments : gmap string value) : result Z :=
  n ← py_int (get arguments "delete_message_days" (VInt 0));
  Ok (Z.min 7 (Z.max 0 n)).

(** Line 815: [min(1000, max(1, int(arguments.get("limit", 50))))] *)
Definition members_limit (arguments : gmap string value) : result Z :=
  n ← py_int (get arguments "limit" (VInt 50));
  Ok (Z.min 1000 (Z.max 1 n)).

(** The [ban_member] branch behind its argument check, lines 689-710. *)
Definition ban_member (env : Env) (g : Globals) (arguments : gmap string value)
  : list Event * result string :=
  let guild := item arguments "guild_id" in
  let user := item arguments "user_id" in
  let reason := get arguments "reason" (VStr "No reason provided") in
  match delete_message_days arguments with
  | Raise e => ([], Raise e)
  | Ok days =>
      match (b ← bot_attr g "get_guild"; gid ← py_int guild; Ok (b, gid)) with
      | Raise e => ([], Raise e)
      | Ok (b, gid) =>
          match get_guild env b gid with
          | None => ([], Ok ("Server not found: " +:+ py_str env guild))
          | Some gd =>
              if negb (may_ban gd) then
                ([], Ok "Bot does not have permission to ban members")
              else
                match py_int user with
                | Raise e => ([], Raise e)
                | Ok uid =>
                    ([GuildBan gid uid days],
                     match guild_ban env gid uid reason days with
                     | Raise (Forbidden _) =>
                         Ok "Insufficient permissions to ban this user"
                     | Raise (NotFound _) =>
                         Ok ("User not found: " +:+ py_str env user)
                     | Raise (HTTPException m) =>
                         Ok ("Failed to ban user: " +:+ m)
                     | Raise e => Raise e
                     | Ok _ =>
                         Ok ("User " +:+ py_str env user
                             +:+ " banned successfully")
                     end)
                end
          end
      end
  end.

(** The members [list_members] reports, lines 822-826, with the effect of
    [guild.chunk()] when the guild is large and the cache is short. *)
Definition listed_members (gd : Guild) (limit : Z) : list Event * list Member :=
  if large gd && (Z.of_nat (length (members gd)) <? limit) then
    ([GuildChunk (guild_id gd)], slice_to (members_chunked gd) limit)
  else ([], slice_to (members gd) limit).

(** The [list_members] branch behind its argument check, lines 814-841. *)
Definition list_members (env : Env) (g : Globals) (arguments : gmap string value)
  : list Event * result string :=
  let guild := item arguments "guild_id" in
  match members_limit arguments with
  | Raise e => ([], Raise e)
  | Ok limit =>
      match (b ← bot_attr g "get_guild"; gid ← py_int guild; Ok (b, gid)) with
      | Raise e => ([], Raise e)
      | Ok (b, gid) =>
          match get_guild env b gid with
          | None => ([], Ok ("Server not found: " +:+ py_str env guild))
          | Some gd =>
              let '(evs, ms) := listed_members gd limit in
              (evs, Ok (dump_members env ms))
          end
      end
  end.

(** One branch of the dispatch: the argument check, its [ValueError], and
    the branch body. *)
Definition branch (arguments : option (gmap string value))
    (keys : list string) (msg : string)
    (body : gmap string value -> list Event * result string)
  : list Event * result string :=
  if lacks arguments keys then ([], Raise (ValueError msg))
  else match arguments with
       | Some d => body d
       | None => ([], Raise (ValueError msg))
       end.

(** The dispatch of [handle_call_tool], lines 426-843. *)
Definition dispatch (env : Env) (g : Globals) (name : string)
    (arguments : option (gmap string value)) : list Event * result string :=
  let remote := fun d => ([], upstream env name d (bot g)) in
  if String.eqb name "send_message" then
    branch arguments ["channel_id"; "content"]
      "Missing required parameters: channel_id and content" remote
  else if String.eqb name "read_messages" then
    branch arguments ["channel_id"]
      "Missing required parameter: channel_id" remote
  else if String.eqb name "add_reaction" then
    branch arguments ["channel_id"; "message_id"; "emoji"]
      "Missing required parameters: channel_id, message_id, and emoji" remote
  else if String.eqb name "edit_message" then
    branch arguments ["channel_id"; "message_id"; "content"]
      "Missing required parameters: channel_id, message_id, and content" remote
  else if String.eqb name "delete_message" then
    branch arguments ["channel_id"; "message_id"]
      "Missing required parameters: channel_id and message_id" remote
  else if String.eqb name "send_embed" then
    branch arguments ["channel_id"; "title"]
      "Missing required parameters: channel_id and title" remote
  else if String.eqb name "get_user_info" then
    branch arguments ["user_id"]
      "Missing required parameter: user_id" remote
  else if String.eqb name "send_dm" then
    branch arguments ["user_id"; "content"]
      "Missing required parameters: user_id and content" remote
  else if String.eqb name "ban_member" then
    branch arguments ["guild_id"; "user_id"]
      "Missing required parameters: guild_id and user_id" (ban_member env g)
  else if String.eqb name "kick_member" then
    branch arguments ["guild_id"; "user_id"]
      "Missing required parameters: guild_id and user_id" remote
  else if String.eqb name "mute_member" then
    branch arguments ["guild_id"; "user_id"; "mute"]
      "Missing required parameters: guild_id, user_id, and mute" remote
  else if String.eqb name "assign_role" then
    branch arguments ["guild_id"; "user_id"; "role_id"; "add"]
      "Missing required parameters: guild_id, user_id, role_id, and add" remote
  else if String.eqb name "list_members" then
    branch arguments ["guild_id"]
      "Missing required parameter: guild_id" (list_members env g)
  else ([], Raise (ValueError ("Unknown tool: " +:+ name))).

(** [handle_call_tool], lines 414-843. *)
Definition handle_call_tool (env : Env) (name : string)
    (arguments : option (gmap string value)) (s : Server) (g : Globals)
  : Outcome string :=
  behind_gate env s g (fun g1 => dispatch env g1 name arguments).

End Discord.

(** ** The process as deployed: the router over the Discord adapter *)

Module Deployed.

(** [discover_servers] over a [servers/] directory that holds
    [discord/main.py]: the module's [server] attribute is [create_server],
    which does not raise. *)
Definition servers (server_name : string)
  : option (string -> option string -> option Discord.Server) :=
  if String.eqb server_name "discord"
  then Some (fun user_id api_key => Some (Discord.create_server user_id api_key))
  else None.

(** A Discord with one guild and one text channel. *)
Definition general : Discord.Channel :=
  {| Discord.channel_id := 456;
     Discord.channel_name := "general";
     Discord.history := Py.Ok [] |}.

Definition guild : Discord.Guild :=
  {| Discord.guild_id := 123;
     Discord.guild_name := "guild";
     Discord.text_channels := [general];
     Discord.large := false;
     Discord.members :=
       [ {| Discord.member_id := 1; Discord.member_name := "ann" |};
         {| Discord.member_id := 2; Discord.member_name := "ben" |} ];
     Discord.members_chunked :=
       [ {| Discord.member_id := 1; Discord.member_name := "ann" |};
         {| Discord.member_id := 2; Discord.member_name := "ben" |} ];
     Discord.may_ban := true |}.

(** Collaborators, given the credential store and the gateway delay. *)
Definition env_with
    (credentials : option string -> string -> option (gmap string string))
    (delay : string -> option nat) : Discord.Env :=
  {| Discord.get_user_credentials := credentials;
     Discord.ready_after := delay;
     Discord.guilds := [guild];
     Discord.fetch_channel := fun _ => Py.Raise (Py.NotFound "Unknown Channel");
     Discord.guild_ban := fun _ _ _ _ => Py.Ok ();
     Discord.upstream := fun _ _ _ => Py.Ok "done";
     Discord.str_other := fun _ => "?";
     Discord.dump_members :=
       fun ms => String.concat "," (map Discord.member_name ms) |}.

(** No credentials are stored for anybody. *)
Definition no_credentials : Discord.Env :=
  env_with (fun _ _ => None) (fun _ => Some 1%nat).

(** Every user has a token of their own; the gateway is ready at once. *)
Definition with_credentials : Discord.Env :=
  env_with (fun _ user => Some {[ "token" := "token-of-" +:+ user ]})
           (fun _ => Some 1%nat).

(** Credentials are stored, but the gateway takes 45 time units. *)
Definition slow_gateway : Discord.Env :=
  env_with (fun _ user => Some {[ "token" := "token-of-" +:+ user ]})
           (fun _ => Some 45%nat).

(** The instance a handler is run on lives in the router's [objects]; the
    handler may set attributes on it and assign the global [bot]. *)
Definition operate {A} (instance : nat)
    (handler : Discord.Server -> Discord.Globals -> Discord.Outcome A)
    (p : Remote.State (Obj := Discord.Server) * Discord.Globals)
  : Remote.State (Obj := Discord.Server) * Discord.Globals
    * option (Py.result A) :=
  let '(st, g) := p in
  match Remote.objects st !! instance with
  | None => (p, None)
  | Some s =>
      let o := handler s g in
      ({| Remote.user_session_transports := Remote.user_session_transports st;
          Remote.user_server_instances := Remote.user_server_instances st;
          Remote.objects := <[instance := Discord.server_after o]> (Remote.objects st);
          Remote.transports_made := Remote.transports_made st;
          Remote.factory_calls := Remote.factory_calls st;
          Remote.streaming := Remote.streaming st |},
       Discord.globals_after o,
       Some (Discord.returned o))
  end.

(** The session key of the examples, and a server whose bot is up. *)
Definition alice : string := Remote.session_key "discord" "alice".

Definition started : Discord.Server :=
  {| Discord.user_id := "alice"; Discord.api_key := None;
     Discord.bot_task := Some (Discord.Running 0); Discord.bot_ready := true |}.

Definition bot_up : Discord.Globals :=
  {| Discord.bot := Some {| Discord.bot_ident := 0; Discord.connected := true |};
     Discord.bots_made := 1 |}.

End Deployed.

(** ** Sessions side by side *)

Module Isolation.

Import Remote.

Section Sessions.

Context {Obj : Type}.
Variable servers : string -> option (string -> option string -> option Obj).

(** Every stored instance is an object that has been built, no two keys
    hold the same instance, and there is one object per key. *)
Definition allocated (st : State (Obj := Obj)) : Prop :=
  (forall key instance,
     user_server_instances st !! key = Some instance ->
     (instance < length (objects st))%nat) /\
  (forall key1 key2 instance,
     user_server_instances st !! key1 = Some instance ->
     user_server_instances st !! key2 = Some instance -> key1 = key2) /\
  size (user_server_instances st) = length (objects st).

(** A request that concerns a session key: a connection asking for it, or
    the end of a connection that was opened for it. *)
Definition touches (key : string) (st : State (Obj := Obj)) (rq : Request)
  : Prop :=
  match rq with
  | Connect name enc => session_key name enc = key /\ is_Some (servers name)
  | Disconnect t =>
      exists c, streaming st !! t = Some c /\ conn_key c = key
  | Post _ _ => False
  end.

(** A run none of whose requests concerns the key. *)
Fixpoint quiet (key : string) (rqs : list Request) (st : State (Obj := Obj))
  : Prop :=
  match rqs with
  | [] => True
  | rq :: rest =>
      ~ touches key st rq /\ quiet key rest (step servers rq st).1
  end.

End Sessions.

End Isolation.

(** ** Discovery of the servers and the routes of the application *)

Module Registry.

Import Py.

Section Discovery.

(** What a server module exports: its [server] attribute and its
    [get_initialization_options] attribute. *)
Context {Factory Options : Type}.

(** [hasattr] on the loaded module. *)
Record ServerModule := {
  server : option Factory;
  get_initialization_options : option Options
}.

(** An item of the [servers/] directory as [discover_servers] looks at it:
    [item.name], [item.is_dir()], whether [item / "main.py"] exists, and
    what loading and executing that file gives. *)
Record DirEntry := {
  entry_name : string;
  is_dir : bool;
  has_main : bool;
  load : result ServerModule
}.

(** The lines [discover_servers] logs per item. *)
Inductive LogLine :=
| Loaded (server_name : string)
| Incomplete (server_name : string)
| Failed (server_name : string) (error : string).

(** [d[k] = v] on a dictionary, which keeps its keys in insertion order. *)
Fixpoint dict_set {V} (k : string) (v : V) (d : list (string * V))
  : list (string * V) :=
  match d with
  | [] => [(k, v)]
  | (k', v') :: rest =>
      if String.eqb k' k then (k, v) :: rest else (k', v') :: dict_set k v rest
  end.

(** [d.get(k)]. *)
Definition dict_get {V} (k : string) (d : list (string * V)) : option V :=
  snd <$> List.find (fun kv => String.eqb kv.1 k) d.

(** The body of the loop of [discover_servers], lines 36-67. *)
Definition discover_item (item : DirEntry)
    (servers : list (string * (Factory * Options)))
  : list (string * (Factory * Options)) * list LogLine :=
  if is_dir item then
    if has_main item then
      match load item with
      | Raise e => (servers, [Failed (entry_name item) (exn_str e)])
      | Ok server_module =>
          match server server_module,
                get_initialization_options server_module with
          | Some factory, Some options =>
              (dict_set (entry_name item) (factory, options) servers,
               [Loaded (entry_name item)])
          | _, _ => (servers, [Incomplete (entry_name item)])
          end
      end
    else (servers, [])
  else (servers, []).

(** [discover_servers], lines 27-69, over the items of the directory. *)
Fixpoint discover_servers (items : list DirEntry)
    (servers : list (string * (Factory * Options)))
  : list (string * (Factory * Options)) * list LogLine :=
  match items with
  | [] => (servers, [])
  | item :: rest =>
      let '(servers1, log1) := discover_item item servers in
      let '(servers2, log2) := discover_servers rest servers1 in
      (servers2, log1 ++ log2)
  end.

(** An item that ends up in [servers]. *)
Definition usable (item : DirEntry) : bool :=
  is_dir item && has_main item &&
  match load item with
  | Ok server_module =>
      bool_decide (is_Some (server server_module)) &&
      bool_decide (is_Some (get_initialization_options server_module))
  | Raise _ => false
  end.

(** What an item adds to an empty [servers]. *)
Definition registered (item : DirEntry) : list (string * (Factory * Options)) :=
  (discover_item item []).1.

Record Route := {
  path : string;
  methods : option (list string)
}.

(** The routes [create_starlette_app] builds, lines 78-195: per server the
    SSE route and the POST route for messages, then the two status
    routes. *)
Definition routes (servers : list (string * (Factory * Options)))
  : list Route :=
  flat_map
    (fun entry =>
       [ {| path := "/" +:+ entry.1 +:+ "/{session_key}"; methods := None |};
         {| path := "/" +:+ entry.1 +:+ "/{session_key}/messages/";
            methods := Some ["POST"%string] |} ])
    servers
  ++ [ {| path := "/"; methods := None |};
       {| path := "/health_check"; methods := None |} ].

(** The JSON body of a status response. *)
Record Status := {
  status : string;
  message : option string;
  status_servers : list string
}.

(** [root_handler], lines 183-187. *)
Definition root_handler (servers : list (string * (Factory * Options)))
  : Status :=
  {| status := "ok"; message := Some "GuMCP server running"%string;
     status_servers := servers.*1 |}.

(** [health_check], lines 191-193. *)
Definition health_check (servers : list (string * (Factory * Options)))
  : Status :=
  {| status := "ok"; message := None; status_servers := servers.*1 |}.

End Discovery.

End Registry.

(** ** The launcher of [main.py] and the arguments of [remote.main] *)

Module Launcher.

Import Py.

(** The parsed arguments: [args.host] and [args.port]. *)
Record Namespace := {
  host : string;
  port : Z
}.

(** [main.py], lines 35-40: the argument list handed to [remote.main].  An
    empty host and a port of 0 are falsy and are left out. *)
Definition forwarded_argv (prog : string) (args : Namespace) : list string :=
  [prog]
  ++ (if bool_decide (host args = EmptyString) then []
      else ["--host"%string; host args])
  ++ (if bool_decide (port args = 0) then []
      else ["--port"%string; Discord.str_of_Z (port args)]).

Definition is_digit (c : ascii) : bool :=
  existsb (Ascii.eqb c) ["0"; "1"; "2"; "3"; "4"; "5"; "6"; "7"; "8"; "9"]%char.

Fixpoint all_digits (s : string) : bool :=
  match s with
  | EmptyString => true
  | String c r => is_digit c && all_digits r
  end.

(** A decimal literal: digits, with an optional minus sign in front. *)
Definition decimal_literal (tok : string) : bool :=
  match tok with
  | String "-" (String c r) => all_digits (String c r)
  | String c r => all_digits (String c r)
  | EmptyString => false
  end.

(** Tokens [argparse] takes as the value of the option before them
    without further ado: the empty string and what does not start with
    a dash. *)
Definition plain_value (tok : string) : bool :=
  match tok with
  | String "-" _ => false
  | _ => true
  end.

(** The parser of [remote.main] (lines 207-211) on argument lists made of
    [--host VALUE] and [--port LITERAL] pairs; later options override
    earlier ones.  Every other argument list ([--opt=value],
    abbreviations, values that start with a dash, ports that are not
    plain decimal literals) is outside this model: [None]. *)
Fixpoint parse_from (args : Namespace) (toks : list string)
  : option Namespace :=
  match toks with
  | [] => Some args
  | opt :: value :: rest =>
      if String.eqb opt "--host" then
        if plain_value value
        then parse_from {| host := value; port := port args |} rest
        else None
      else if String.eqb opt "--port" then
        if decimal_literal value then
          match Discord.int_of_str value with
          | Ok p => parse_from {| host := host args; port := p |} rest
          | Raise _ => None
          end
        else None
      else None
  | _ => None
  end.

(** [parser.parse_args()] of [remote.main]: it reads [sys.argv[1:]], with
    the defaults [0.0.0.0] and [8000]. *)
Definition parse_args (argv : list string) : option Namespace :=
  parse_from {| host := "0.0.0.0"; port := 8000 |} (tail argv).

End Launcher.

(** ** More of the Discord module *)

Module DiscordAuth.

Import Py Discord.

(** [validate_credentials], lines 42-70, run by [python main.py auth].
    [probe token] is the exception, if any, that leaves the [try] block
    (lines 58-64) in which a test bot is started with the token and
    closed again. *)
Definition validate_credentials (env : Env) (probe : string -> option exn)
    (user_id : string) : result (gmap string string) :=
  let missing :=
    Raise (ValueError ("Discord bot token not found for user " +:+ user_id
                       +:+ ". Please create the required auth file first.")) in
  match get_user_credentials env None user_id with
  | None => missing
  | Some credentials =>
      if bool_decide (credentials = ∅) then missing
      else
        match credentials !! "token" with
        | None => missing
        | Some token =>
            match probe token with
            | Some _ => Raise (ValueError "Invalid Discord token")
            | None => Ok credentials
            end
        end
  end.

(** The resources [handle_list_resources] builds from a list of guilds
    (lines 153-162). *)
Definition resources_of (gs : list Guild) : list Resource :=
  flat_map
    (fun guild =>
       map (fun channel =>
              {| uri := resource_uri (guild_id guild) (channel_id channel);
                 mime_type := "text/plain";
                 name := guild_name guild +:+ "/" +:+ channel_name channel |})
           (text_channels guild))
    gs.

(** What [handle_read_resource] makes of the outcome of its [try] block
    (lines 210-223). *)
Definition as_text (r : result string) : string :=
  match r with
  | Ok text => text
  | Raise e => "Error reading resource: " +:+ exn_str e
  end.

(** The branch of the dispatch of [handle_call_tool] a tool name selects,
    behind the argument check. *)
Definition tool_branch (env : Env) (g : Globals) (name : string)
    (arguments : gmap string value) : list Event * result string :=
  if String.eqb name "ban_member" then ban_member env g arguments
  else if String.eqb name "list_members" then list_members env g arguments
  else ([], upstream env name arguments (bot g)).

(** The exceptions of discord.py that the [except] clauses of
    [ban_member] turn into text. *)
Definition http_error (e : exn) : bool :=
  match e with
  | Forbidden _ | NotFound _ | HTTPException _ => true
  | _ => false
  end.

End DiscordAuth.

(** ** The moderation tools of [handle_call_tool] *)

Module Moderation.

Import Py Discord.

Record Role := {
  role_ident : Z;
  role_name : string
}.

(** What the three tools look at in a guild beyond [Discord.Guild]: the
    permissions of [guild.me], [guild.get_member] with [member.voice] as a
    truth value, [guild.get_role], and [guild.me.top_role <= role]. *)
Record GuildView := {
  kick_members : bool;
  mute_members : bool;
  manage_roles : bool;
  get_member : Z -> option bool;
  get_role : Z -> option Role;
  top_role_le : Role -> bool
}.

(** The calls that change something on Discord. *)
Inductive Call :=
| Kick (guild member : Z) (reason : value)
| EditMute (guild member : Z) (mute : value)
| AddRoles (guild member role : Z)
| RemoveRoles (guild member role : Z).

(** Discord as the three tools meet it: the view of each guild, the
    answer to each call, and the truth value of an array or an object
    passed where a boolean is expected. *)
Record Api := {
  view : Guild -> GuildView;
  answer : Call -> result unit;
  compound_truthy : bool
}.

(** [bool(v)]. *)
Definition truthy (api : Api) (v : value) : bool :=
  match v with
  | VNone => false
  | VBool b => b
  | VInt z => negb (z =? 0)
  | VFloat q => negb (Qeq_bool q 0)
  | VInf | VNaN => true
  | VStr s => negb (String.eqb s EmptyString)
  | VCompound => compound_truthy api
  end.

(** [guild = bot.get_guild(int(guild_id))], with the text for a guild the
    bot does not know. *)
Definition find_guild (env : Env) (g : Globals) (guild_id : value)
  : result (Guild + string) :=
  b ← bot_attr g "get_guild";
  gid ← py_int guild_id;
  Ok (match get_guild env b gid with
      | Some gd => inl gd
      | None => inr ("Server not found: " +:+ py_str env guild_id)
      end).

(** The [kick_member] branch behind its argument check, lines 716-738. *)
Definition kick_member (env : Env) (api : Api) (g : Globals)
    (arguments : gmap string value) : list Call * result string :=
  let guild_id := item arguments "guild_id" in
  let user_id := item arguments "user_id" in
  let reason := get arguments "reason" (VStr "No reason provided") in
  match find_guild env g guild_id with
  | Raise e => ([], Raise e)
  | Ok (inr text) => ([], Ok text)
  | Ok (inl gd) =>
      if negb (kick_members (view api gd)) then
        ([], Ok "Bot does not have permission to kick members")
      else
        match py_int user_id with
        | Raise e => ([], Raise e)
        | Ok uid =>
            match get_member (view api gd) uid with
            | None =>
                ([], Ok ("Member not found in server: " +:+ py_str env user_id))
            | Some _ =>
                ([Kick (Discord.guild_id gd) uid reason],
                 match answer api (Kick (Discord.guild_id gd) uid reason) with
                 | Raise (Forbidden _) =>
                     Ok "Insufficient permissions to kick this user"
                 | Raise (NotFound m) | Raise (HTTPException m) =>
                     Ok ("Failed to kick user: " +:+ m)
                 | Raise e => Raise e
                 | Ok _ =>
                     Ok ("User " +:+ py_str env user_id
                         +:+ " kicked successfully")
                 end)
            end
        end
  end.

(** The [mute_member] branch behind its argument check, lines 744-769. *)
Definition mute_member (env : Env) (api : Api) (g : Globals)
    (arguments : gmap string value) : list Call * result string :=
  let guild_id := item arguments "guild_id" in
  let user_id := item arguments "user_id" in
  let mute := item arguments "mute" in
  match find_guild env g guild_id with
  | Raise e => ([], Raise e)
  | Ok (inr text) => ([], Ok text)
  | Ok (inl gd) =>
      if negb (mute_members (view api gd)) then
        ([], Ok "Bot does not have permission to mute members")
      else
        match py_int user_id with
        | Raise e => ([], Raise e)
        | Ok uid =>
            match get_member (view api gd) uid with
            | None =>
                ([], Ok ("Member not found in server: " +:+ py_str env user_id))
            | Some false => ([], Ok "Member is not in a voice channel")
            | Some true =>
                ([EditMute (Discord.guild_id gd) uid mute],
                 match answer api (EditMute (Discord.guild_id gd) uid mute) with
                 | Raise (Forbidden _) =>
                     Ok "Insufficient permissions to mute this user"
                 | Raise (NotFound m) | Raise (HTTPException m) =>
                     Ok ("Failed to "
                         +:+ (if truthy api mute then "mute" else "unmute")
                         +:+ " user: " +:+ m)
                 | Raise e => Raise e
                 | Ok _ =>
                     Ok ("User " +:+ py_str env user_id +:+ " "
                         +:+ (if truthy api mute then "muted" else "unmuted")
                         +:+ " successfully")
                 end)
            end
        end
  end.

(** The [assign_role] branch behind its argument check, lines 775-808. *)
Definition assign_role (env : Env) (api : Api) (g : Globals)
    (arguments : gmap string value) : list Call * result string :=
  let guild_id := item arguments "guild_id" in
  let user_id := item arguments "user_id" in
  let role_id := item arguments "role_id" in
  let add := item arguments "add" in
  match find_guild env g guild_id with
  | Raise e => ([], Raise e)
  | Ok (inr text) => ([], Ok text)
  | Ok (inl gd) =>
      if negb (manage_roles (view api gd)) then
        ([], Ok "Bot does not have permission to manage roles")
      else
        match py_int user_id with
        | Raise e => ([], Raise e)
        | Ok uid =>
            match get_member (view api gd) uid with
            | None =>
                ([], Ok ("Member not found in server: " +:+ py_str env user_id))
            | Some _ =>
                match py_int role_id with
                | Raise e => ([], Raise e)
                | Ok rid =>
                    match get_role (view api gd) rid with
                    | None =>
                        ([], Ok ("Role not found: " +:+ py_str env role_id))
                    | Some role =>
                        if top_role_le (view api gd) role then
                          ([], Ok "Bot's highest role is not high enough to assign this role")
                        else
                          let call :=
                            if truthy api add
                            then AddRoles (Discord.guild_id gd) uid
                                          (role_ident role)
                            else RemoveRoles (Discord.guild_id gd) uid
                                             (role_ident role) in
                          ([call],
                           match answer api call with
                           | Raise (Forbidden _) =>
                               Ok "Insufficient permissions to manage roles for this user"
                           | Raise (NotFound m) | Raise (HTTPException m) =>
                               Ok ("Failed to "
                                   +:+ (if truthy api add then "add" else "remove")
                                   +:+ " role: " +:+ m)
                           | Raise e => Raise e
                           | Ok _ =>
                               Ok ("Role " +:+ role_name role +:+ " "
                                   +:+ (if truthy api add then "added to"
                                        else "removed from")
                                   +:+ " user " +:+ py_str env user_id
                                   +:+ " successfully")
                           end)
                    end
                end
            end
        end
  end.

End Moderation.

(** ** The Linear utilities of [utils/linear/util.py] *)

Module Linear.

(** JSON values as Python holds them. *)
#[local] Unset Elimination Schemes.
Inductive json :=
| JNull
| JBool (b : bool)
| JInt (z : Z)
| JFloat (q : Q)
| JStr (s : string)
| JList (items : list json)
| JDict (entries : list (string * json)).
#[local] Set Elimination Schemes.

(** [bool(v)]. *)
Definition truthy (v : json) : bool :=
  match v with
  | JNull => false
  | JBool b => b
  | JInt z => negb (z =? 0)
  | JFloat q => negb (Qeq_bool q 0)
  | JStr s => negb (String.eqb s EmptyString)
  | JList [] | JDict [] => false
  | JList (_ :: _) | JDict (_ :: _) => true
  end.

(** [d.get(key)] and [d.get(key, default)]. *)
Definition get (d : gmap string json) (key : string) : json :=
  default JNull (d !! key).

Definition get_or (d : gmap string json) (key : string) (dflt : json) : json :=
  default dflt (d !! key).

(** How a call ends when it does not return: the [ValueError]s the module
    raises itself, and whatever a library call raises. *)
Inductive failure :=
| ValueError (msg : string)
| LibraryError (what : string).

Inductive outcome (A : Type) :=
| Done (a : A)
| Fails (f : failure).
Arguments Done {A} a.
Arguments Fails {A} f.

(** *** The callback handler *)

(** The two attributes [authenticate_and_save_credentials] puts on the
    HTTP server. *)
Record CallbackServer := {
  auth_code : option string;
  auth_error : option string
}.

Definition waiting : CallbackServer :=
  {| auth_code := None; auth_error := None |}.

(** A GET request: [self.path], and the dictionary
    [parse_qs(urlparse(self.path).query)] makes of it, each key with its
    first value and the further ones. *)
Record Get := {
  path : string;
  query_params : gmap string (string * list string)
}.

Record Response := {
  status_code : nat;
  content_type : option string;
  body : string
}.

Definition nl : string := String "010" EmptyString.

(** The page of lines 55-67. *)
Definition page (success_message : string) : string :=
  nl +:+ "        <html>" +:+ nl
  +:+ "        <head><title>Linear Authentication</title></head>" +:+ nl
  +:+ "        <body>" +:+ nl
  +:+ "        <h1>" +:+ success_message +:+ "</h1>" +:+ nl
  +:+ "        <script>" +:+ nl
  +:+ "            setTimeout(function() {" +:+ nl
  +:+ "                window.close();" +:+ nl
  +:+ "            }, 3000);" +:+ nl
  +:+ "        </script>" +:+ nl
  +:+ "        </body>" +:+ nl
  +:+ "        </html>" +:+ nl
  +:+ "        ".

(** [OAuthCallbackHandler.do_GET], lines 31-68. *)
Definition do_GET (rq : Get) (server : CallbackServer)
  : CallbackServer * Response :=
  if String.eqb (path rq) "/favicon.ico" then
    (server, {| status_code := 204; content_type := None;
                body := EmptyString |})
  else
    let '(server1, success_message) :=
      match query_params rq !! "code" with
      | Some (code, _) =>
          ({| auth_code := Some code; auth_error := auth_error server |},
           "Authentication successful! You can close this window."%string)
      | None =>
          match query_params rq !! "error" with
          | Some (error, _) =>
              ({| auth_code := auth_code server; auth_error := Some error |},
               "Authentication error: " +:+ error
               +:+ ". You can close this window.")
          | None =>
              ({| auth_code := auth_code server;
                  auth_error := Some "No code or error received"%string |},
               "Authentication failed. You can close this window."%string)
          end
      end in
    (server1, {| status_code := 200; content_type := Some "text/html"%string;
                 body := page success_message |}).

(** The requests the server thread handles, one after the other. *)
Definition serve (rqs : list Get) (server : CallbackServer) : CallbackServer :=
  fold_left (fun sv rq => (do_GET rq sv).1) rqs server.

(** A request that sets [auth_error]: any path but the favicon's without
    a [code] parameter. *)
Definition sets_error (rq : Get) : bool :=
  negb (String.eqb (path rq) "/favicon.ico")
  && bool_decide (query_params rq !! "code" = None).

(** A request that sets [auth_code]. *)
Definition sets_code (rq : Get) : bool :=
  negb (String.eqb (path rq) "/favicon.ico")
  && bool_decide (is_Some (query_params rq !! "code")).

(** *** The authentication flow *)

Definition LINEAR_OAUTH_AUTHORIZE_URL : string :=
  "https://linear.app/oauth/authorize".

(** [token_response.ok], [.text] and [.json()]. *)
Record TokenResponse := {
  ok : bool;
  text : string;
  json_body : outcome (gmap string json)
}.

(** The collaborators of the module. *)
Record Env := {
  (** [auth_client.get_oauth_config(service_name)] *)
  get_oauth_config : string -> gmap string json;
  (** what [HTTPServer(("localhost", 8080), ...)] raises, if anything *)
  bind_error : option string;
  (** the server attributes as the loop condition reads them after [n]
      sleeps, and as they are read once the server thread is joined *)
  observe : nat -> CallbackServer;
  final : CallbackServer;
  (** [requests.post(LINEAR_OAUTH_TOKEN_URL, data=...)] *)
  post_token : gmap string json -> outcome TokenResponse;
  (** [create_auth_client(api_key).get_user_credentials(service, user)] *)
  get_user_credentials :
    option string -> string -> string -> option (gmap string json);
  (** [str(v)] of a float, a list or a dictionary *)
  str_other : json -> string
}.

(** [f"{v}"]. *)
Definition str (env : Env) (v : json) : string :=
  match v with
  | JNull => "None"
  | JBool true => "True"
  | JBool false => "False"
  | JInt z => Discord.str_of_Z z
  | JStr s => s
  | _ => str_other env v
  end.

(** What the flow does to the world, in order. *)
Inductive Effect :=
| StartServer
| OpenBrowser (url : string)
| Sleep
| Shutdown
| PostToken (data : gmap string json)
| SaveCredentials (service_name user_id : string)
                  (credentials : gmap string json).

(** [not server.auth_code and not server.auth_error]. *)
Definition set (o : option string) : bool :=
  match o with
  | Some (String _ _) => true
  | _ => false
  end.

Definition pending (server : CallbackServer) : bool :=
  negb (set (auth_code server)) && negb (set (auth_error server)).

Definition max_wait_time : nat := 120.

(** The loop of lines 139-141, entered with [wait_time]; [budget] bounds
    the iterations, of which there can be no more than [max_wait_time].
    The result is [wait_time] when the loop is left. *)
Fixpoint wait_loop (env : Env) (budget wait_time : nat) : nat :=
  match budget with
  | O => wait_time
  | S budget' =>
      if pending (observe env wait_time) && (wait_time <? max_wait_time)%nat
      then wait_loop env budget' (S wait_time)
      else wait_time
  end.

Definition wait (env : Env) : nat := wait_loop env max_wait_time 0.

(** [authenticate_and_save_credentials], lines 92-195. *)
Definition authenticate_and_save_credentials (env : Env)
    (user_id service_name : string) (scopes : list string)
  : list Effect * outcome (gmap string json) :=
  let oauth_config := get_oauth_config env service_name in
  let client_id := get oauth_config "client_id" in
  let client_secret := get oauth_config "client_secret" in
  if negb (truthy client_id) || negb (truthy client_secret) then
    ([], Fails (ValueError "Missing client_id or client_secret in OAuth config"))
  else
    match bind_error env with
    | Some what => ([], Fails (LibraryError what))
    | None =>
        let scope_string := String.concat " " scopes in
        let redirect_uri :=
          get_or oauth_config "redirect_uri"
                 (JStr "http://localhost:8080/callback") in
        let auth_url :=
          LINEAR_OAUTH_AUTHORIZE_URL
          +:+ "?client_id=" +:+ str env client_id
          +:+ "&scope=" +:+ scope_string
          +:+ "&redirect_uri=" +:+ str env redirect_uri
          +:+ "&response_type=code" in
        let waited :=
          [StartServer; OpenBrowser auth_url]
          ++ replicate (wait env) Sleep ++ [Shutdown] in
        match auth_error (final env), auth_code (final env) with
        | Some (String c e), _ =>
            (waited,
             Fails (ValueError ("Authentication failed: " +:+ String c e)))
        | _, Some (String c code) =>
            let token_request_data : gmap string json :=
              {[ "client_id" := client_id;
                 "client_secret" := client_secret;
                 "code" := JStr (String c code);
                 "redirect_uri" := redirect_uri;
                 "grant_type" := JStr "authorization_code" ]} in
            let posted := waited ++ [PostToken token_request_data] in
            match post_token env token_request_data with
            | Fails f => (posted, Fails f)
            | Done token_response =>
                if negb (ok token_response) then
                  (posted,
                   Fails (ValueError ("Token exchange failed: "
                                      +:+ text token_response)))
                else
                  match json_body token_response with
                  | Fails f => (posted, Fails f)
                  | Done token_data =>
                      let access_token := get token_data "access_token" in
                      if negb (truthy access_token) then
                        (posted,
                         Fails (ValueError
                                  "No access token received in the token response"))
                      else
                        let credentials : gmap string json :=
                          {[ "access_token" := access_token;
                             "refresh_token" := get token_data "refresh_token";
                             "token_type" :=
                               get_or token_data "token_type" (JStr "Bearer");
                             "scope" :=
                               get_or token_data "scope" (JStr scope_string);
                             "expires_in" := get token_data "expires_in" ]} in
                        (posted
                         ++ [SaveCredentials service_name user_id credentials],
                         Done credentials)
                  end
            end
        | _, _ =>
            (waited,
             Fails (ValueError "Authentication timed out or was canceled"))
        end
    end.

(** The effect of saving credentials. *)
Definition is_save (e : Effect) : bool :=
  match e with
  | SaveCredentials _ _ _ => true
  | _ => false
  end.

(** The effects of a flow that got as far as the token request. *)
Definition is_post (e : Effect) : bool :=
  match e with
  | PostToken _ => true
  | _ => false
  end.

(** *** The client *)

(** A [LinearClient]: the token it was made with. *)
Record LinearClient := {
  access_token : json
}.

(** The [Authorization] header of [_create_client], line 82. *)
Definition authorization (env : Env) (client : LinearClient) : string :=
  "Bearer " +:+ str env (access_token client).

(** [get_linear_client], lines 198-223. *)
Definition get_linear_client (env : Env) (user_id : string)
    (api_key : option string) : outcome LinearClient :=
  let missing :=
    Fails (ValueError ("Credentials not found for user " +:+ user_id)) in
  match get_user_credentials env api_key "linear" user_id with
  | None => missing
  | Some credentials_data =>
      if bool_decide (size credentials_data = 0%nat) then missing
      else
        let token := get credentials_data "access_token" in
        if truthy token then Done {| access_token := token |} else missing
  end.

End Linear.

(** ** Inputs for the examples *)

Module Examples.

Import Py.

(** A [servers/] directory: the Discord adapter, a module that raises
    while it is loaded, a plain file, and a module without
    [get_initialization_options]. *)
Definition discord_item
  : Registry.DirEntry
      (Factory := string -> option string -> option Discord.Server)
      (Options := unit) :=
  {| Registry.entry_name := "discord";
     Registry.is_dir := true;
     Registry.has_main := true;
     Registry.load :=
       Ok {| Registry.server :=
               Some (fun user_id api_key =>
                       Some (Discord.create_server user_id api_key));
             Registry.get_initialization_options := Some () |} |}.

Definition broken_item
  : Registry.DirEntry
      (Factory := string -> option string -> option Discord.Server)
      (Options := unit) :=
  {| Registry.entry_name := "broken";
     Registry.is_dir := true;
     Registry.has_main := true;
     Registry.load := Raise (ValueError "import failed") |}.

Definition readme_item
  : Registry.DirEntry
      (Factory := string -> option string -> option Discord.Server)
      (Options := unit) :=
  {| Registry.entry_name := "README.md";
     Registry.is_dir := false;
     Registry.has_main := false;
     Registry.load := Raise (ValueError "not a module") |}.

(** A callback that carries a code, and a request for another page. *)
Definition code_callback : Linear.Get :=
  {| Linear.path := "/callback?code=abc";
     Linear.query_params := {[ "code" := ("abc"%string, []) ]} |}.

Definition stray_request : Linear.Get :=
  {| Linear.path := "/";
     Linear.query_params := ∅ |}.

(** The collaborators of the Linear flow: a complete OAuth configuration,
    a callback seen at the third check, a token endpoint that answers
    with an access token, and a credential store with the given
    content. *)
Definition linear_env (served : list Linear.Get)
    (stored : option (gmap string Linear.json)) : Linear.Env :=
  {| Linear.get_oauth_config := fun _ =>
       {[ "client_id" := Linear.JStr "id";
          "client_secret" := Linear.JStr "secret" ]};
     Linear.bind_error := None;
     Linear.observe := fun n =>
       if (n <? 3)%nat then Linear.waiting
       else Linear.serve served Linear.waiting;
     Linear.final := Linear.serve served Linear.waiting;
     Linear.post_token := fun _ =>
       Linear.Done
         {| Linear.ok := true; Linear.text := "";
            Linear.json_body :=
              Linear.Done {[ "access_token" := Linear.JStr "lin_token" ]} |};
     Linear.get_user_credentials := fun _ _ _ => stored;
     Linear.str_other := fun _ => "?" |}.

(** The credentials the flow saves against [linear_env]. *)
Definition saved_credentials : gmap string Linear.json :=
  {[ "access_token" := Linear.JStr "lin_token";
     "refresh_token" := Linear.JNull;
     "token_type" := Linear.JStr "Bearer";
     "scope" := Linear.JStr "read write";
     "expires_in" := Linear.JNull ]}.

End Examples.

(** ** Facts about the router *)

Section RouterFacts.

Import Remote.

Context {Obj : Type}.
Variable servers : string -> option (string -> option string -> option Obj).

Implicit Types (st : State (Obj := Obj)) (rq : Request) (key : string).

(** What [handle_sse_enter] does when the key already has an instance. *)
Lemma enter_present factory name enc st instance :
  user_server_instances st !! session_key name enc = Some instance ->
  handle_sse_enter factory name enc st =
  let c := {| conn_key := session_key name enc;
              conn_transport := transports_made st;
              conn_instance := instance |} in
  ({| user_session_transports :=
        <[session_key name enc := transports_made st]> (user_session_transports st);
      user_server_instances := user_server_instances st;
      objects := objects st;
      transports_made := S (transports_made st);
      factory_calls := factory_calls st;
      streaming := <[transports_made st := c]> (streaming st) |},
   Established c).
Proof.
  intros H. unfold handle_sse_enter.
  destruct (user_and_api_key enc) as [u a]. rewrite H. reflexivity.
Qed.

(** ... when it has none and the factory raises ... *)
Lemma enter_failed factory name enc st :
  user_server_instances st !! session_key name enc = None ->
  factory (user_and_api_key enc).1 (user_and_api_key enc).2 = None ->
  handle_sse_enter factory name enc st =
  ({| user_session_transports :=
        <[session_key name enc := transports_made st]> (user_session_transports st);
      user_server_instances := user_server_instances st;
      objects := objects st;
      transports_made := S (transports_made st);
      factory_calls := session_key name enc :: factory_calls st;
      streaming := streaming st |},
   ConstructionFailed).
Proof.
  intros H Hf. unfold handle_sse_enter.
  destruct (user_and_api_key enc) as [u a]. simpl in Hf.
  by rewrite H, Hf.
Qed.

(** ... and when it has none and the factory returns an object. *)
Lemma enter_fresh factory name enc st obj :
  user_server_instances st !! session_key name enc = None ->
  factory (user_and_api_key enc).1 (user_and_api_key enc).2 = Some obj ->
  handle_sse_enter factory name enc st =
  let c := {| conn_key := session_key name enc;
              conn_transport := transports_made st;
              conn_instance := length (objects st) |} in
  ({| user_session_transports :=
        <[session_key name enc := transports_made st]> (user_session_transports st);
      user_server_instances :=
        <[session_key name enc := length (objects st)]> (user_server_instances st);
      objects := objects st ++ [obj];
      transports_made := S (transports_made st);
      factory_calls := session_key name enc :: factory_calls st;
      streaming := <[transports_made st := c]> (streaming st) |},
   Established c).
Proof.
  intros H Hf. unfold handle_sse_enter.
  destruct (user_and_api_key enc) as [u a]. simpl in Hf.
  by rewrite H, Hf.
Qed.

(** A transition never changes or removes the instance of a key, and calls
    no factory for a key that has one. *)
Lemma step_keeps_instance rq st key instance :
  user_server_instances st !! key = Some instance ->
  user_server_instances (step servers rq st).1 !! key = Some instance /\
  calls_for key (step servers rq st).1 = calls_for key st.
Proof.
  intros H. destruct rq as [name enc | t | name enc]; simpl.
  - destruct (servers name) as [factory|]; [|done].
    unfold handle_sse_enter.
    destruct (user_and_api_key enc) as [u a].
    destruct (user_server_instances st !! session_key name enc) eqn:E; [done|].
    assert (session_key name enc <> key) by congruence.
    unfold calls_for.
    destruct (factory u a); simpl; rewrite filter_cons;
      destruct (decide (session_key name enc = key)); try done.
    by rewrite lookup_insert_ne.
  - destruct (streaming st !! t); done.
  - destruct (servers name); done.
Qed.

Lemma step_serves_present rq st key instance :
  user_server_instances st !! key = Some instance ->
  requests_key servers key rq ->
  exists c, (step servers rq st).2 = Established c /\
            conn_key c = key /\ conn_instance c = instance.
Proof.
  intros H Hrq. destruct rq as [name enc | t | name enc]; try done.
  destruct Hrq as [<- [factory Hf]]. simpl. rewrite Hf.
  rewrite (enter_present _ _ _ _ _ H). simpl. eauto.
Qed.

Lemma step_serves_absent rq st key :
  user_server_instances st !! key = None ->
  construction_succeeds servers key ->
  requests_key servers key rq ->
  exists c, (step servers rq st).2 = Established c /\
            conn_key c = key /\
            user_server_instances (step servers rq st).1 !! key
              = Some (conn_instance c) /\
            calls_for key (step servers rq st).1 = S (calls_for key st).
Proof.
  intros H Hok Hrq. destruct rq as [name enc | t | name enc]; try done.
  destruct Hrq as [<- [factory Hf]]. simpl. rewrite Hf.
  destruct (Hok name enc factory eq_refl Hf) as [obj Hobj].
  unfold handle_sse_enter.
  destruct (user_and_api_key enc) as [u a]. simpl in Hobj.
  rewrite H, Hobj. simpl. eexists. repeat split.
  - by rewrite lookup_insert_eq.
  - unfold calls_for. simpl. rewrite filter_cons.
    by destruct (decide (session_key name enc = session_key name enc)).
Qed.

Lemma step_elsewhere rq st key :
  user_server_instances st !! key = None ->
  ~ requests_key servers key rq ->
  user_server_instances (step servers rq st).1 !! key = None /\
  calls_for key (step servers rq st).1 = calls_for key st.
Proof.
  intros H Hrq. destruct rq as [name enc | t | name enc]; simpl.
  - destruct (servers name) as [factory|] eqn:Hf; [|done].
    assert (session_key name enc <> key) as Hne.
    { intros Heq. apply Hrq. simpl. rewrite Hf. eauto. }
    unfold handle_sse_enter, calls_for.
    destruct (user_and_api_key enc) as [u a].
    destruct (user_server_instances st !! session_key name enc); [done|].
    destruct (factory u a); simpl; rewrite filter_cons;
      destruct (decide (session_key name enc = key)); try done.
    by rewrite lookup_insert_ne.
  - destruct (streaming st !! t); done.
  - destruct (servers name); done.
Qed.

Lemma requests_key_dec key rq :
  requests_key servers key rq \/ ~ requests_key servers key rq.
Proof.
  destruct rq as [name enc | t | name enc]; simpl; [|tauto..].
  destruct (decide (session_key name enc = key)); [|tauto].
  destruct (servers name); [left | right]; [eauto|].
  intros [_ [? ?]]. discriminate.
Qed.

Lemma run_cons rq rqs st :
  run servers (rq :: rqs) st =
  ((run servers rqs (step servers rq st).1).1,
   (step servers rq st).2 :: (run servers rqs (step servers rq st).1).2).
Proof.
  simpl. destruct (step servers rq st) as [st1 rp]. simpl.
  destruct (run servers rqs st1). reflexivity.
Qed.

Lemma run_app rqs1 rqs2 st :
  run servers (rqs1 ++ rqs2) st =
  ((run servers rqs2 (run servers rqs1 st).1).1,
   (run servers rqs1 st).2 ++ (run servers rqs2 (run servers rqs1 st).1).2).
Proof.
  revert st. induction rqs1 as [|rq rqs1 IH]; intros st.
  - simpl. by destruct (run servers rqs2 st).
  - rewrite <- app_comm_cons, !run_cons, IH. reflexivity.
Qed.

(** Once a key has an instance, every later request for the key is served
    with that instance and no factory is called for it again. *)
Lemma run_present rqs st key instance :
  user_server_instances st !! key = Some instance ->
  user_server_instances (run servers rqs st).1 !! key = Some instance /\
  calls_for key (run servers rqs st).1 = calls_for key st /\
  forall i rq, rqs !! i = Some rq -> requests_key servers key rq ->
    exists c, (run servers rqs st).2 !! i = Some (Established c) /\
              conn_key c = key /\ conn_instance c = instance.
Proof.
  revert st. induction rqs as [|rq rqs IH]; intros st H.
  - simpl. repeat split; try done.
  - rewrite run_cons. simpl.
    destruct (step_keeps_instance rq st key instance H) as [H1 H2].
    destruct (IH _ H1) as (IH1 & IH2 & IH3).
    repeat split; [done | congruence |].
    intros [|i] rq' Hi Hrq; simpl in *.
    + injection Hi as <-.
      destruct (step_serves_present rq st key instance H Hrq) as (c & -> & ?).
      eauto.
    + eauto.
Qed.

(** Before that, the first request for the key builds the instance. *)
Lemma run_absent rqs st key :
  user_server_instances st !! key = None ->
  construction_succeeds servers key ->
  Exists (requests_key servers key) rqs ->
  exists instance,
    user_server_instances (run servers rqs st).1 !! key = Some instance /\
    calls_for key (run servers rqs st).1 = S (calls_for key st) /\
    forall i rq, rqs !! i = Some rq -> requests_key servers key rq ->
      exists c, (run servers rqs st).2 !! i = Some (Established c) /\
                conn_key c = key /\ conn_instance c = instance.
Proof.
  intros H Hok. revert st H. induction rqs as [|rq rqs IH]; intros st H Hex.
  - by apply Exists_nil in Hex.
  - rewrite run_cons. simpl.
    destruct (requests_key_dec key rq) as [Hrq | Hrq].
    + destruct (step_serves_absent rq st key H Hok Hrq)
        as (c & Hc & Hk & Hi & Hn).
      destruct (run_present rqs _ key _ Hi) as (R1 & R2 & R3).
      exists (conn_instance c). repeat split; [done | congruence |].
      intros [|i] rq' Hl Hrq'; simpl in *; [|eauto].
      rewrite Hc. eauto.
    + destruct (step_elsewhere rq st key H Hrq) as [H1 H2].
      apply Exists_cons in Hex as [Hex | Hex]; [done|].
      destruct (IH _ H1 Hex) as (instance & R1 & R2 & R3).
      exists instance. repeat split; [done | congruence |].
      intros [|i] rq' Hl Hrq'; simpl in *; [|eauto].
      injection Hl as <-. done.
Qed.

Lemma consistent_initial : consistent (Obj := Obj) initial.
Proof. intros t c H. simpl in H. by rewrite lookup_empty in H. Qed.

Lemma consistent_step rq st :
  consistent st -> consistent (step servers rq st).1.
Proof.
  intros Hst. destruct rq as [name enc | t | name enc]; simpl.
  - destruct (servers name) as [factory|]; [|done].
    unfold handle_sse_enter.
    destruct (user_and_api_key enc) as [u a].
    destruct (user_server_instances st !! session_key name enc) eqn:E;
      [|destruct (factory u a)]; simpl; intros t c Hc; simpl in *.
    + destruct (decide (transports_made st = t)) as [<-|Hne].
      * rewrite lookup_insert_eq in Hc. injection Hc as <-. simpl.
        repeat split; [lia | done].
      * rewrite lookup_insert_ne in Hc by done.
        destruct (Hst t c Hc) as (? & ? & ?). repeat split; [done | lia | done].
    + destruct (decide (transports_made st = t)) as [<-|Hne].
      * rewrite lookup_insert_eq in Hc. injection Hc as <-. simpl.
        repeat split; [lia | by rewrite lookup_insert_eq].
      * rewrite lookup_insert_ne in Hc by done.
        destruct (Hst t c Hc) as (? & ? & Hi). repeat split; [done | lia |].
        rewrite lookup_insert_ne; [done|]. intros Heq. congruence.
    + destruct (Hst t c Hc) as (? & ? & ?). repeat split; [done | lia | done].
  - destruct (streaming st !! t) as [c0|] eqn:E; [|done].
    simpl. intros t' c Hc. simpl in *.
    apply lookup_delete_Some in Hc as [? Hc]. by apply Hst.
  - destruct (servers name); done.
Qed.

Lemma consistent_run rqs st :
  consistent st -> consistent (run servers rqs st).1.
Proof.
  revert st. induction rqs as [|rq rqs IH]; intros st H; [done|].
  rewrite run_cons. simpl. apply IH. by apply consistent_step.
Qed.

(** C1.  [handle_sse] looks the key up and stores the instance without an
    [await] in between, so under any interleaving of connections, other
    requests included: when the key has no instance, its factory succeeds
    and at least one connection asks for the key, the factory is called
    exactly once for the key, every connection that asks for it is
    established on one and the same instance, and at no point of the run
    is the key mapped to another instance. *)
Theorem single_construction_per_key rqs st key :
  user_server_instances st !! key = None ->
  construction_succeeds servers key ->
  Exists (requests_key servers key) rqs ->
  exists instance,
    calls_for key (run servers rqs st).1 = S (calls_for key st) /\
    (forall i rq, rqs !! i = Some rq -> requests_key servers key rq ->
       exists c, (run servers rqs st).2 !! i = Some (Established c) /\
                 conn_key c = key /\ conn_instance c = instance) /\
    (forall n other,
       user_server_instances (run servers (take n rqs) st).1 !! key = Some other ->
       other = instance).
Proof.
  intros H Hok Hex.
  destruct (run_absent rqs st key H Hok Hex) as (instance & R1 & R2 & R3).
  exists instance. repeat split; [done | done |].
  intros n other Hn.
  destruct (run_present (drop n rqs) _ key other Hn) as (P1 & _ & _).
  rewrite <- (take_drop n rqs), run_app in R1. simpl in R1. congruence.
Qed.

(** C2, as the code has it.  In a state the process can reach, a
    connection for a key that already has a live connection is not
    rejected: it is established on the same instance, its transport takes
    the place of the older one in [user_session_transports], and both
    connections are live, each with its own transport, afterwards. *)
Theorem second_connection_is_accepted rqs name enc t1 c1 :
  let st := (run servers rqs initial).1 in
  is_Some (servers name) ->
  streaming st !! t1 = Some c1 ->
  conn_key c1 = session_key name enc ->
  exists c2,
    (step servers (Connect name enc) st).2 = Established c2 /\
    conn_instance c2 = conn_instance c1 /\
    conn_transport c2 <> conn_transport c1 /\
    let st' := (step servers (Connect name enc) st).1 in
    streaming st' !! conn_transport c1 = Some c1 /\
    streaming st' !! conn_transport c2 = Some c2 /\
    user_session_transports st' !! session_key name enc
      = Some (conn_transport c2).
Proof.
  intros st [factory Hf] Hc Hk.
  destruct (consistent_run rqs initial consistent_initial t1 c1 Hc)
    as (Ht & Hlt & Hi).
  fold st in Hlt, Hi. rewrite Hk in Hi.
  simpl. rewrite Hf, (enter_present _ _ _ _ _ Hi). simpl.
  eexists. split; [reflexivity|]. simpl.
  repeat split.
  - lia.
  - rewrite lookup_insert_ne by lia. by rewrite Ht.
  - by rewrite lookup_insert_eq.
  - by rewrite lookup_insert_eq.
Qed.

(** C5.  When the connection of an established session closes, the key
    leaves [user_session_transports] while [user_server_instances] and the
    objects stay as they were: the key still has its instance, keeps it
    whatever happens later, and the next connection for the key is
    established on that instance without a factory call. *)
Theorem disconnect_keeps_instance rqs t c :
  let st := (run servers rqs initial).1 in
  streaming st !! t = Some c ->
  let st1 := (step servers (Disconnect t) st).1 in
  user_session_transports st1 !! conn_key c = None /\
  user_server_instances st1 = user_server_instances st /\
  objects st1 = objects st /\
  user_server_instances st1 !! conn_key c = Some (conn_instance c) /\
  (forall later,
     user_server_instances (run servers later st1).1 !! conn_key c
       = Some (conn_instance c)) /\
  (forall name enc,
     session_key name enc = conn_key c -> is_Some (servers name) ->
     exists c',
       (step servers (Connect name enc) st1).2 = Established c' /\
       conn_instance c' = conn_instance c /\
       factory_calls (step servers (Connect name enc) st1).1
         = factory_calls st1).
Proof.
  intros st Hc st1.
  destruct (consistent_run rqs initial consistent_initial t c Hc)
    as (Ht & Hlt & Hi).
  fold st in Hi.
  assert (st1 = handle_sse_finally c st) as ->.
  { unfold st1. simpl. by rewrite Hc. }
  simpl. repeat split; try done.
  - destruct (user_session_transports st !! conn_key c) eqn:E; [|done].
    apply lookup_delete_eq.
  - intros later. by apply run_present.
  - intros name enc Hk [factory Hf]. rewrite Hf.
    rewrite (enter_present factory name enc (handle_sse_finally c st)
               (conn_instance c)) by (by rewrite Hk).
    simpl. eauto.
Qed.

(** C10.  The [finally] clause deletes whatever transport is stored under
    the key of the connection that ends, its own or a newer one: after it
    has run, a POST to the messages endpoint of the key is answered 404,
    while every other live connection, a newer one for the same key
    included, is still streaming. *)
Theorem stale_cleanup_drops_newer_transport rqs t c name enc :
  let st := (run servers rqs initial).1 in
  streaming st !! t = Some c ->
  session_key name enc = conn_key c ->
  is_Some (servers name) ->
  let st1 := (step servers (Disconnect t) st).1 in
  user_session_transports st1 !! conn_key c = None /\
  (step servers (Post name enc) st1).2 =
    Response404 ("Session not found or expired for session " +:+ conn_key c) /\
  (forall t' c', t' <> t -> streaming st !! t' = Some c' ->
                 streaming st1 !! t' = Some c').
Proof.
  intros st Hc Hk [factory Hf] st1.
  destruct (consistent_run rqs initial consistent_initial t c Hc)
    as (Ht & _ & _).
  assert (st1 = handle_sse_finally c st) as ->.
  { unfold st1. simpl. by rewrite Hc. }
  assert (user_session_transports (handle_sse_finally c st) !! conn_key c = None)
    as Hgone.
  { simpl. destruct (user_session_transports st !! conn_key c) eqn:E; [|done].
    apply lookup_delete_eq. }
  repeat split; [done | |].
  - cbn [step]. rewrite Hf. cbn [snd]. unfold handle_message.
    rewrite Hk, Hgone. reflexivity.
  - intros t' c' Hne Hc'. simpl. rewrite Ht.
    by rewrite lookup_delete_ne.
Qed.

End RouterFacts.

(** ** Facts about Python strings and numbers *)

Section PythonFacts.

Import Py Discord.

Lemma prefix_needs_char c old s :
  contains_char c old = true -> contains_char c s = false ->
  old <> EmptyString -> String.prefix old s = false.
Proof.
  revert s. induction old as [|a old IH]; intros s Hold Hs Hne; [done|].
  destruct s as [|b s]; [done|]. simpl in *.
  apply orb_false_iff in Hs as [Hb Hs].
  destruct (ascii_dec a b) as [->|]; [|done].
  rewrite Hb in Hold. simpl in Hold.
  destruct old as [|a' old']; [done|]. by apply IH.
Qed.

(** [replace] leaves a string alone when it lacks a character of [old]. *)
Lemma replace_lacking c old new s :
  contains_char c old = true -> contains_char c s = false ->
  replace s old new = s.
Proof.
  intros Hold. unfold replace.
  assert (old <> EmptyString) as Hne by (by destruct old).
  induction s as [|b s IH]; intros Hs; [done|].
  cbn [replace_from].
  rewrite (prefix_needs_char c old (String b s) Hold Hs Hne).
  simpl in Hs. apply orb_false_iff in Hs as [_ Hs]. by rewrite IH.
Qed.

Lemma prefix_append p s : String.prefix p (p +:+ s) = true.
Proof.
  induction p as [|a p IH]; simpl; [by destruct s|].
  by destruct (ascii_dec a a).
Qed.

Lemma replace_from_skip old new p s :
  replace_from old new (String.length p) (p +:+ s) = replace_from old new 0 s.
Proof. induction p as [|a p IH]; [done|]. simpl. apply IH. Qed.

(** [replace] at an occurrence of [old]. *)
Lemma replace_at_occurrence a old new s :
  replace (String a old +:+ s) (String a old) new
    = new +:+ replace s (String a old) new.
Proof.
  unfold replace.
  change (String a old +:+ s) with (String a (old +:+ s)).
  cbn [replace_from].
  change (String a (old +:+ s)) with (String a old +:+ s).
  rewrite prefix_append.
  replace (String.length (String a old) - 1)%nat with (String.length old)
    by (simpl; lia).
  by rewrite replace_from_skip.
Qed.

Lemma cut_lacking sep s : contains_char sep s = false -> cut sep s = None.
Proof.
  induction s as [|b s IH]; [done|]. simpl.
  intros [Hb Hs]%orb_false_iff. by rewrite Hb, IH.
Qed.

Lemma cut_at sep a b :
  contains_char sep a = false ->
  cut sep (a +:+ String sep b) = Some (a, b).
Proof.
  induction a as [|c a IH]; simpl.
  - by rewrite Ascii.eqb_refl.
  - intros [Hc Ha]%orb_false_iff. by rewrite Hc, IH.
Qed.

Lemma contains_char_app c a b :
  contains_char c (a +:+ b) = contains_char c a || contains_char c b.
Proof.
  induction a as [|d a IH]; [done|]. simpl. by rewrite IH, orb_assoc.
Qed.

Lemma string_of_uint_chars c d :
  numeral_char c = false -> contains_char c (NilEmpty.string_of_uint d) = false.
Proof.
  intros Hc. unfold numeral_char in Hc. cbn [existsb] in Hc.
  repeat (apply orb_false_iff in Hc as [? Hc]).
  induction d; cbn [NilEmpty.string_of_uint contains_char];
    rewrite ?IHd, ?orb_false_r; try done; by rewrite Ascii.eqb_sym.
Qed.

Lemma str_of_Z_chars c z :
  numeral_char c = false -> contains_char c (str_of_Z z) = false.
Proof.
  intros Hc. unfold str_of_Z.
  assert (forall d, contains_char c (NilZero.string_of_uint d) = false) as Hu.
  { intros d. destruct d; try apply (string_of_uint_chars c _ Hc).
    cbn [NilZero.string_of_uint contains_char].
    unfold numeral_char in Hc. cbn [existsb] in Hc.
    apply orb_false_iff in Hc as [H0 _]. by rewrite Ascii.eqb_sym, H0. }
  destruct (Z.to_int z) as [d|d]; cbn [NilZero.string_of_int contains_char];
    [apply Hu|].
  rewrite Hu, orb_false_r.
  unfold numeral_char in Hc. cbn [existsb] in Hc.
  repeat (apply orb_false_iff in Hc as [? Hc]). by rewrite Ascii.eqb_sym.
Qed.

Lemma to_int_proper z :
  Z.to_int z <> Decimal.Pos Decimal.Nil /\ Z.to_int z <> Decimal.Neg Decimal.Nil.
Proof.
  destruct z as [|p|p]; simpl; split; try done;
    intros [= H]; by apply DecimalPos.Unsigned.to_uint_nonnil in H.
Qed.

Lemma lstrip_no_space c s : is_space c = false -> lstrip (String c s) = String c s.
Proof. intros H. simpl. by rewrite H. Qed.

Lemma rstrip_no_space s :
  (forall c, is_space c = true -> contains_char c s = false) -> rstrip s = s.
Proof.
  induction s as [|b s IH]; [done|]. intros H. simpl.
  rewrite IH.
  - destruct s; [|done].
    destruct (is_space b) eqn:Hb; [|done].
    specialize (H b Hb). simpl in H. by rewrite Ascii.eqb_refl in H.
  - intros c Hc. specialize (H c Hc). simpl in H.
    by apply orb_false_iff in H as [_ H].
Qed.

Lemma space_not_numeral c : is_space c = true -> numeral_char c = false.
Proof.
  unfold is_space. simpl. rewrite !orb_false_r.
  intros H. repeat (apply orb_true_iff in H as [H|H]);
    apply Ascii.eqb_eq in H; by subst.
Qed.

(** [int(str(n)) == n]. *)
Lemma int_of_str_of_Z z : int_of_str (str_of_Z z) = Ok z.
Proof.
  unfold int_of_str.
  assert (rstrip (lstrip (str_of_Z z)) = str_of_Z z) as ->.
  { assert (lstrip (str_of_Z z) = str_of_Z z) as ->.
    { unfold str_of_Z. destruct (Z.to_int z) as [d|d]; [|done].
      destruct d; done. }
    apply rstrip_no_space. intros c Hc.
    apply str_of_Z_chars. by apply space_not_numeral. }
  destruct (to_int_proper z) as [Hp Hn].
  assert (contains_char "+" (str_of_Z z) = false) as Hplus
    by (by apply str_of_Z_chars).
  assert (NilZero.int_of_string (str_of_Z z) = Some (Z.to_int z)) as Hz
    by apply (NilZero.isi _ Hp Hn).
  destruct (str_of_Z z) as [|c r]; [done|].
  cbn [signed_numeral]. cbn [contains_char] in Hplus.
  apply orb_false_iff in Hplus as [-> _].
  rewrite Hz. simpl. by rewrite DecimalZ.of_to.
Qed.

End PythonFacts.

(** ** Facts about the Discord adapter *)

Section DiscordFacts.

Import Py Discord.

Variable env : Env.

(** A handler changes the server object and the globals only through
    [ensure_bot]. *)
Lemma behind_gate_state {A} s g (body : Globals -> list Event * result A) :
  server_after (behind_gate env s g body) = server_after (ensure_bot env s g) /\
  globals_after (behind_gate env s g body) = globals_after (ensure_bot env s g).
Proof.
  unfold behind_gate. destruct (returned (ensure_bot env s g)); [|done].
  by destruct (body _).
Qed.

Lemma behind_gate_open {A} s g (body : Globals -> list Event * result A) :
  returned (ensure_bot env s g) = Ok () ->
  returned (behind_gate env s g body)
    = (body (globals_after (ensure_bot env s g))).2 /\
  events (behind_gate env s g body)
    = events (ensure_bot env s g)
      ++ (body (globals_after (ensure_bot env s g))).1.
Proof.
  intros H. unfold behind_gate. rewrite H. by destruct (body _).
Qed.

Lemma behind_gate_shut {A} s g (body : Globals -> list Event * result A) e :
  returned (ensure_bot env s g) = Raise e ->
  returned (behind_gate env s g body) = Raise e.
Proof. intros H. unfold behind_gate. by rewrite H. Qed.

(** A server whose task has been started does not wait, ready or not. *)
Lemma started_server_does_not_wait s g task :
  bot_task s = Some task ->
  ensure_bot env s g =
  {| server_after := s; globals_after := g; events := []; returned := Ok () |}.
Proof. intros H. unfold ensure_bot. by rewrite H. Qed.

(** The first operation of a server starts the task and waits, for at
    most [READY_TIMEOUT]; it raises [TimeoutError] unless the ready event
    is set in time. *)
Lemma first_operation_waits s g :
  bot_task s = None ->
  events (ensure_bot env s g) = [CreateTask; WaitReady 30] /\
  (returned (ensure_bot env s g) = Ok () /\
     bot_ready (server_after (ensure_bot env s g)) = true \/
   returned (ensure_bot env s g) = Raise TimeoutError /\
     bot_ready (server_after (ensure_bot env s g)) = false).
Proof.
  intros H. unfold ensure_bot. rewrite H.
  destruct (start_bot_background env s g) as [[task g1] ready].
  split; [done|]. simpl.
  destruct (bot_ready s || _); [left | right]; done.
Qed.

Lemma lacks_missing arguments keys key :
  In key keys ->
  arguments = None \/ (exists d, arguments = Some d /\ d !! key = None) ->
  lacks arguments keys = true.
Proof.
  intros Hin [-> | (d & -> & Hd)]; [done|]. simpl.
  apply orb_true_iff. right. apply existsb_exists. exists key.
  split; [done|]. by apply bool_decide_eq_true.
Qed.

Lemma dispatch_unknown g name arguments :
  name ∉ tool_name <$> handle_list_tools ->
  dispatch env g name arguments
    = ([], Raise (ValueError ("Unknown tool: " +:+ name))).
Proof.
  intros Hname. unfold dispatch.
  repeat match goal with
  | |- context [String.eqb name ?t] =>
      destruct (String.eqb_spec name t) as [-> | _];
      [exfalso; apply Hname; apply list_elem_of_In; simpl; tauto |]
  end.
  reflexivity.
Qed.

Lemma dispatch_missing g tool key arguments :
  tool ∈ handle_list_tools ->
  key ∈ required tool ->
  arguments = None \/ (exists d, arguments = Some d /\ d !! key = None) ->
  exists msg,
    dispatch env g (tool_name tool) arguments = ([], Raise (ValueError msg)) /\
    String.prefix "Missing required parameter" msg = true.
Proof.
  intros Htool Hkey Harg.
  apply list_elem_of_In in Htool. apply list_elem_of_In in Hkey.
  simpl in Htool.
  repeat destruct Htool as [<- | Htool]; try done;
    cbn [tool_name required] in *; unfold dispatch; cbn [String.eqb Ascii.eqb Bool.eqb];
    unfold branch; rewrite (lacks_missing _ _ key Hkey Harg);
    eexists; (split; [reflexivity | reflexivity]).
Qed.

(** C7.  In a call that gets past the readiness gate, a tool name that
    [handle_list_tools] does not list raises [ValueError] "Unknown tool",
    and a listed name called without one of the keys its schema requires
    (no arguments at all, or a dictionary without the key) raises
    [ValueError] "Missing required parameter(s)": an exception in both
    cases, never a text result.  (A call stopped at the gate raises
    [TimeoutError], see [first_operation_waits].) *)
Theorem call_tool_rejects_malformed_requests name arguments s g :
  returned (ensure_bot env s g) = Ok () ->
  (name ∉ tool_name <$> handle_list_tools ->
   returned (handle_call_tool env name arguments s g)
     = Raise (ValueError ("Unknown tool: " +:+ name))) /\
  (forall tool key,
     tool ∈ handle_list_tools -> name = tool_name tool ->
     key ∈ required tool ->
     arguments = None \/ (exists d, arguments = Some d /\ d !! key = None) ->
     exists msg,
       returned (handle_call_tool env name arguments s g)
         = Raise (ValueError msg) /\
       String.prefix "Missing required parameter" msg = true).
Proof.
  intros Hgate. unfold handle_call_tool.
  destruct (behind_gate_open s g
              (fun g1 => dispatch env g1 name arguments) Hgate) as [-> _].
  split.
  - intros Hname. by rewrite dispatch_unknown.
  - intros tool key Htool -> Hkey Harg.
    destruct (dispatch_missing (globals_after (ensure_bot env s g))
                tool key arguments Htool Hkey Harg) as (msg & -> & Hmsg).
    eauto.
Qed.

Lemma parse_uri_malformed uri_str :
  Malformed uri_str -> exists e, parse_uri uri_str = Raise e.
Proof.
  intros [u Hu | segment Hseg]; unfold parse_uri.
  - rewrite Hu. eauto.
  - unfold startswith. rewrite prefix_append, replace_at_occurrence.
    rewrite (replace_lacking "/" _ "" segment) by done.
    change ("" +:+ segment) with segment.
    unfold split1. rewrite (cut_lacking _ _ Hseg). eauto.
Qed.

Lemma parse_resource_uri guild channel :
  parse_uri (resource_uri guild channel)
    = Ok (str_of_Z guild, str_of_Z channel).
Proof.
  unfold parse_uri, resource_uri.
  unfold startswith. rewrite prefix_append, replace_at_occurrence.
  rewrite (replace_lacking "d" _ "").
  - change ("" +:+ ?x) with x.
    change ("/" +:+ str_of_Z channel) with (String "/" (str_of_Z channel)).
    unfold split1. rewrite cut_at; [done|]. by apply str_of_Z_chars.
  - done.
  - rewrite contains_char_app.
    change ("/" +:+ str_of_Z channel) with (String "/" (str_of_Z channel)).
    cbn [contains_char]. by rewrite !str_of_Z_chars.
Qed.

(** C8.  A URI built by [handle_list_resources] from a guild and a channel
    identifier is taken apart by [handle_read_resource] into the decimal
    text of the same two identifiers, which [int] reads back as the
    identifiers, and the channel looked up is the one encoded.  For a
    malformed URI, a call that gets past the readiness gate returns the
    text of the parse error and raises nothing. *)
Theorem resource_uri_round_trip :
  (forall guild channel,
     parse_uri (resource_uri guild channel)
       = Ok (str_of_Z guild, str_of_Z channel) /\
     int_of_str (str_of_Z guild) = Ok guild /\
     int_of_str (str_of_Z channel) = Ok channel /\
     forall g b ch,
       bot g = Some b -> get_channel env b channel = Some ch ->
       read_resource_try env g (resource_uri guild channel) = read_history ch) /\
  (forall uri_str s g,
     returned (ensure_bot env s g) = Ok () ->
     Malformed uri_str ->
     exists e,
       parse_uri uri_str = Raise e /\
       returned (handle_read_resource env uri_str s g)
         = Ok ("Error reading resource: " +:+ exn_str e)).
Proof.
  split.
  - intros guild channel.
    repeat split; [apply parse_resource_uri | apply int_of_str_of_Z.. |].
    intros g b ch Hb Hch. unfold read_resource_try.
    rewrite parse_resource_uri. unfold bot_attr. rewrite Hb.
    unfold mbind, result_bind. rewrite int_of_str_of_Z. by rewrite Hch.
  - intros uri_str s g Hgate Hbad.
    destruct (parse_uri_malformed uri_str Hbad) as [e He].
    exists e. split; [done|]. unfold handle_read_resource.
    destruct (behind_gate_open s g
                (fun g1 => ([], match read_resource_try env g1 uri_str with
                                | Ok text => Ok text
                                | Raise e => Ok ("Error reading resource: "
                                                 +:+ exn_str e)
                                end)) Hgate) as [-> _].
    cbn [snd]. unfold read_resource_try. rewrite He. reflexivity.
Qed.

(** Past the gate, [handle_read_resource] returns text for every URI. *)
Lemma read_resource_never_raises uri_str s g :
  returned (ensure_bot env s g) = Ok () ->
  exists text, returned (handle_read_resource env uri_str s g) = Ok text.
Proof.
  intros Hgate. unfold handle_read_resource.
  destruct (behind_gate_open s g
              (fun g1 => ([], match read_resource_try env g1 uri_str with
                              | Ok text => Ok text
                              | Raise e => Ok ("Error reading resource: "
                                               +:+ exn_str e)
                              end)) Hgate) as [-> _].
  cbn [snd]. destruct (read_resource_try _ _ _); eauto.
Qed.

Lemma slice_to_length {A} (l : list A) n :
  0 <= n -> (length (slice_to l n) <= Z.to_nat n)%nat.
Proof.
  intros Hn. unfold slice_to.
  destruct (Z.leb_spec 0 n); [|lia]. rewrite length_firstn. lia.
Qed.

(** What the [list_members] branch returns is built from at most [limit]
    members, with [limit] the clamped page size. *)
Lemma list_members_outcome g d :
  match (list_members env g d).2 with
  | Ok text =>
      text = "Server not found: " +:+ py_str env (item d "guild_id") \/
      exists limit ms,
        members_limit d = Ok limit /\ 1 <= limit <= 1000 /\
        (length ms <= Z.to_nat limit)%nat /\ text = dump_members env ms
  | Raise _ => True
  end.
Proof.
  unfold list_members.
  destruct (members_limit d) as [limit|e] eqn:Hl; [|done].
  assert (1 <= limit <= 1000) as Hrange.
  { unfold members_limit in Hl. destruct (py_int _); [|done].
    simpl in Hl. injection Hl as <-. lia. }
  destruct (_ ← bot_attr g "get_guild"; _) as [[b gid]|e]; [|done].
  destruct (get_guild env b gid) as [gd|]; [|by left].
  destruct (listed_members gd limit) as [evs ms] eqn:Hms. simpl.
  right. exists limit, ms. repeat split; try lia.
  unfold listed_members in Hms.
  destruct (large gd && _); injection Hms as _ <-; apply slice_to_length; lia.
Qed.

(** Every ban the [ban_member] branch asks Discord for carries a day count
    between 0 and 7. *)
Lemma ban_member_events g d :
  Forall (fun ev => match ev with
                    | GuildBan _ _ days => 0 <= days <= 7
                    | _ => True
                    end)
         (ban_member env g d).1.
Proof.
  unfold ban_member.
  destruct (delete_message_days d) as [days|e] eqn:Hd; [|done].
  assert (0 <= days <= 7) as Hrange.
  { unfold delete_message_days in Hd. destruct (py_int _); [|done].
    simpl in Hd. injection Hd as <-. lia. }
  destruct (_ ← bot_attr g "get_guild"; _) as [[b gid]|e]; [|done].
  destruct (get_guild env b gid) as [gd|]; [|done].
  destruct (negb (may_ban gd)); [done|].
  destruct (py_int (item d "user_id")); [|done].
  simpl. by constructor.
Qed.

Lemma branch_events arguments keys msg body (P : Event -> Prop) :
  (forall d, Forall P (body d).1) ->
  Forall P (branch arguments keys msg body).1.
Proof.
  intros H. unfold branch. destruct (lacks arguments keys); [done|].
  destruct arguments; [apply H | done].
Qed.

(** C9.  The page size of [list_members] is
    [min(1000, max(1, int(limit)))] with 50 for an absent [limit]: an
    integer limit always yields a value in 1..1000, 0 yields 1 and 100000
    yields 1000; for any other value either [int] raises or the result is
    in 1..1000.  The branch hands at most that many members on.  The day
    count of [ban_member] is [min(7, max(0, int(days)))] with 0 for an
    absent key, and every ban sent to Discord carries a count in 0..7. *)
Theorem page_size_and_ban_days_are_clamped :
  (forall d z,
     members_limit (<["limit" := VInt z]> d) = Ok (Z.min 1000 (Z.max 1 z)) /\
     1 <= Z.min 1000 (Z.max 1 z) <= 1000) /\
  (forall d, members_limit (<["limit" := VInt 0]> d) = Ok 1) /\
  (forall d, members_limit (<["limit" := VInt 100000]> d) = Ok 1000) /\
  (forall d, members_limit (delete "limit" d) = Ok 50) /\
  (forall d, match members_limit d with
             | Ok limit => 1 <= limit <= 1000
             | Raise e => py_int (get d "limit" (VInt 50)) = Raise e
             end) /\
  (forall g d,
     match (list_members env g d).2 with
     | Ok text =>
         text = "Server not found: " +:+ py_str env (item d "guild_id") \/
         exists limit ms,
           members_limit d = Ok limit /\ 1 <= limit <= 1000 /\
           (length ms <= Z.to_nat limit)%nat /\ text = dump_members env ms
     | Raise _ => True
     end) /\
  (forall d z,
     delete_message_days (<["delete_message_days" := VInt z]> d)
       = Ok (Z.min 7 (Z.max 0 z)) /\
     0 <= Z.min 7 (Z.max 0 z) <= 7) /\
  (forall d, delete_message_days (delete "delete_message_days" d) = Ok 0) /\
  (forall d, match delete_message_days d with
             | Ok days => 0 <= days <= 7
             | Raise e =>
                 py_int (get d "delete_message_days" (VInt 0)) = Raise e
             end) /\
  (forall arguments s g,
     Forall (fun ev => match ev with
                       | GuildBan _ _ days => 0 <= days <= 7
                       | _ => True
                       end)
            (events (handle_call_tool env "ban_member" arguments s g))).
Proof.
  assert (forall d z, members_limit (<["limit" := VInt z]> d)
                      = Ok (Z.min 1000 (Z.max 1 z))) as Hl.
  { intros d z. unfold members_limit, get. by rewrite lookup_insert_eq. }
  assert (forall d z, delete_message_days (<["delete_message_days" := VInt z]> d)
                      = Ok (Z.min 7 (Z.max 0 z))) as Hd.
  { intros d z. unfold delete_message_days, get. by rewrite lookup_insert_eq. }
  split. { intros d z. split; [apply Hl | lia]. }
  split. { intros d. apply (Hl d 0). }
  split. { intros d. apply (Hl d 100000). }
  split. { intros d. unfold members_limit, get. by rewrite lookup_delete_eq. }
  split. { intros d. unfold members_limit.
           destruct (py_int _); simpl; [lia | done]. }
  split. { apply list_members_outcome. }
  split. { intros d z. split; [apply Hd | lia]. }
  split. { intros d. unfold delete_message_days, get.
           by rewrite lookup_delete_eq. }
  split. { intros d. unfold delete_message_days.
           destruct (py_int _); simpl; [lia | done]. }
  intros arguments s g. unfold handle_call_tool, behind_gate.
  assert (Forall (fun ev => match ev with
                            | GuildBan _ _ days => 0 <= days <= 7
                            | _ => True
                            end) (events (ensure_bot env s g))) as Hgate.
  { unfold ensure_bot. destruct (bot_task s); [done|].
    destruct (start_bot_background env s g) as [[? ?] ?]. simpl.
    by repeat constructor. }
  destruct (returned (ensure_bot env s g)); [|done].
  destruct (dispatch _ _ _ _) as [evs r] eqn:Hdis. simpl.
  apply Forall_app. split; [done|].
  change evs with (evs, r).1. rewrite <- Hdis.
  unfold dispatch. cbn [String.eqb Ascii.eqb Bool.eqb].
  apply branch_events. apply ban_member_events.
Qed.

(** C3, as the code has it.  Constructing a server instance starts no
    task and creates no bot.  When the global [bot] is unset and the
    credentials of the server's user resolve, the first operation of the
    server creates the bot and stores it in the global.  Once the global
    is set, every operation of every server, whatever its user and
    whatever the credentials, leaves that bot in place, creates no other,
    and a task it starts runs on that very bot. *)
Theorem bot_is_process_wide :
  (forall user api, bot_task (create_server user api) = None) /\
  (forall A s g (body : Globals -> list Event * result A) token,
     bot g = None -> bot_task s = None ->
     get_credentials env (user_id s) (api_key s) = Ok token ->
     let o := behind_gate env s g body in
     bot_task (server_after o) = Some (Running (bots_made g)) /\
     bot_ident <$> bot (globals_after o) = Some (bots_made g)) /\
  (forall A s g (body : Globals -> list Event * result A) b,
     bot g = Some b ->
     let o := behind_gate env s g body in
     bot_ident <$> bot (globals_after o) = Some (bot_ident b) /\
     bots_made (globals_after o) = bots_made g /\
     (bot_task s = None ->
      bot_task (server_after o) = Some (Running (bot_ident b)) \/
      exists e, bot_task (server_after o) = Some (Crashed e))).
Proof.
  split; [done|]. split.
  - intros A s g body token Hg Hs Hc o. unfold o.
    destruct (behind_gate_state s g body) as [-> ->].
    unfold ensure_bot, start_bot_background, create_discord_bot.
    rewrite Hs, Hg, Hc. simpl.
    split; [done|]. by destruct (bot_ready s || _).
  - intros A s g body b Hg o. unfold o.
    destruct (behind_gate_state s g body) as [-> ->].
    unfold ensure_bot, start_bot_background, create_discord_bot.
    rewrite Hg.
    destruct (bot_task s) as [task|]; simpl.
    + rewrite Hg. by repeat split.
    + destruct (get_credentials env (user_id s) (api_key s)); simpl;
        (destruct (bot_ready s || _); simpl; rewrite ?Hg; simpl;
         repeat split; eauto).
Qed.

End DiscordFacts.

(** ** The deployed process: construction failures *)

Section Construction.

Import Remote.

(** C4, as the code has it.  When the factory raises, the connection gets
    [ConstructionFailed] and neither [user_server_instances] nor the
    objects change, so the key stays absent; a later connection for the
    key whose factory call succeeds stores a fresh instance.  The Discord
    factory looks up no credential (that happens in the task the first
    operation starts): whatever the credential store holds, a connection
    to a Discord session is established and its key has an instance
    afterwards. *)
Theorem failed_construction_leaves_key_absent :
  (forall (Obj : Type)
          (before after : string -> option (string -> option string -> option Obj))
          (st : State) name enc factory factory' obj,
     before name = Some factory ->
     after name = Some factory' ->
     user_server_instances st !! session_key name enc = None ->
     factory (user_and_api_key enc).1 (user_and_api_key enc).2 = None ->
     factory' (user_and_api_key enc).1 (user_and_api_key enc).2 = Some obj ->
     let failed := step before (Connect name enc) st in
     let retried := step after (Connect name enc) failed.1 in
     failed.2 = ConstructionFailed /\
     user_server_instances failed.1 = user_server_instances st /\
     objects failed.1 = objects st /\
     objects retried.1 = objects st ++ [obj] /\
     exists c,
       retried.2 = Established c /\
       conn_instance c = length (objects st) /\
       user_server_instances retried.1 !! session_key name enc
         = Some (conn_instance c)) /\
  (forall enc (st : State),
     exists c,
       (step Deployed.servers (Connect "discord" enc) st).2 = Established c /\
       user_server_instances (step Deployed.servers (Connect "discord" enc) st).1
         !! session_key "discord" enc = Some (conn_instance c)).
Proof.
  split.
  - intros Obj before after st name enc factory factory' obj
           Hb Ha Hkey Hfail Hok failed retried.
    unfold retried, failed. cbn [step]. rewrite Hb.
    rewrite (enter_failed factory name enc st Hkey Hfail).
    cbn [fst snd]. rewrite Ha.
    rewrite (enter_fresh factory' name enc _ obj); [| exact Hkey | exact Hok].
    cbn [fst snd user_server_instances objects].
    repeat split. eexists. repeat split. by rewrite lookup_insert_eq.
  - intros enc st. cbn [step]. unfold Deployed.servers. cbn [String.eqb Ascii.eqb Bool.eqb].
    unfold handle_sse_enter. destruct (user_and_api_key enc) as [u a].
    destruct (user_server_instances st !! session_key "discord" enc) eqn:E;
      simpl; eexists; (split; [reflexivity|]); [done|].
    by rewrite lookup_insert_eq.
Qed.

End Construction.

(** ** The deployed process on concrete runs *)

Section Runs.

Import Py Remote Discord Deployed.

(** C2, against the claim: the second of two connections for one key is
    established, not rejected; both transports are then attached to
    instance 0, and the dictionary holds the newer one. *)
Lemma second_connection_not_rejected :
  let r := run servers [Connect "discord" "alice"; Connect "discord" "alice"]
               initial in
  r.2 = [ Established {| conn_key := alice; conn_transport := 0;
                         conn_instance := 0 |};
          Established {| conn_key := alice; conn_transport := 1;
                         conn_instance := 0 |} ] /\
  length (attached 0 r.1) = 2%nat /\
  user_session_transports r.1 !! alice = Some 1%nat.
Proof. vm_compute. repeat split. Qed.

(** C3, against the claim: the servers of two users with credentials of
    their own run their tasks on one and the same bot, the only one made. *)
Lemma two_users_share_one_bot :
  let o1 := handle_list_resources with_credentials None
              (create_server "alice" None) fresh in
  let o2 := handle_list_resources with_credentials None
              (create_server "bob" None) (globals_after o1) in
  get_credentials with_credentials "alice" None = Ok "token-of-alice" /\
  get_credentials with_credentials "bob" None = Ok "token-of-bob" /\
  bot_task (server_after o1) = Some (Running 0) /\
  bot_task (server_after o2) = Some (Running 0) /\
  user_id (server_after o1) <> user_id (server_after o2) /\
  bots_made (globals_after o2) = 1%nat.
Proof. vm_compute. repeat split. discriminate. Qed.

(** C4, against the claim: with no credentials stored, the connection is
    established and the instance stored; the first operation raises
    [TimeoutError] and the instance stays; once credentials are stored, a
    new connection for the key is given the old instance, no factory is
    called, and its operation raises. *)
Lemma missing_credentials_leave_instance_stored :
  let connected := run servers [Connect "discord" "alice"] initial in
  let first := operate 0 (handle_list_resources no_credentials None)
                 (connected.1, fresh) in
  let again := run servers [Disconnect 0; Connect "discord" "alice"]
                 first.1.1 in
  let second := operate 0 (handle_list_resources with_credentials None)
                  (again.1, first.1.2) in
  get_credentials no_credentials "alice" None
    = Raise (ValueError "Credentials not found for user alice") /\
  connected.2 = [ Established {| conn_key := alice; conn_transport := 0;
                                 conn_instance := 0 |} ] /\
  first.2 = Some (Raise TimeoutError) /\
  user_server_instances first.1.1 !! alice = Some 0%nat /\
  again.2 = [ Closed;
              Established {| conn_key := alice; conn_transport := 1;
                             conn_instance := 0 |} ] /\
  calls_for alice again.1 = 1%nat /\
  length (objects again.1) = 1%nat /\
  second.2 = Some (Raise (AttributeError
                            "'NoneType' object has no attribute 'guilds'")).
Proof. vm_compute. repeat split. Qed.

(** C6, on the code: after a first operation whose wait timed out, the
    client has not signalled readiness, yet the next operations do not
    wait.  Without credentials the bot does not exist and they fail at
    once; with a slow gateway they run against a bot that is not ready
    and list no resource although the guild has a channel. *)
Theorem operation_after_timeout_does_not_wait :
  let o1 := handle_list_resources no_credentials None
              (create_server "alice" None) fresh in
  let o2 := handle_list_resources no_credentials None
              (server_after o1) (globals_after o1) in
  let o3 := handle_call_tool no_credentials "list_members"
              (Some {[ "guild_id" := VStr "123" ]})
              (server_after o2) (globals_after o2) in
  let p1 := handle_list_resources slow_gateway None
              (create_server "alice" None) fresh in
  let p2 := handle_list_resources slow_gateway None
              (server_after p1) (globals_after p1) in
  (events o1 = [CreateTask; WaitReady 30] /\
   returned o1 = Raise TimeoutError /\
   bot_ready (server_after o1) = false) /\
  (events o2 = [] /\
   returned o2 = Raise (AttributeError
                          "'NoneType' object has no attribute 'guilds'")) /\
  (events o3 = [] /\
   returned o3 = Raise (AttributeError
                          "'NoneType' object has no attribute 'get_guild'")) /\
  (returned p1 = Raise TimeoutError /\
   bot_ready (server_after p1) = false) /\
  (events p2 = [] /\ returned p2 = Ok [] /\
   bot_ready (server_after p2) = false).
Proof. vm_compute. repeat split. Qed.

(** *** The theorems at concrete inputs *)

(** [create_server] does not raise. *)
Lemma discord_construction_succeeds key : construction_succeeds servers key.
Proof.
  intros name enc factory _ Hf. unfold servers in Hf.
  destruct (String.eqb name "discord"); [|done].
  injection Hf as <-. simpl. eauto.
Defined.

(** C1 on a run with three connections for one key among other requests. *)
Lemma single_construction_per_key_witness :
  exists instance,
    calls_for alice
      (run servers [Connect "discord" "alice"; Post "discord" "alice";
                    Connect "discord" "bob"; Connect "discord" "alice";
                    Disconnect 0; Connect "discord" "alice"] initial).1 = 1%nat /\
    (forall i rq,
       [Connect "discord" "alice"; Post "discord" "alice";
        Connect "discord" "bob"; Connect "discord" "alice";
        Disconnect 0; Connect "discord" "alice"] !! i = Some rq ->
       requests_key servers alice rq ->
       exists c,
         (run servers [Connect "discord" "alice"; Post "discord" "alice";
                       Connect "discord" "bob"; Connect "discord" "alice";
                       Disconnect 0; Connect "discord" "alice"] initial).2 !! i
           = Some (Established c) /\
         conn_key c = alice /\ conn_instance c = instance) /\
    (forall n other,
       user_server_instances
         (run servers
            (take n [Connect "discord" "alice"; Post "discord" "alice";
                     Connect "discord" "bob"; Connect "discord" "alice";
                     Disconnect 0; Connect "discord" "alice"]) initial).1
         !! alice = Some other ->
       other = instance).
Proof.
  apply (single_construction_per_key servers
           [Connect "discord" "alice"; Post "discord" "alice";
            Connect "discord" "bob"; Connect "discord" "alice";
            Disconnect 0; Connect "discord" "alice"] initial alice).
  - reflexivity.
  - apply discord_construction_succeeds.
  - apply Exists_cons_hd. simpl. split; [reflexivity | eauto].
Defined.

(** C2 as amended, on a second connection for a key with a live one. *)
Lemma second_connection_is_accepted_witness :
  exists c2,
    (step servers (Connect "discord" "alice")
       (run servers [Connect "discord" "alice"] initial).1).2 = Established c2 /\
    conn_instance c2 = 0%nat /\ conn_transport c2 <> 0%nat.
Proof.
  destruct (second_connection_is_accepted servers
              [Connect "discord" "alice"] "discord" "alice" 0
              {| conn_key := alice; conn_transport := 0; conn_instance := 0 |})
    as (c2 & H1 & H2 & H3 & _).
  - simpl. eauto.
  - vm_compute. reflexivity.
  - reflexivity.
  - exists c2. repeat split; assumption.
Defined.

(** C5 on a session that is opened and closed. *)
Lemma disconnect_keeps_instance_witness :
  let st := (run servers [Connect "discord" "alice"] initial).1 in
  let st1 := (step servers (Disconnect 0) st).1 in
  streaming st !! 0%nat
    = Some {| conn_key := alice; conn_transport := 0; conn_instance := 0 |} /\
  user_session_transports st1 !! alice = None /\
  user_server_instances st1 !! alice = Some 0%nat.
Proof.
  intros st st1.
  assert (streaming st !! 0%nat
          = Some {| conn_key := alice; conn_transport := 0;
                    conn_instance := 0 |}) as H
    by (vm_compute; reflexivity).
  destruct (disconnect_keeps_instance servers
              [Connect "discord" "alice"] 0 _ H) as (H1 & _ & _ & H4 & _).
  repeat split; assumption.
Defined.

(** C10 on two connections for one key, the older of which ends first. *)
Lemma stale_cleanup_drops_newer_transport_witness :
  let st := (run servers [Connect "discord" "alice"; Connect "discord" "alice"]
               initial).1 in
  let st1 := (step servers (Disconnect 0) st).1 in
  user_session_transports st !! alice = Some 1%nat /\
  (step servers (Post "discord" "alice") st1).2
    = Response404 "Session not found or expired for session discord:alice" /\
  streaming st1 !! 1%nat
    = Some {| conn_key := alice; conn_transport := 1; conn_instance := 0 |}.
Proof.
  intros st st1.
  assert (streaming st !! 0%nat
          = Some {| conn_key := alice; conn_transport := 0;
                    conn_instance := 0 |}) as H
    by (vm_compute; reflexivity).
  destruct (stale_cleanup_drops_newer_transport servers
              [Connect "discord" "alice"; Connect "discord" "alice"]
              0 _ "discord" "alice" H)
    as (_ & H2 & H3).
  - reflexivity.
  - simpl. eauto.
  - split; [vm_compute; reflexivity|]. split; [exact H2|].
    apply H3; [lia|]. vm_compute. reflexivity.
Defined.

(** C4 as amended, on a factory that raises and one that does not. *)
Lemma failed_construction_leaves_key_absent_witness :
  let never : string -> option (string -> option string -> option unit) :=
    fun _ => Some (fun _ _ => None) in
  let always : string -> option (string -> option string -> option unit) :=
    fun _ => Some (fun _ _ => Some ()) in
  let failed := step never (Connect "discord" "alice") initial in
  let retried := step always (Connect "discord" "alice") failed.1 in
  failed.2 = ConstructionFailed /\
  user_server_instances failed.1 = ∅ /\
  objects retried.1 = [()].
Proof.
  intros never always failed retried.
  destruct (proj1 failed_construction_leaves_key_absent unit never always
              initial "discord" "alice"
              (fun _ _ => None) (fun _ _ => Some ()) ())
    as (H1 & H2 & _ & H4 & _); try reflexivity.
  repeat split; assumption.
Defined.

(** C7 on an unknown tool and on [send_dm] without [content]. *)
Lemma call_tool_rejects_malformed_requests_witness :
  returned (handle_call_tool with_credentials "bogus" None started bot_up)
    = Raise (ValueError "Unknown tool: bogus") /\
  exists msg,
    returned (handle_call_tool with_credentials "send_dm"
                (Some {[ "user_id" := VStr "7" ]}) started bot_up)
      = Raise (ValueError msg) /\
    String.prefix "Missing required parameter" msg = true.
Proof.
  split.
  - apply (call_tool_rejects_malformed_requests with_credentials
             "bogus" None started bot_up); [reflexivity|].
    intros H. apply list_elem_of_In in H. simpl in H.
    repeat destruct H as [H|H]; try discriminate H. exact H.
  - apply (proj2 (call_tool_rejects_malformed_requests with_credentials
                    "send_dm" (Some {[ "user_id" := VStr "7" ]})
                    started bot_up eq_refl)
             {| tool_name := "send_dm";
                tool_description := "Send a direct message to a user";
                properties := ["user_id"; "content"];
                required := ["user_id"; "content"] |} "content").
    + apply list_elem_of_In. simpl. tauto.
    + reflexivity.
    + apply list_elem_of_In. simpl. tauto.
    + right. eexists. split; [reflexivity|]. vm_compute. reflexivity.
Defined.

(** C8 on a URI with a single segment. *)
Lemma resource_uri_round_trip_witness :
  exists e,
    parse_uri "discord:///123" = Raise e /\
    returned (handle_read_resource with_credentials "discord:///123"
                started bot_up)
      = Ok ("Error reading resource: " +:+ exn_str e).
Proof.
  apply (proj2 (resource_uri_round_trip with_credentials)
           "discord:///123" started bot_up).
  - reflexivity.
  - apply (one_segment "123"). reflexivity.
Defined.

(** C3 as amended, on a server for another user once the bot exists. *)
Lemma bot_is_process_wide_witness :
  let o := handle_list_resources with_credentials None
             (create_server "bob" None) bot_up in
  bot_ident <$> bot (globals_after o) = Some 0%nat /\
  bots_made (globals_after o) = 1%nat.
Proof.
  intros o.
  destruct (proj2 (proj2 (bot_is_process_wide with_credentials))
              (list Resource) (create_server "bob" None) bot_up
              (fun g1 =>
                 ([], b ← bot_attr g1 "guilds";
                      Ok (flat_map
                            (fun guild =>
                               map (fun channel =>
                                      {| uri := resource_uri (guild_id guild)
                                                  (channel_id channel);
                                         mime_type := "text/plain";
                                         name := guild_name guild +:+ "/"
                                                 +:+ channel_name channel |})
                                   (text_channels guild))
                            (bot_guilds with_credentials b))))
              {| bot_ident := 0; connected := true |} eq_refl)
    as (H1 & H2 & _).
  split; assumption.
Defined.

End Runs.

(** ** More about the router: keys, isolation, retention *)

Section SessionFacts.

Import Py Remote Isolation.

Lemma split_parts_lack sep s :
  Forall (fun p => contains_char sep p = false) (split s sep).
Proof.
  induction s as [|c s IH]; simpl; [by repeat constructor|].
  destruct (Ascii.eqb c sep) eqn:Hc; [by constructor|].
  destruct (split s sep) as [|h t]; [by repeat constructor; simpl; rewrite Hc|].
  inversion IH as [|? ? Hh Ht]; subst.
  constructor; [|done]. simpl. by rewrite Hc, Hh.
Qed.

Lemma split_lacking sep s : contains_char sep s = false -> split s sep = [s].
Proof.
  induction s as [|c s IH]; [done|]. simpl.
  intros [Hc Hs]%orb_false_iff. by rewrite Hc, IH.
Qed.

Lemma split_at sep a b :
  contains_char sep a = false ->
  split (a +:+ String sep b) sep = a :: split b sep.
Proof.
  induction a as [|c a IH]; simpl.
  - by rewrite Ascii.eqb_refl.
  - intros [Hc Ha]%orb_false_iff. by rewrite Hc, IH.
Qed.

Lemma contains_char_at sep a b :
  contains_char sep (a +:+ String sep b) = true.
Proof.
  induction a as [|c a IH]; simpl; [by rewrite Ascii.eqb_refl|].
  by rewrite IH, orb_true_r.
Qed.

Lemma nth_lacks sep (parts : list string) i :
  Forall (fun p => contains_char sep p = false) parts ->
  contains_char sep (nth i parts EmptyString) = false.
Proof.
  intros H. revert i. induction H as [|p ps Hp _ IH]; intros [|i]; simpl; auto.
Qed.

(** X1.  Lines 91-98 of [handle_sse]: neither the user id nor the API key
    taken from the path parameter ever holds a colon; a parameter without
    a colon is the user id and there is no API key; [user:key] gives the
    two parts; and whatever follows a second colon is dropped from the API
    key (while it stays part of the session key). *)
Theorem path_parameter_parts :
  (forall enc,
     contains_char ":" (user_and_api_key enc).1 = false /\
     forall key, (user_and_api_key enc).2 = Some key ->
                 contains_char ":" key = false) /\
  (forall enc,
     contains_char ":" enc = false -> user_and_api_key enc = (enc, None)) /\
  (forall user key,
     contains_char ":" user = false -> contains_char ":" key = false ->
     user_and_api_key (user +:+ String ":" key) = (user, Some key)) /\
  (forall user key rest,
     contains_char ":" user = false -> contains_char ":" key = false ->
     user_and_api_key (user +:+ String ":" (key +:+ String ":" rest))
       = (user, Some key)).
Proof.
  split; [|split; [|split]].
  - intros enc. unfold user_and_api_key.
    destruct (contains_char ":" enc) eqn:E; simpl.
    + split; [apply nth_lacks, split_parts_lack|].
      intros key [= <-]. apply nth_lacks, split_parts_lack.
    + split; [done|]. intros key [=].
  - intros enc H. unfold user_and_api_key. by rewrite H.
  - intros user key Hu Hk. unfold user_and_api_key.
    rewrite contains_char_at, (split_at _ _ _ Hu), (split_lacking _ _ Hk).
    reflexivity.
  - intros user key rest Hu Hk. unfold user_and_api_key.
    rewrite contains_char_at, (split_at _ _ _ Hu), (split_at _ _ _ Hk).
    reflexivity.
Qed.

(** X2.  Line 89: for server names without a colon (directory names of
    the adapters), the session key determines the server and the path
    parameter, so sessions of different servers or of different path
    parameters never share an entry of the two dictionaries. *)
Theorem session_key_determines_server name1 enc1 name2 enc2 :
  contains_char ":" name1 = false ->
  contains_char ":" name2 = false ->
  session_key name1 enc1 = session_key name2 enc2 ->
  name1 = name2 /\ enc1 = enc2.
Proof.
  intros H1 H2 Heq. unfold session_key in Heq.
  change (":" +:+ enc1) with (String ":" enc1) in Heq.
  change (":" +:+ enc2) with (String ":" enc2) in Heq.
  pose proof (cut_at ":" name1 enc1 H1) as C1.
  pose proof (cut_at ":" name2 enc2 H2) as C2.
  rewrite Heq in C1. rewrite C1 in C2. by injection C2 as -> ->.
Qed.

Context {Obj : Type}.
Variable servers : string -> option (string -> option string -> option Obj).

Implicit Types (st : State (Obj := Obj)) (rq : Request) (key : string).

Lemma allocated_initial : allocated (Obj := Obj) initial.
Proof.
  repeat split; simpl; intros *; try (by rewrite lookup_empty).
Qed.

Lemma allocated_step rq st : allocated st -> allocated (step servers rq st).1.
Proof.
  intros (Hlt & Hinj & Hsize).
  destruct rq as [name enc | t | name enc]; simpl.
  - destruct (servers name) as [factory|]; [|done].
    unfold handle_sse_enter.
    destruct (user_and_api_key enc) as [u a].
    destruct (user_server_instances st !! session_key name enc) eqn:E;
      [done | destruct (factory u a); [|done]].
    repeat split; simpl.
    + intros key instance. rewrite length_app. simpl.
      destruct (decide (session_key name enc = key)) as [<-|Hne].
      * rewrite lookup_insert_eq. intros [= <-]. lia.
      * rewrite lookup_insert_ne by done. intros H%Hlt. lia.
    + intros key1 key2 instance.
      destruct (decide (session_key name enc = key1)) as [<-|Hne1];
        destruct (decide (session_key name enc = key2)) as [<-|Hne2];
        rewrite ?lookup_insert_eq, ?lookup_insert_ne by done; try done.
      * intros [= <-] H%Hlt. lia.
      * intros H%Hlt [= <-]. lia.
      * apply Hinj.
    + rewrite map_size_insert_None by done. rewrite length_app. simpl. lia.
  - destruct (streaming st !! t); done.
  - destruct (servers name); done.
Qed.

Lemma allocated_run rqs st : allocated st -> allocated (run servers rqs st).1.
Proof.
  revert st. induction rqs as [|rq rqs IH]; intros st H; [done|].
  rewrite run_cons. simpl. apply IH. by apply allocated_step.
Qed.

(** X3.  In every state the process reaches, each key's instance is an
    object a factory has built, two different session keys never hold the
    same instance, and there are exactly as many objects as keys with an
    instance: every factory result is kept and belongs to one session. *)
Theorem instances_are_not_shared rqs :
  let st := (run servers rqs initial).1 in
  (forall key instance,
     user_server_instances st !! key = Some instance ->
     is_Some (objects st !! instance)) /\
  (forall key1 key2 instance,
     user_server_instances st !! key1 = Some instance ->
     user_server_instances st !! key2 = Some instance -> key1 = key2) /\
  size (user_server_instances st) = length (objects st).
Proof.
  intros st.
  destruct (allocated_run rqs initial allocated_initial) as (Hlt & Hinj & Hsize).
  repeat split; [|done..].
  intros key instance H. apply lookup_lt_is_Some. by apply (Hlt key).
Qed.

Lemma step_retains rq st :
  user_server_instances st ⊆ user_server_instances (step servers rq st).1 /\
  objects st `prefix_of` objects (step servers rq st).1.
Proof.
  destruct rq as [name enc | t | name enc]; simpl.
  - destruct (servers name) as [factory|]; [|done].
    unfold handle_sse_enter.
    destruct (user_and_api_key enc) as [u a].
    destruct (user_server_instances st !! session_key name enc) eqn:E;
      [done | destruct (factory u a); [|done]].
    simpl. split; [by apply insert_subseteq | by apply prefix_app_r].
  - destruct (streaming st !! t); done.
  - destruct (servers name); done.
Qed.

(** X4.  Nothing is ever evicted: whatever requests follow, every key
    keeps the instance it has, and the objects built so far stay, in
    order, at the front of the list of objects. *)
Theorem instances_are_retained rqs st :
  user_server_instances st ⊆ user_server_instances (run servers rqs st).1 /\
  objects st `prefix_of` objects (run servers rqs st).1.
Proof.
  revert st. induction rqs as [|rq rqs IH]; intros st; [done|].
  rewrite run_cons. simpl.
  destruct (step_retains rq st) as [S1 S2].
  destruct (IH (step servers rq st).1) as [R1 R2].
  split; etrans; eauto.
Qed.

(** X5.  The transport is stored before the factory is called and the
    [try] block is entered after it: when the factory raises, the
    transport of the failed connection stays in [user_session_transports]
    although no connection is live on it, and a POST to the messages
    endpoint of the key is handed to that transport instead of being
    answered 404. *)
Theorem failed_construction_leaves_transport rqs name enc factory :
  let st := (run servers rqs initial).1 in
  servers name = Some factory ->
  user_server_instances st !! session_key name enc = None ->
  factory (user_and_api_key enc).1 (user_and_api_key enc).2 = None ->
  let st1 := (step servers (Connect name enc) st).1 in
  (step servers (Connect name enc) st).2 = ConstructionFailed /\
  user_session_transports st1 !! session_key name enc
    = Some (transports_made st) /\
  streaming st1 !! transports_made st = None /\
  (step servers (Post name enc) st1).2 = Forwarded (transports_made st).
Proof.
  intros st Hf Hkey Hfail st1. unfold st1. cbn [step]. rewrite Hf.
  rewrite (enter_failed factory name enc st Hkey Hfail). cbn [fst snd].
  unfold handle_message. cbn [user_session_transports streaming].
  rewrite lookup_insert_eq. repeat split.
  destruct (streaming st !! transports_made st) as [c|] eqn:E; [|done].
  destruct (consistent_run servers rqs initial consistent_initial _ _ E)
    as (_ & Hlt & _).
  fold st in Hlt. lia.
Qed.

Lemma step_quiet rq st key :
  ~ touches servers key st rq ->
  user_session_transports (step servers rq st).1 !! key
    = user_session_transports st !! key /\
  user_server_instances (step servers rq st).1 !! key
    = user_server_instances st !! key.
Proof.
  intros Hq. destruct rq as [name enc | t | name enc]; simpl.
  - destruct (servers name) as [factory|] eqn:Hf; [|done].
    assert (session_key name enc <> key) as Hne.
    { intros Heq. apply Hq. simpl. rewrite Hf. eauto. }
    unfold handle_sse_enter.
    destruct (user_and_api_key enc) as [u a].
    destruct (user_server_instances st !! session_key name enc);
      [|destruct (factory u a)]; simpl;
      rewrite ?lookup_insert_ne by done; done.
  - destruct (streaming st !! t) as [c|] eqn:E; [|done].
    assert (conn_key c <> key) as Hne.
    { intros Heq. apply Hq. simpl. eauto. }
    simpl. split; [|done].
    destruct (user_session_transports st !! conn_key c); [|done].
    by rewrite lookup_delete_ne.
  - destruct (servers name); done.
Qed.

(** X6.  Sessions do not interfere: a run in which no connection asks for
    a key and no connection opened for it ends leaves the key's transport
    and instance as they were, so a POST to its messages endpoint gets the
    same answer after the run as before. *)
Theorem other_sessions_do_not_interfere rqs st key :
  quiet servers key rqs st ->
  user_session_transports (run servers rqs st).1 !! key
    = user_session_transports st !! key /\
  user_server_instances (run servers rqs st).1 !! key
    = user_server_instances st !! key /\
  forall name enc,
    session_key name enc = key ->
    (step servers (Post name enc) (run servers rqs st).1).2
      = (step servers (Post name enc) st).2.
Proof.
  revert st. induction rqs as [|rq rqs IH]; intros st Hq.
  - done.
  - destruct Hq as [Hrq Hq]. rewrite run_cons. cbn [fst].
    destruct (step_quiet rq st key Hrq) as [S1 S2].
    destruct (IH _ Hq) as (R1 & R2 & R3).
    split; [congruence|]. split; [congruence|].
    intros name enc Hk. rewrite (R3 name enc Hk).
    cbn [step]. destruct (servers name); [|done].
    cbn [snd]. unfold handle_message. by rewrite Hk, S1.
Qed.

End SessionFacts.

(** ** Discovery and launch *)

Section RegistryFacts.

Import Py Registry.

Context {Factory Options : Type}.

Implicit Types (item good bad : DirEntry (Factory := Factory) (Options := Options))
               (items front back :
                  list (DirEntry (Factory := Factory) (Options := Options)))
               (servers : list (string * (Factory * Options))).

Lemma dict_get_set_eq {V} k (v : V) d : dict_get k (dict_set k v d) = Some v.
Proof.
  unfold dict_get. induction d as [|[k' v'] d IH]; simpl.
  - by rewrite String.eqb_refl.
  - destruct (String.eqb k' k) eqn:E; simpl; [by rewrite String.eqb_refl|].
    by rewrite E.
Qed.

Lemma dict_get_set_ne {V} k k' (v : V) d :
  k <> k' -> dict_get k' (dict_set k v d) = dict_get k' d.
Proof.
  intros Hne. unfold dict_get. induction d as [|[k0 v0] d IH]; simpl.
  - by destruct (String.eqb_spec k k').
  - destruct (String.eqb_spec k0 k) as [->|]; simpl.
    + by destruct (String.eqb_spec k k').
    + destruct (String.eqb_spec k0 k'); [done | apply IH].
Qed.

Lemma dict_set_fresh {V} k (v : V) d :
  k ∉ d.*1 -> dict_set k v d = d ++ [(k, v)].
Proof.
  induction d as [|[k' v'] d IH]; simpl; [done|].
  intros [Hne Hd]%not_elem_of_cons.
  destruct (String.eqb_spec k' k); [congruence|]. by rewrite IH.
Qed.

Lemma discover_item_unusable item servers :
  usable item = false -> (discover_item item servers).1 = servers.
Proof.
  unfold usable, discover_item.
  destruct (is_dir item), (has_main item); simpl; try done.
  destruct (load item) as [m|e]; [|done].
  destruct (server m), (get_initialization_options m); done.
Qed.

Lemma discover_item_usable item servers :
  usable item = true ->
  exists info, registered item = [(entry_name item, info)] /\
               (discover_item item servers).1
                 = dict_set (entry_name item) info servers.
Proof.
  unfold usable, registered, discover_item.
  destruct (is_dir item), (has_main item); simpl; try done.
  destruct (load item) as [m|e]; [|done].
  destruct (server m) as [f|], (get_initialization_options m) as [o|];
    simpl; try done. eauto.
Qed.

Lemma discover_cons item items servers :
  (discover_servers (item :: items) servers).1
    = (discover_servers items (discover_item item servers).1).1.
Proof.
  simpl. destruct (discover_item item servers) as [s1 l1]. simpl.
  by destruct (discover_servers items s1).
Qed.

Lemma discover_app front back servers :
  (discover_servers (front ++ back) servers).1
    = (discover_servers back (discover_servers front servers).1).1.
Proof.
  revert servers. induction front as [|item front IH]; intros servers.
  - done.
  - rewrite <- app_comm_cons, !discover_cons. apply IH.
Qed.

Lemma discover_keeps_key items servers k :
  is_Some (dict_get k servers) ->
  is_Some (dict_get k (discover_servers items servers).1).
Proof.
  revert servers. induction items as [|item items IH]; intros servers H.
  - done.
  - rewrite discover_cons. apply IH.
    destruct (usable item) eqn:U.
    + destruct (discover_item_usable item servers U) as (info & _ & ->).
      destruct (decide (entry_name item = k)) as [<-|Hne].
      * rewrite dict_get_set_eq. eauto.
      * by rewrite dict_get_set_ne.
    + by rewrite discover_item_unusable.
Qed.

(** X7.  [discover_servers] confines a failure to the item it comes
    from: an item that is no directory, has no [main.py], raises while it
    is loaded or lacks one of the two attributes changes nothing in
    [servers], wherever it stands in the directory listing; and every
    item that loads with both attributes is in [servers] in the end,
    whatever the other items do. *)
Theorem broken_server_is_isolated front bad back servers :
  usable bad = false ->
  (discover_servers (front ++ bad :: back) servers).1
    = (discover_servers (front ++ back) servers).1 /\
  forall good,
    good ∈ front ++ back -> usable good = true ->
    is_Some (dict_get (entry_name good)
               (discover_servers (front ++ bad :: back) servers).1).
Proof.
  intros Hbad.
  assert ((discover_servers (front ++ bad :: back) servers).1
          = (discover_servers (front ++ back) servers).1) as Heq.
  { rewrite !discover_app, discover_cons.
    by rewrite (discover_item_unusable bad _ Hbad). }
  split; [done|]. rewrite Heq. clear Heq Hbad bad.
  intros good Hin Hgood. revert servers Hin.
  induction (front ++ back) as [|item items IH]; intros servers Hin.
  - by apply elem_of_nil in Hin.
  - rewrite discover_cons. apply elem_of_cons in Hin as [<-|Hin].
    + apply discover_keeps_key.
      destruct (discover_item_usable good servers Hgood) as (info & _ & ->).
      rewrite dict_get_set_eq. eauto.
    + by apply IH.
Qed.

Lemma registered_unusable item : usable item = false -> registered item = [].
Proof. intros H. unfold registered. by rewrite discover_item_unusable. Qed.

Lemma discover_fresh items servers :
  NoDup (entry_name <$> items) ->
  (forall item, item ∈ items -> entry_name item ∉ servers.*1) ->
  (discover_servers items servers).1 = servers ++ flat_map registered items.
Proof.
  revert servers. induction items as [|item items IH]; intros servers Hnd Hfresh.
  - simpl. by rewrite app_nil_r.
  - rewrite discover_cons. simpl in Hnd. apply NoDup_cons in Hnd as [Hnotin Hnd].
    destruct (usable item) eqn:U.
    + destruct (discover_item_usable item servers U) as (info & Hreg & ->).
      rewrite dict_set_fresh by (apply Hfresh; left).
      rewrite IH; [simpl; by rewrite Hreg, <- app_assoc | done |].
      intros item' Hin. rewrite fmap_app. simpl.
      intros [H | H]%elem_of_app.
      * apply (Hfresh item'); [by right | done].
      * apply list_elem_of_singleton in H. apply Hnotin.
        rewrite <- H. by apply list_elem_of_fmap_2.
    + rewrite discover_item_unusable by done.
      rewrite IH; [simpl; by rewrite registered_unusable | done |].
      intros item' Hin. apply Hfresh. by right.
Qed.

Lemma registered_names items :
  (flat_map registered items).*1 = entry_name <$> filter (fun i => usable i = true) items.
Proof.
  induction items as [|item items IH]; [done|].
  simpl. rewrite fmap_app, IH, filter_cons.
  destruct (usable item) eqn:U.
  - destruct (discover_item_usable item [] U) as (info & -> & _).
    by destruct (decide (true = true)).
  - rewrite registered_unusable by done.
    by destruct (decide (false = true)).
Qed.

(** X8.  Started on an empty [servers] over a directory whose item names
    differ, [discover_servers] registers the usable items in directory
    order; both status endpoints report exactly those names in that
    order, and the application has two routes per registered server and
    the two status routes. *)
Theorem status_reports_discovered_servers items :
  NoDup (entry_name <$> items) ->
  let servers := (discover_servers items []).1 in
  let names := entry_name <$> filter (fun i => usable i = true) items in
  servers = flat_map registered items /\
  status_servers (health_check servers) = names /\
  status_servers (root_handler servers) = names /\
  length (routes servers) = (2 * length names + 2)%nat.
Proof.
  intros Hnd servers names.
  assert (servers = flat_map registered items) as Hs.
  { unfold servers. rewrite discover_fresh; [done | done |].
    intros item _ H. by apply elem_of_nil in H. }
  assert (servers.*1 = names) as Hn
    by (rewrite Hs; apply registered_names).
  repeat split; try done.
  unfold routes. rewrite length_app. simpl.
  rewrite <- Hn, length_fmap. clear.
  induction servers as [|e servers IH]; simpl; lia.
Qed.

End RegistryFacts.

Section LauncherFacts.

Import Py Launcher.

Lemma string_of_uint_digits d : all_digits (NilEmpty.string_of_uint d) = true.
Proof. induction d; simpl; done. Qed.

Lemma str_of_Z_literal p : p <> 0 -> decimal_literal (Discord.str_of_Z p) = true.
Proof.
  intros Hp. unfold Discord.str_of_Z.
  destruct p as [|p|p]; [done | |]; simpl.
  - pose proof (DecimalPos.Unsigned.to_uint_nonnil p) as Hnil.
    pose proof (string_of_uint_digits (Pos.to_uint p)) as Hd.
    destruct (Pos.to_uint p); try done; simpl in *; done.
  - pose proof (DecimalPos.Unsigned.to_uint_nonnil p) as Hnil.
    pose proof (string_of_uint_digits (Pos.to_uint p)) as Hd.
    destruct (Pos.to_uint p); try done; simpl in *; done.
Qed.

(** X9.  What [main.py] hands to [remote.main] is read back by its parser
    as the same host and port, except that a port of 0 and an empty host
    are not handed on, so that the server starts on its own defaults,
    port 8000 and host 0.0.0.0, instead.  (For hosts that do not start
    with a dash.) *)
Theorem launcher_forwards_host_and_port prog args :
  plain_value (host args) = true ->
  parse_args (forwarded_argv prog args)
    = Some {| host := if bool_decide (host args = EmptyString)
                      then "0.0.0.0" else host args;
              port := if bool_decide (port args = 0)
                      then 8000 else port args |}.
Proof.
  intros Hhost. unfold parse_args, forwarded_argv. cbn [app tail].
  destruct (bool_decide (host args = EmptyString)) eqn:Hh;
    destruct (bool_decide (port args = 0)) eqn:Hp; cbn [app parse_from].
  - done.
  - apply bool_decide_eq_false in Hp.
    cbn [String.eqb Ascii.eqb Bool.eqb].
    by rewrite (str_of_Z_literal _ Hp), int_of_str_of_Z.
  - cbn [String.eqb Ascii.eqb Bool.eqb]. by rewrite Hhost.
  - apply bool_decide_eq_false in Hp.
    cbn [String.eqb Ascii.eqb Bool.eqb]. rewrite Hhost. cbn [parse_from].
    cbn [String.eqb Ascii.eqb Bool.eqb port].
    by rewrite (str_of_Z_literal _ Hp), int_of_str_of_Z.
Qed.

End LauncherFacts.

(** ** More about the Discord adapter *)

Section DiscordMoreFacts.

Import Py Discord DiscordAuth.

Variable env : Env.

(** X10.  [get_credentials] returns a token that is never empty: the
    stored [token] when that is a non-empty string, else the stored
    [access_token] when that is one.  In every other case (nothing stored,
    an empty dictionary, both entries missing or empty) it raises
    [ValueError] "Credentials not found for user ...". *)
Theorem get_credentials_outcome user api :
  match get_credentials env user api with
  | Ok token =>
      token <> EmptyString /\
      exists d,
        get_user_credentials env api user = Some d /\
        (d !! "token" = Some token \/
         (d !! "token" = None \/ d !! "token" = Some EmptyString) /\
         d !! "access_token" = Some token)
  | Raise e =>
      e = ValueError ("Credentials not found for user " +:+ user) /\
      forall d,
        get_user_credentials env api user = Some d ->
        (d !! "token" = None \/ d !! "token" = Some EmptyString) /\
        (d !! "access_token" = None \/ d !! "access_token" = Some EmptyString)
  end.
Proof.
  unfold get_credentials.
  destruct (get_user_credentials env api user) as [d|]; [|by split].
  destruct (bool_decide (d = ∅)) eqn:E.
  { apply bool_decide_eq_true in E. subst. split; [done|].
    intros d [= <-]. rewrite !lookup_empty. auto. }
  destruct (d !! "token") as [[|c t]|] eqn:Ht;
    destruct (d !! "access_token") as [[|c' t']|] eqn:Ha;
    try (split; [done|]; first [ intros d' [= <-]; rewrite Ht, Ha; by auto
                               | exists d; by auto ]).
Qed.

(** X11.  [validate_credentials] and [get_credentials] do not accept the
    same credentials.  What [validate_credentials] returns has a [token]
    entry that passed the probe and, when that token is not empty,
    [get_credentials] serves it.  Credentials that hold only an
    [access_token] are served by [get_credentials] but rejected by
    [validate_credentials], whatever the probe says. *)
Theorem validation_demands_token_entry probe user :
  (forall credentials,
     validate_credentials env probe user = Ok credentials ->
     get_user_credentials env None user = Some credentials /\
     exists token,
       credentials !! "token" = Some token /\ probe token = None /\
       (token <> EmptyString -> get_credentials env user None = Ok token)) /\
  (forall d token,
     get_user_credentials env None user = Some d ->
     d !! "token" = None ->
     d !! "access_token" = Some token -> token <> EmptyString ->
     get_credentials env user None = Ok token /\
     exists msg, validate_credentials env probe user = Raise (ValueError msg)).
Proof.
  split.
  - intros credentials. unfold validate_credentials, get_credentials.
    destruct (get_user_credentials env None user) as [d|]; [|done].
    destruct (bool_decide (d = ∅)); [done|].
    destruct (d !! "token") as [token|] eqn:Ht; [|done].
    destruct (probe token) eqn:Hp; [done|]. intros [= <-].
    split; [done|]. exists token. rewrite Ht. repeat split; try done.
    intros Hne. by destruct token.
  - intros d token Hd Ht Ha Hne.
    unfold validate_credentials, get_credentials. rewrite Hd.
    destruct (bool_decide (d = ∅)) eqn:E.
    { apply bool_decide_eq_true in E. subst. by rewrite lookup_empty in Ha. }
    rewrite Ht, Ha. split; [by destruct token | eauto].
Qed.

Lemma lacks_complete (d : gmap string value) keys key0 :
  In key0 keys ->
  (forall key, In key keys -> is_Some (d !! key)) ->
  lacks (Some d) keys = false.
Proof.
  intros Hin Hall. simpl. apply orb_false_iff. split.
  - apply bool_decide_eq_false. intros ->.
    destruct (Hall key0 Hin) as [v Hv]. by rewrite lookup_empty in Hv.
  - apply not_true_is_false. intros (key & Hk & Hb)%existsb_exists.
    apply bool_decide_eq_true in Hb. destruct (Hall key Hk) as [v Hv].
    congruence.
Qed.

(** X12.  The argument check of [handle_call_tool] asks for nothing
    beyond the schema: a tool that [handle_list_tools] lists, called with
    a dictionary that holds every key its schema requires, passes the
    check and runs its branch, whatever other keys the dictionary
    holds. *)
Theorem complete_arguments_are_accepted g tool d :
  tool ∈ handle_list_tools ->
  (forall key, key ∈ required tool -> is_Some (d !! key)) ->
  dispatch env g (tool_name tool) (Some d)
    = tool_branch env g (tool_name tool) d.
Proof.
  intros Htool Hall. apply list_elem_of_In in Htool. simpl in Htool.
  assert (forall key, In key (required tool) -> is_Some (d !! key)) as Hall'.
  { intros key Hk. apply Hall. by apply list_elem_of_In. }
  clear Hall.
  repeat destruct Htool as [<- | Htool]; try done;
    cbn [tool_name required] in *; unfold dispatch, tool_branch;
    cbn [String.eqb Ascii.eqb Bool.eqb]; unfold branch;
    (erewrite lacks_complete; [reflexivity | by left | exact Hall']).
Qed.

(** X13.  [ban_member] asks Discord for at most one ban, and only for a
    guild the bot knows and may ban in, with integer guild and user ids
    and the clamped day count: for an unknown guild or without the
    permission it returns a text and asks for nothing. *)
Theorem ban_is_guarded g d :
  ((ban_member env g d).1 = [] \/
   exists b gd gid uid days,
     bot g = Some b /\
     py_int (item d "guild_id") = Ok gid /\
     get_guild env b gid = Some gd /\ may_ban gd = true /\
     py_int (item d "user_id") = Ok uid /\
     delete_message_days d = Ok days /\
     (ban_member env g d).1 = [GuildBan gid uid days]) /\
  (forall b gid days,
     bot g = Some b -> py_int (item d "guild_id") = Ok gid ->
     delete_message_days d = Ok days ->
     (get_guild env b gid = None ->
      ban_member env g d
        = ([], Ok ("Server not found: " +:+ py_str env (item d "guild_id")))) /\
     (forall gd, get_guild env b gid = Some gd -> may_ban gd = false ->
      ban_member env g d
        = ([], Ok "Bot does not have permission to ban members"))).
Proof.
  split.
  - unfold ban_member.
    destruct (delete_message_days d) as [days|e] eqn:Hd; [|by left].
    unfold bot_attr. destruct (bot g) as [b|] eqn:Hb; [|by left].
    cbn [mbind result_bind].
    destruct (py_int (item d "guild_id")) as [gid|e] eqn:Hg; [|by left].
    cbn [mbind result_bind].
    destruct (get_guild env b gid) as [gd|] eqn:Hgd; [|by left].
    destruct (may_ban gd) eqn:Hm; [|by left]. cbn [negb].
    destruct (py_int (item d "user_id")) as [uid|e] eqn:Hu; [|by left].
    right. exists b, gd, gid, uid, days. by repeat split.
  - intros b gid days Hb Hg Hd. unfold ban_member.
    rewrite Hd. unfold bot_attr. rewrite Hb. cbn [mbind result_bind].
    rewrite Hg. cbn [mbind result_bind]. split.
    + by intros ->.
    + by intros gd -> ->.
Qed.

(** X14.  [ban_member] turns the refusals of Discord into text: when it
    raises, the exception comes from an argument [int] could not convert,
    from the missing bot, or from [guild.ban] raising something that is
    none of [Forbidden], [NotFound] and [HTTPException]. *)
Theorem ban_raises_only_for_bad_requests g d e :
  (ban_member env g d).2 = Raise e ->
  delete_message_days d = Raise e \/
  bot_attr g "get_guild" = Raise e \/
  py_int (item d "guild_id") = Raise e \/
  py_int (item d "user_id") = Raise e \/
  (http_error e = false /\
   exists gid uid reason days, guild_ban env gid uid reason days = Raise e).
Proof.
  unfold ban_member.
  destruct (delete_message_days d) as [days|e0] eqn:Hd;
    [|intros [= ->]; by left].
  destruct (bot_attr g "get_guild") as [b|e0] eqn:Hb;
    [|intros [= ->]; by (right; left)].
  cbn [mbind result_bind].
  destruct (py_int (item d "guild_id")) as [gid|e0] eqn:Hg;
    [|intros [= ->]; by (right; right; left)].
  cbn [mbind result_bind].
  destruct (get_guild env b gid) as [gd|]; [|done].
  destruct (negb (may_ban gd)); [done|].
  destruct (py_int (item d "user_id")) as [uid|e0] eqn:Hu;
    [|intros [= ->]; by (right; right; right; left)].
  cbn [snd].
  destruct (guild_ban env gid uid _ days) as [[]|e0] eqn:Hban; [done|].
  intros H. right; right; right; right.
  destruct e0; try done; injection H as <-; (split; [done | eauto 6]).
Qed.

(** X15.  For a guild the bot knows, [list_members] reports the first
    [min(limit, n)] members of the member list, [limit] being the clamped
    page size; it asks Discord for the full list ([guild.chunk()]) only
    when the guild is large and its cache holds fewer than [limit]
    members, and then reports from that list. *)
Theorem members_page g d b gid gd limit :
  bot g = Some b ->
  py_int (item d "guild_id") = Ok gid ->
  get_guild env b gid = Some gd ->
  members_limit d = Ok limit ->
  let chunk := large gd && (Z.of_nat (length (members gd)) <? limit) in
  let source := if chunk then members_chunked gd else members gd in
  list_members env g d
    = (if chunk then [GuildChunk (guild_id gd)] else [],
       Ok (dump_members env (firstn (Z.to_nat limit) source))) /\
  length (firstn (Z.to_nat limit) source)
    = Nat.min (Z.to_nat limit) (length source).
Proof.
  intros Hb Hg Hgd Hl chunk source.
  assert (1 <= limit) as Hpos.
  { unfold members_limit in Hl.
    destruct (py_int (get d "limit" (VInt 50))); [|done].
    simpl in Hl. injection Hl as <-. lia. }
  split; [|apply length_firstn].
  unfold list_members. rewrite Hl. unfold bot_attr. rewrite Hb.
  cbn [mbind result_bind]. rewrite Hg. cbn [mbind result_bind]. rewrite Hgd.
  unfold listed_members, slice_to. fold chunk.
  destruct (Z.leb_spec 0 limit); [|lia].
  unfold source. by destruct chunk.
Qed.

(** Past the gate, [handle_read_resource] only wraps its [try] block. *)
Lemma read_resource_past_gate uri_str s g :
  returned (ensure_bot env s g) = Ok () ->
  returned (handle_read_resource env uri_str s g)
    = Ok (as_text (read_resource_try env (globals_after (ensure_bot env s g))
                     uri_str)) /\
  server_after (handle_read_resource env uri_str s g)
    = server_after (ensure_bot env s g) /\
  globals_after (handle_read_resource env uri_str s g)
    = globals_after (ensure_bot env s g).
Proof.
  intros Hgate. unfold handle_read_resource.
  destruct (behind_gate_state env s g
              (fun g1 => ([], match read_resource_try env g1 uri_str with
                              | Ok text => Ok text
                              | Raise e => Ok ("Error reading resource: "
                                               +:+ exn_str e)
                              end))) as [-> ->].
  destruct (behind_gate_open env s g
              (fun g1 => ([], match read_resource_try env g1 uri_str with
                              | Ok text => Ok text
                              | Raise e => Ok ("Error reading resource: "
                                               +:+ exn_str e)
                              end)) Hgate) as [-> _].
  cbn [snd]. by destruct (read_resource_try _ _ _).
Qed.

Lemma read_try_encoded g b ch guild channel :
  bot g = Some b -> get_channel env b channel = Some ch ->
  read_resource_try env g (resource_uri guild channel) = read_history ch.
Proof.
  intros Hb Hch. unfold read_resource_try.
  rewrite parse_resource_uri. unfold bot_attr. rewrite Hb.
  unfold mbind, result_bind. rewrite int_of_str_of_Z. by rewrite Hch.
Qed.

(** X16.  Past the readiness gate [handle_read_resource] raises nothing,
    whatever the URI and whatever Discord answers: it returns the text of
    the channel, "Channel not found", or the text of the exception, and
    leaves the server object and the globals as the gate left them. *)
Theorem read_resource_returns_text uri_str s g :
  returned (ensure_bot env s g) = Ok () ->
  returned (handle_read_resource env uri_str s g)
    = Ok (as_text (read_resource_try env (globals_after (ensure_bot env s g))
                     uri_str)) /\
  server_after (handle_read_resource env uri_str s g)
    = server_after (ensure_bot env s g) /\
  globals_after (handle_read_resource env uri_str s g)
    = globals_after (ensure_bot env s g).
Proof. apply read_resource_past_gate. Qed.

(** X17.  The guild segment of a resource URI is decoded and then never
    used: with any other guild identifier in its place the same channel
    is read and the same text comes back. *)
Theorem guild_segment_is_ignored guild guild' channel s g :
  read_resource_try env g (resource_uri guild channel)
    = read_resource_try env g (resource_uri guild' channel) /\
  returned (handle_read_resource env (resource_uri guild channel) s g)
    = returned (handle_read_resource env (resource_uri guild' channel) s g).
Proof.
  assert (read_resource_try env g (resource_uri guild channel)
          = read_resource_try env g (resource_uri guild' channel)) as Htry.
  { unfold read_resource_try. by rewrite !parse_resource_uri. }
  split; [done|].
  assert (forall g1, read_resource_try env g1 (resource_uri guild channel)
                     = read_resource_try env g1 (resource_uri guild' channel))
    as Hall.
  { intros g1. unfold read_resource_try. by rewrite !parse_resource_uri. }
  unfold handle_read_resource, behind_gate.
  destruct (returned (ensure_bot env s g)); [|done].
  cbn [returned]. by rewrite Hall.
Qed.

Lemma find_unique (chs : list Channel) ch :
  NoDup (channel_id <$> chs) -> ch ∈ chs ->
  List.find (fun c => channel_id c =? channel_id ch) chs = Some ch.
Proof.
  induction chs as [|c chs IH]; intros Hnd Hin; [by apply elem_of_nil in Hin|].
  simpl in Hnd. apply NoDup_cons in Hnd as [Hnotin Hnd]. simpl.
  apply elem_of_cons in Hin as [->|Hin].
  - by rewrite Z.eqb_refl.
  - destruct (Z.eqb_spec (channel_id c) (channel_id ch)) as [Heq|]; [|by apply IH].
    exfalso. apply Hnotin. rewrite Heq. by apply list_elem_of_fmap_2.
Qed.

(** X18.  What [handle_list_resources] lists can be read back: for a
    server that is started, with the bot connected and channel
    identifiers that differ, it returns one resource per text channel of
    every guild, and [handle_read_resource] on the URI of a channel's
    resource returns the history of that very channel (or the text of
    the exception reading it raises). *)
Theorem listed_resources_can_be_read s g b task :
  bot_task s = Some task ->
  bot g = Some b -> connected b = true ->
  NoDup (channel_id <$> flat_map text_channels (guilds env)) ->
  returned (handle_list_resources env None s g)
    = Ok (resources_of (guilds env)) /\
  forall gd ch,
    gd ∈ guilds env -> ch ∈ text_channels gd ->
    {| uri := resource_uri (guild_id gd) (channel_id ch);
       mime_type := "text/plain";
       name := guild_name gd +:+ "/" +:+ channel_name ch |}
      ∈ resources_of (guilds env) /\
    returned (handle_read_resource env
                (resource_uri (guild_id gd) (channel_id ch)) s g)
      = Ok (as_text (read_history ch)).
Proof.
  intros Hs Hb Hc Hnd.
  pose proof (started_server_does_not_wait env s g task Hs) as Hgate.
  split.
  - unfold handle_list_resources, behind_gate. rewrite Hgate. cbn.
    unfold bot_attr. rewrite Hb. cbn. unfold bot_guilds. by rewrite Hc.
  - intros gd ch Hgd Hch. split.
    + unfold resources_of. apply list_elem_of_In, in_flat_map.
      exists gd. split; [by apply list_elem_of_In|].
      apply in_map_iff. exists ch. split; [done | by apply list_elem_of_In].
    + assert (returned (ensure_bot env s g) = Ok ()) as Hopen
        by (by rewrite Hgate).
      destruct (read_resource_past_gate
                  (resource_uri (guild_id gd) (channel_id ch)) s g Hopen)
        as [-> _].
      rewrite Hgate. cbn [globals_after]. f_equal. f_equal.
      apply (read_try_encoded g b ch _ _ Hb).
      unfold get_channel, bot_guilds. rewrite Hc.
      apply find_unique; [done|].
      apply list_elem_of_In, in_flat_map. exists gd.
      split; by apply list_elem_of_In.
Qed.

(** X19.  The bot one user's credentials created serves users that have
    none: when the global bot exists and is connected, the first
    operation of a server whose user has no credentials raises
    [TimeoutError], and its next [handle_list_resources] returns every
    resource the bot sees. *)
Theorem shared_bot_serves_users_without_credentials s g b e :
  bot g = Some b -> connected b = true ->
  bot_task s = None -> bot_ready s = false ->
  get_credentials env (user_id s) (api_key s) = Raise e ->
  let first := handle_list_resources env None s g in
  let second := handle_list_resources env None
                  (server_after first) (globals_after first) in
  returned first = Raise TimeoutError /\
  bot_task (server_after first) = Some (Crashed e) /\
  returned second = Ok (resources_of (guilds env)).
Proof.
  intros Hb Hc Hs Hr Hcred first second.
  assert (ensure_bot env s g =
          {| server_after :=
               {| user_id := user_id s; api_key := api_key s;
                  bot_task := Some (Crashed e); bot_ready := false |};
             globals_after := g;
             events := [CreateTask; WaitReady READY_TIMEOUT];
             returned := Raise TimeoutError |}) as Hgate.
  { unfold ensure_bot, start_bot_background, create_discord_bot.
    by rewrite Hs, Hb, Hcred, Hr. }
  assert (first =
          {| server_after :=
               {| user_id := user_id s; api_key := api_key s;
                  bot_task := Some (Crashed e); bot_ready := false |};
             globals_after := g;
             events := [CreateTask; WaitReady READY_TIMEOUT];
             returned := Raise TimeoutError |}) as Hfirst.
  { unfold first, handle_list_resources, behind_gate. by rewrite Hgate. }
  unfold second. rewrite Hfirst. cbn [returned server_after globals_after bot_task].
  repeat split.
  unfold handle_list_resources, behind_gate, ensure_bot. cbn.
  unfold bot_attr. rewrite Hb. cbn. unfold bot_guilds. by rewrite Hc.
Qed.

(** X20.  A start is never retried: once [bot_task] is set, none of the
    three handlers changes the server object or the globals, starts a
    task or waits, so a server whose task crashed stays as it is and no
    operation of it ever creates a bot. *)
Theorem started_server_is_left_alone s g task cursor uri_str name arguments :
  bot_task s = Some task ->
  (server_after (handle_list_resources env cursor s g) = s /\
   globals_after (handle_list_resources env cursor s g) = g /\
   events (handle_list_resources env cursor s g) = []) /\
  (server_after (handle_read_resource env uri_str s g) = s /\
   globals_after (handle_read_resource env uri_str s g) = g /\
   events (handle_read_resource env uri_str s g) = []) /\
  (server_after (handle_call_tool env name arguments s g) = s /\
   globals_after (handle_call_tool env name arguments s g) = g /\
   Forall (fun ev => ev <> CreateTask /\ forall n, ev <> WaitReady n)
          (events (handle_call_tool env name arguments s g))).
Proof.
  intros Hs.
  pose proof (started_server_does_not_wait env s g task Hs) as Hgate.
  split; [|split].
  - unfold handle_list_resources, behind_gate. by rewrite Hgate.
  - unfold handle_read_resource, behind_gate. by rewrite Hgate.
  - assert (forall d, Forall (fun ev => ev <> CreateTask /\
                                forall n, ev <> WaitReady n)
                        (ban_member env g d).1) as Hban.
    { intros d. unfold ban_member.
      destruct (delete_message_days d); [|done].
      destruct (_ ← bot_attr g "get_guild"; _) as [[b gid]|]; [|done].
      destruct (get_guild env b gid) as [gd|]; [|done].
      destruct (negb (may_ban gd)); [done|].
      destruct (py_int (item d "user_id")); [|done].
      cbn. by repeat constructor. }
    assert (forall d, Forall (fun ev => ev <> CreateTask /\
                                forall n, ev <> WaitReady n)
                        (list_members env g d).1) as Hlist.
    { intros d. unfold list_members.
      destruct (members_limit d); [|done].
      destruct (_ ← bot_attr g "get_guild"; _) as [[b gid]|]; [|done].
      destruct (get_guild env b gid) as [gd|]; [|done].
      unfold listed_members.
      destruct (large gd && _); cbn; by repeat constructor. }
    assert (Forall (fun ev => ev <> CreateTask /\ forall n, ev <> WaitReady n)
                   (dispatch env g name arguments).1) as Hdis.
    { unfold dispatch.
      repeat match goal with
      | |- context [String.eqb name ?t] => destruct (String.eqb name t)
      end; try done; apply branch_events; first [done | intros; by cbn]. }
    unfold handle_call_tool, behind_gate. rewrite Hgate.
    cbn [returned server_after globals_after events].
    destruct (dispatch env g name arguments) as [evs r]. by cbn.
Qed.

(** X21.  A first operation gets through exactly when the gateway reports
    ready within the bound: for a new server, with no bot yet and
    credentials that resolve, [handle_list_resources] returns every
    resource when [on_ready] fires after at most 30 time units and raises
    [TimeoutError] when it fires later or never; in both cases it waited
    once, with a timeout of 30. *)
Theorem first_operation_outcome user api token :
  get_credentials env user api = Ok token ->
  let o := handle_list_resources env None (create_server user api) fresh in
  events o = [CreateTask; WaitReady 30] /\
  bot_task (server_after o) = Some (Running 0) /\
  match ready_after env token with
  | Some delay =>
      if (delay <=? 30)%nat
      then returned o = Ok (resources_of (guilds env)) /\
           bot_ready (server_after o) = true
      else returned o = Raise TimeoutError /\
           bot_ready (server_after o) = false
  | None => returned o = Raise TimeoutError /\
            bot_ready (server_after o) = false
  end.
Proof.
  intros Hcred o. unfold o, handle_list_resources, behind_gate, ensure_bot,
    start_bot_background, create_discord_bot.
  cbn [create_server bot_task user_id api_key bot fresh bot_ready bots_made].
  rewrite Hcred. cbn [orb].
  destruct (ready_after env token) as [delay|]; [|by cbn].
  change READY_TIMEOUT with 30%nat.
  destruct (delay <=? 30)%nat; cbn; done.
Qed.

End DiscordMoreFacts.

(** ** The Linear utilities *)

Section LinearFacts.

Import Linear.

Lemma do_GET_keeps rq server :
  (is_Some (auth_code server) -> is_Some (auth_code (do_GET rq server).1)) /\
  (is_Some (auth_error server) -> is_Some (auth_error (do_GET rq server).1)).
Proof.
  unfold do_GET. destruct (String.eqb (path rq) "/favicon.ico"); [done|].
  destruct (query_params rq !! "code") as [[code ?]|];
    [|destruct (query_params rq !! "error") as [[error ?]|]]; simpl; eauto.
Qed.

Lemma do_GET_code rq server :
  is_Some (auth_code (do_GET rq server).1) <->
  is_Some (auth_code server) \/ sets_code rq = true.
Proof.
  unfold do_GET, sets_code.
  destruct (String.eqb (path rq) "/favicon.ico"); simpl.
  { split; [auto | by intros [?|?]]. }
  destruct (query_params rq !! "code") as [[code ?]|] eqn:E; simpl.
  - split; [intros _; by right | eauto].
  - destruct (query_params rq !! "error") as [[error ?]|]; simpl;
      (split; [auto | by intros [?|?]]).
Qed.

Lemma do_GET_error rq server :
  is_Some (auth_error (do_GET rq server).1) <->
  is_Some (auth_error server) \/ sets_error rq = true.
Proof.
  unfold do_GET, sets_error.
  destruct (String.eqb (path rq) "/favicon.ico"); simpl.
  { split; [auto | by intros [?|?]]. }
  destruct (query_params rq !! "code") as [[code ?]|] eqn:E; simpl.
  - split; [auto | by intros [?|?]].
  - destruct (query_params rq !! "error") as [[error ?]|]; simpl;
      (split; [intros _; by right | eauto]).
Qed.

Lemma serve_snoc rqs rq server :
  serve (rqs ++ [rq]) server = (do_GET rq (serve rqs server)).1.
Proof. unfold serve. by rewrite fold_left_app. Qed.

(** X22.  The callback server only accumulates: no request ever clears
    [auth_code] or [auth_error].  After any series of requests,
    [auth_code] is set exactly when some request other than the favicon's
    carried a [code], and [auth_error] is set exactly when some request
    other than the favicon's carried none, whether or not a code arrived
    before or after it. *)
Theorem callback_requests_accumulate rqs :
  (is_Some (auth_code (serve rqs waiting)) <->
   Exists (fun rq => sets_code rq = true) rqs) /\
  (is_Some (auth_error (serve rqs waiting)) <->
   Exists (fun rq => sets_error rq = true) rqs) /\
  (forall rq server,
     (is_Some (auth_code server) -> is_Some (auth_code (do_GET rq server).1)) /\
     (is_Some (auth_error server) ->
      is_Some (auth_error (do_GET rq server).1))).
Proof.
  split; [|split; [|intros; apply do_GET_keeps]].
  - induction rqs as [|rq rqs IH] using rev_ind.
    + simpl. split; [by intros [? ?] | by intros ?%Exists_nil].
    + rewrite serve_snoc, do_GET_code, IH, Exists_app, Exists_cons, Exists_nil.
      tauto.
  - induction rqs as [|rq rqs IH] using rev_ind.
    + simpl. split; [by intros [? ?] | by intros ?%Exists_nil].
    + rewrite serve_snoc, do_GET_error, IH, Exists_app, Exists_cons, Exists_nil.
      tauto.
Qed.

Lemma wait_loop_spec env budget wait_time :
  (wait_time <= max_wait_time)%nat ->
  (max_wait_time - wait_time <= budget)%nat ->
  let n := wait_loop env budget wait_time in
  (wait_time <= n <= max_wait_time)%nat /\
  (pending (observe env n) = false \/ n = max_wait_time) /\
  forall k, (wait_time <= k < n)%nat -> pending (observe env k) = true.
Proof.
  revert wait_time. induction budget as [|budget IH]; intros wait_time Hle Hb.
  - simpl. repeat split; [lia | lia | right; lia | intros; lia].
  - simpl.
    destruct (pending (observe env wait_time)) eqn:Hp; simpl.
    + destruct (Nat.ltb_spec wait_time max_wait_time) as [Hlt|Hge].
      * destruct (IH (S wait_time)) as (H1 & H2 & H3); [lia | lia |].
        repeat split; [lia | lia | done |].
        intros k Hk. destruct (decide (k = wait_time)) as [->|]; [done|].
        apply H3. lia.
      * repeat split; [lia | lia | right; lia | intros; lia].
    + repeat split; [lia | lia | by left | intros; lia].
Qed.

(** X23.  The wait for the callback (lines 137-141) sleeps at most 120
    times and stops at the first check that finds a code or an error:
    [wait] is the number of the first such check, or 120 when the first
    120 checks find nothing. *)
Theorem wait_is_bounded env :
  (wait env <= 120)%nat /\
  (pending (observe env (wait env)) = false \/ wait env = 120%nat) /\
  forall k, (k < wait env)%nat -> pending (observe env k) = true.
Proof.
  destruct (wait_loop_spec env max_wait_time 0) as (H1 & H2 & H3);
    [unfold max_wait_time; lia.. |].
  fold (wait env) in *. repeat split; [apply H1 | done |].
  intros k Hk. apply H3. lia.
Qed.

Lemma replicate_sleep_quiet n :
  Forall (fun e => is_save e = false /\ is_post e = false) (replicate n Sleep).
Proof. induction n; simpl; by constructor. Qed.

Ltac no_save :=
  repeat first
    [ eapply Forall_impl; [apply replicate_sleep_quiet | by intros ? [? ?]]
    | apply replicate_sleep_quiet
    | apply Forall_app; split
    | constructor; [done|]
    | by constructor ].

(** The four ways the flow can go. *)
Lemma authenticate_shape env user service scopes :
  let r := authenticate_and_save_credentials env user service scopes in
  (exists f, r = ([], Fails f)) \/
  (exists url f,
     r = ([StartServer; OpenBrowser url] ++ replicate (wait env) Sleep
          ++ [Shutdown], Fails f)) \/
  (exists url data f,
     r = ([StartServer; OpenBrowser url] ++ replicate (wait env) Sleep
          ++ [Shutdown] ++ [PostToken data], Fails f)) \/
  (exists url data credentials,
     r = ([StartServer; OpenBrowser url] ++ replicate (wait env) Sleep
          ++ [Shutdown]
          ++ [PostToken data; SaveCredentials service user credentials],
          Done credentials) /\
     truthy (get credentials "access_token") = true).
Proof.
  intros r. unfold r, authenticate_and_save_credentials.
  destruct (negb (truthy _) || negb (truthy _)); [left; eauto|].
  destruct (bind_error env); [left; eauto|].
  assert (forall (url : string)
                 (k : list Effect * outcome (gmap string json)) f,
            k = ([StartServer; OpenBrowser url] ++ replicate (wait env) Sleep
                 ++ [Shutdown], Fails f) ->
            (exists f, k = ([], Fails f)) \/
            (exists url f,
               k = ([StartServer; OpenBrowser url] ++ replicate (wait env) Sleep
                    ++ [Shutdown], Fails f)) \/
            (exists url data f,
               k = ([StartServer; OpenBrowser url] ++ replicate (wait env) Sleep
                    ++ [Shutdown] ++ [PostToken data], Fails f)) \/
            (exists url data credentials,
               k = ([StartServer; OpenBrowser url] ++ replicate (wait env) Sleep
                    ++ [Shutdown]
                    ++ [PostToken data;
                        SaveCredentials service user credentials],
                    Done credentials) /\
               truthy (get credentials "access_token") = true)) as Hfail.
  { intros url k f ->. right. left. eauto. }
  destruct (auth_error (final env)) as [[|c e]|];
    destruct (auth_code (final env)) as [[|c' code]|];
    try (eapply Hfail; reflexivity).
  all: clear Hfail; right; right.
  all: destruct (post_token env _) as [token_response|f];
    [|left; eexists _, _, _; by rewrite <- !app_assoc].
  all: destruct (negb (ok token_response));
    [left; eexists _, _, _; by rewrite <- !app_assoc|].
  all: destruct (json_body token_response) as [token_data|f];
    [|left; eexists _, _, _; by rewrite <- !app_assoc].
  all: destruct (truthy (get token_data "access_token")) eqn:Ht; cbn [negb];
    [|left; eexists _, _, _; by rewrite <- !app_assoc].
  all: right; eexists _, _, _; split;
    [by rewrite <- !app_assoc | unfold get at 1; by rewrite lookup_insert_eq].
Qed.

(** X24.  [authenticate_and_save_credentials] saves credentials only when
    it returns them: on success the last effect is the one save, of
    exactly the credentials returned, under the service and user given,
    and their access token is truthy; on every failure nothing is saved.
    Before anything is sent to the token endpoint the callback server
    has been started, the browser opened, at most 120 sleeps made and the
    server shut down. *)
Theorem credentials_saved_only_on_success env user service scopes :
  let r := authenticate_and_save_credentials env user service scopes in
  match r.2 with
  | Done credentials =>
      exists before,
        r.1 = before ++ [SaveCredentials service user credentials] /\
        Forall (fun e => is_save e = false) before /\
        truthy (get credentials "access_token") = true
  | Fails _ => Forall (fun e => is_save e = false) r.1
  end /\
  (r.1 = [] \/
   exists url rest,
     r.1 = [StartServer; OpenBrowser url] ++ replicate (wait env) Sleep
           ++ [Shutdown] ++ rest /\
     (wait env <= 120)%nat /\
     Forall (fun e => is_save e = true \/ is_post e = true) rest).
Proof.
  intros r. pose proof (proj1 (wait_is_bounded env)) as Hwait.
  destruct (authenticate_shape env user service scopes)
    as [(f & H) | [(url & f & H) | [(url & data & f & H)
        | (url & data & credentials & H & Ht)]]];
    fold r in H; rewrite H; cbn [fst snd].
  - split; [done | by left].
  - split; [no_save|]. right. exists url, [].
    split; [done|]. split; [done | constructor].
  - split; [no_save|].
    right. exists url, [PostToken data]. split; [done|]. split; [done|].
    constructor; [by right | constructor].
  - split.
    + exists ([StartServer; OpenBrowser url] ++ replicate (wait env) Sleep
              ++ [Shutdown] ++ [PostToken data]).
      split; [by rewrite <- !app_assoc|]. split; [no_save | done].
    + right. eexists url, _. split; [done|]. split; [done|].
      constructor; [by right|]. constructor; [by left | constructor].
Qed.

Lemma do_GET_nonempty_error rq server :
  (forall e rest, query_params rq !! "error" = Some (e, rest) ->
                  e <> EmptyString) ->
  (sets_error rq = true \/
   exists c e, auth_error server = Some (String c e)) ->
  exists c e, auth_error (do_GET rq server).1 = Some (String c e).
Proof.
  intros Hne. unfold do_GET, sets_error.
  destruct (String.eqb (path rq) "/favicon.ico"); simpl.
  { by intros [?|?]. }
  destruct (query_params rq !! "code") as [[code ?]|] eqn:E; simpl.
  { by intros [?|?]. }
  intros _.
  destruct (query_params rq !! "error") as [[error rest]|] eqn:E'; simpl.
  - specialize (Hne error rest eq_refl). destruct error; [done | eauto].
  - eauto.
Qed.

Lemma serve_nonempty_error rqs :
  Forall (fun rq => forall e rest,
            query_params rq !! "error" = Some (e, rest) -> e <> EmptyString)
         rqs ->
  Exists (fun rq => sets_error rq = true) rqs ->
  exists c e, auth_error (serve rqs waiting) = Some (String c e).
Proof.
  induction rqs as [|rq rqs IH] using rev_ind; intros Hall Hex.
  - by apply Exists_nil in Hex.
  - apply Forall_app in Hall as [Hall Hrq].
    apply Forall_cons in Hrq as [Hrq _].
    rewrite serve_snoc. apply do_GET_nonempty_error; [done|].
    apply Exists_app in Hex as [Hex|Hex]; [right; by apply IH|].
    apply Exists_cons in Hex as [Hex|Hex]; [by left | by apply Exists_nil in Hex].
Qed.

(** X25.  One request without a code spoils the flow: when, by the time
    the callback server is shut down, it has served any request other
    than the favicon's that carried no [code] (an error callback, or any
    other page the browser asked for), authentication fails with
    "Authentication failed: ...", even if a code was received as well;
    no token is requested and nothing is saved. *)
Theorem request_without_code_fails_the_flow env user service scopes rqs :
  truthy (get (get_oauth_config env service) "client_id") = true ->
  truthy (get (get_oauth_config env service) "client_secret") = true ->
  bind_error env = None ->
  final env = serve rqs waiting ->
  Forall (fun rq => forall e rest,
            query_params rq !! "error" = Some (e, rest) -> e <> EmptyString)
         rqs ->
  Exists (fun rq => sets_error rq = true) rqs ->
  let r := authenticate_and_save_credentials env user service scopes in
  (exists msg, r.2 = Fails (ValueError ("Authentication failed: " +:+ msg))) /\
  Forall (fun e => is_save e = false /\ is_post e = false) r.1.
Proof.
  intros Hid Hsecret Hbind Hfinal Hall Hex r.
  destruct (serve_nonempty_error rqs Hall Hex) as (c & e & Herr).
  unfold r, authenticate_and_save_credentials.
  rewrite Hid, Hsecret, Hbind, Hfinal, Herr. cbn [negb orb fst snd].
  split; [eauto|].
  no_save.
Qed.

(** X26.  [get_linear_client] returns a client exactly for stored
    credentials with a truthy [access_token], and the client holds that
    token; stored credentials without one (the Discord format with only a
    [token] entry, for instance), an empty dictionary and no credentials
    at all give [ValueError] "Credentials not found for user ...". *)
Theorem get_linear_client_outcome env user api :
  match get_linear_client env user api with
  | Done client =>
      truthy (access_token client) = true /\
      exists d, get_user_credentials env api "linear" user = Some d /\
                d !! "access_token" = Some (access_token client)
  | Fails f =>
      f = ValueError ("Credentials not found for user " +:+ user) /\
      forall d, get_user_credentials env api "linear" user = Some d ->
                truthy (get d "access_token") = false
  end.
Proof.
  unfold get_linear_client.
  destruct (get_user_credentials env api "linear" user) as [d|]; [|by split].
  destruct (bool_decide (size d = 0%nat)) eqn:E.
  { apply bool_decide_eq_true, map_size_empty_inv in E. subst.
    split; [done|]. intros d [= <-]. unfold get. by rewrite lookup_empty. }
  destruct (truthy (get d "access_token")) eqn:Ht.
  - split; [done|]. exists d. split; [done|]. cbn [access_token].
    unfold get in *. destruct (d !! "access_token"); [done|]. by simpl in Ht.
  - split; [done|]. by intros d' [= <-].
Qed.

(** X27.  What the authentication flow saves is what the client needs:
    when [authenticate_and_save_credentials] returns credentials for the
    service [linear] and the credential store hands them out again for
    the user, [get_linear_client] returns a client with the access token
    of the token response. *)
Theorem saved_credentials_give_a_client env env' user scopes api credentials :
  (authenticate_and_save_credentials env user "linear" scopes).2
    = Done credentials ->
  get_user_credentials env' api "linear" user = Some credentials ->
  get_linear_client env' user api
    = Done {| access_token := get credentials "access_token" |} /\
  truthy (get credentials "access_token") = true /\
  In (SaveCredentials "linear" user credentials)
     (authenticate_and_save_credentials env user "linear" scopes).1.
Proof.
  intros Hauth Hstore.
  destruct (authenticate_shape env user "linear" scopes)
    as [(f & H) | [(url & f & H) | [(url & data & f & H)
        | (url & data & credentials' & H & Ht)]]];
    cbn zeta in H; rewrite H in Hauth; cbn [snd] in Hauth; try done.
  injection Hauth as ->.
  assert (size credentials <> 0%nat) as Hsize.
  { intros ->%map_size_empty_inv. unfold get in Ht.
    by rewrite lookup_empty in Ht. }
  split; [|split; [done|]].
  - unfold get_linear_client. rewrite Hstore.
    rewrite bool_decide_eq_false_2 by done. by rewrite Ht.
  - rewrite H. cbn [fst]. rewrite !in_app_iff. right. right. right. right.
    by left.
Qed.

End LinearFacts.

(** ** The moderation tools *)

Section ModerationFacts.

Import Py Discord DiscordAuth Moderation.

Variables (env : Env) (api : Api).

(** X28.  [kick_member] asks Discord for at most one kick, and only in a
    guild the bot knows and may kick in, of a member the guild's cache
    holds; in every other case no call is made. *)
Theorem kick_is_guarded g d :
  (kick_member env api g d).1 = [] \/
  exists gd uid present,
    find_guild env g (item d "guild_id") = Ok (inl gd) /\
    kick_members (view api gd) = true /\
    py_int (item d "user_id") = Ok uid /\
    get_member (view api gd) uid = Some present /\
    (kick_member env api g d).1
      = [Kick (guild_id gd) uid
              (get d "reason" (VStr "No reason provided"))].
Proof.
  unfold kick_member.
  destruct (find_guild env g (item d "guild_id")) as [[gd|text]|e] eqn:Hg;
    [|by left..].
  destruct (kick_members (view api gd)) eqn:Hp; [|by left]. cbn [negb].
  destruct (py_int (item d "user_id")) as [uid|e] eqn:Hu; [|by left].
  destruct (get_member (view api gd) uid) as [present|] eqn:Hm; [|by left].
  right. exists gd, uid, present. by repeat split.
Qed.

(** X29.  [mute_member] changes a member's mute state at most once, and
    only in a guild the bot knows and may mute in, for a member who is in
    the guild's cache and in a voice channel. *)
Theorem mute_is_guarded g d :
  (mute_member env api g d).1 = [] \/
  exists gd uid,
    find_guild env g (item d "guild_id") = Ok (inl gd) /\
    mute_members (view api gd) = true /\
    py_int (item d "user_id") = Ok uid /\
    get_member (view api gd) uid = Some true /\
    (mute_member env api g d).1
      = [EditMute (guild_id gd) uid (item d "mute")].
Proof.
  unfold mute_member.
  destruct (find_guild env g (item d "guild_id")) as [[gd|text]|e] eqn:Hg;
    [|by left..].
  destruct (mute_members (view api gd)) eqn:Hp; [|by left]. cbn [negb].
  destruct (py_int (item d "user_id")) as [uid|e] eqn:Hu; [|by left].
  destruct (get_member (view api gd) uid) as [[|]|] eqn:Hm; [|by left..].
  right. exists gd, uid. by repeat split.
Qed.

(** X30.  [assign_role] adds or removes at most one role, and only in a
    guild the bot knows and may manage roles in, for a member and a role
    the guild holds, and never a role that the bot's highest role does
    not exceed; it adds when [add] is truthy and removes otherwise. *)
Theorem role_assignment_is_guarded g d :
  (assign_role env api g d).1 = [] \/
  exists gd uid present rid role,
    find_guild env g (item d "guild_id") = Ok (inl gd) /\
    manage_roles (view api gd) = true /\
    py_int (item d "user_id") = Ok uid /\
    get_member (view api gd) uid = Some present /\
    py_int (item d "role_id") = Ok rid /\
    get_role (view api gd) rid = Some role /\
    top_role_le (view api gd) role = false /\
    (assign_role env api g d).1
      = [if truthy api (item d "add")
         then AddRoles (guild_id gd) uid (role_ident role)
         else RemoveRoles (guild_id gd) uid (role_ident role)].
Proof.
  unfold assign_role.
  destruct (find_guild env g (item d "guild_id")) as [[gd|text]|e] eqn:Hg;
    [|by left..].
  destruct (manage_roles (view api gd)) eqn:Hp; [|by left]. cbn [negb].
  destruct (py_int (item d "user_id")) as [uid|e] eqn:Hu; [|by left].
  destruct (get_member (view api gd) uid) as [present|] eqn:Hm; [|by left].
  destruct (py_int (item d "role_id")) as [rid|e] eqn:Hr; [|by left].
  destruct (get_role (view api gd) rid) as [role|] eqn:Hrole; [|by left].
  destruct (top_role_le (view api gd) role) eqn:Htop; [by left|].
  right. exists gd, uid, present, rid, role. by repeat split.
Qed.

End ModerationFacts.

(** ** The further theorems at concrete inputs *)

Section MoreRuns.

Import Py Remote Discord Deployed DiscordAuth Examples.

(** X1 on [alice:key:more]. *)
Lemma path_parameter_parts_witness :
  user_and_api_key "alice:key:more" = ("alice"%string, Some "key"%string).
Proof.
  apply (proj2 (proj2 (proj2 path_parameter_parts)) "alice" "key" "more");
    reflexivity.
Defined.

(** X2 on the keys of two users of one server. *)
Lemma session_key_determines_server_witness :
  session_key "discord" "alice" <> session_key "discord" "bob".
Proof.
  intros H.
  destruct (session_key_determines_server "discord" "alice" "discord" "bob"
              eq_refl eq_refl H) as [_ Hne].
  discriminate Hne.
Defined.

(** X3 after two sessions were opened. *)
Lemma instances_are_not_shared_witness :
  size (user_server_instances
          (run servers [Connect "discord" "alice"; Connect "discord" "bob"]
             initial).1)
    = length (objects
                (run servers [Connect "discord" "alice"; Connect "discord" "bob"]
                   initial).1).
Proof.
  apply (instances_are_not_shared servers
           [Connect "discord" "alice"; Connect "discord" "bob"]).
Defined.

(** X5 on a factory that raises. *)
Lemma failed_construction_leaves_transport_witness :
  (step (Obj := unit) (fun _ => Some (fun _ _ => None))
     (Post "discord" "alice")
     (step (Obj := unit) (fun _ => Some (fun _ _ => None))
        (Connect "discord" "alice") initial).1).2
    = Forwarded 0.
Proof.
  apply (failed_construction_leaves_transport (Obj := unit)
           (fun _ => Some (fun _ _ => None)) [] "discord" "alice"
           (fun _ _ => None)); reflexivity.
Defined.

(** X6 on a session of bob's while alice's is streaming. *)
Lemma other_sessions_do_not_interfere_witness :
  user_session_transports
    (run servers [Connect "discord" "bob"; Disconnect 1]
       (run servers [Connect "discord" "alice"] initial).1).1 !! alice
    = Some 0%nat.
Proof.
  assert (Isolation.quiet servers alice
            [Connect "discord" "bob"; Disconnect 1]
            (run servers [Connect "discord" "alice"] initial).1) as Hq.
  { simpl. split; [intros [H _]; discriminate H|].
    split; [|exact I]. intros (c & Hc & Hk).
    vm_compute in Hc. injection Hc as <-. discriminate Hk. }
  rewrite (proj1 (other_sessions_do_not_interfere servers
                    [Connect "discord" "bob"; Disconnect 1]
                    (run servers [Connect "discord" "alice"] initial).1 alice
                    Hq)).
  vm_compute. reflexivity.
Defined.

(** X7 on a directory with a module that fails to load. *)
Lemma broken_server_is_isolated_witness :
  (Registry.discover_servers [readme_item; broken_item; discord_item] []).1
    = (Registry.discover_servers [readme_item; discord_item] []).1.
Proof.
  apply (proj1 (broken_server_is_isolated
                  [readme_item] broken_item [discord_item] [] eq_refl)).
Defined.

(** X8 on the same directory. *)
Lemma status_reports_discovered_servers_witness :
  Registry.status_servers
    (Registry.health_check
       (Registry.discover_servers [readme_item; broken_item; discord_item]
          []).1)
    = ["discord"%string].
Proof.
  apply (status_reports_discovered_servers
           [readme_item; broken_item; discord_item]).
  repeat constructor; rewrite ?elem_of_cons, ?elem_of_nil; intuition discriminate.
Defined.

(** X9 on [--port 0]. *)
Lemma launcher_forwards_host_and_port_witness :
  Launcher.parse_args
    (Launcher.forwarded_argv "main.py"
       {| Launcher.host := "127.0.0.1"; Launcher.port := 0 |})
    = Some {| Launcher.host := "127.0.0.1"; Launcher.port := 8000 |}.
Proof.
  apply (launcher_forwards_host_and_port "main.py"
           {| Launcher.host := "127.0.0.1"; Launcher.port := 0 |}).
  reflexivity.
Defined.

(** X10 on a store without credentials. *)
Lemma get_credentials_outcome_witness :
  match get_credentials no_credentials "alice" None with
  | Ok token =>
      token <> EmptyString /\
      exists d,
        get_user_credentials no_credentials None "alice" = Some d /\
        (d !! "token" = Some token \/
         (d !! "token" = None \/ d !! "token" = Some EmptyString) /\
         d !! "access_token" = Some token)
  | Raise e =>
      e = ValueError ("Credentials not found for user " +:+ "alice") /\
      forall d,
        get_user_credentials no_credentials None "alice" = Some d ->
        (d !! "token" = None \/ d !! "token" = Some EmptyString) /\
        (d !! "access_token" = None \/ d !! "access_token" = Some EmptyString)
  end.
Proof. apply (get_credentials_outcome no_credentials "alice" None). Defined.

(** X11 on credentials in the format with [access_token] only. *)
Lemma validation_demands_token_entry_witness :
  let env := env_with (fun _ _ => Some {[ "access_token" := "abc"%string ]})
                      (fun _ => Some 1%nat) in
  get_credentials env "alice" None = Ok "abc" /\
  exists msg,
    validate_credentials env (fun _ => None) "alice" = Raise (ValueError msg).
Proof.
  intros env.
  apply (proj2 (validation_demands_token_entry env (fun _ => None) "alice")
           {[ "access_token" := "abc"%string ]} "abc");
    [reflexivity | reflexivity | reflexivity | discriminate].
Defined.

(** X12 on [send_dm] with both keys and one more. *)
Lemma complete_arguments_are_accepted_witness :
  dispatch with_credentials bot_up "send_dm"
    (Some {[ "user_id" := VStr "7"; "content" := VStr "hi";
             "extra" := VInt 1 ]})
  = ([], Ok "done").
Proof.
  rewrite (complete_arguments_are_accepted with_credentials bot_up
             {| tool_name := "send_dm";
                tool_description := "Send a direct message to a user";
                properties := ["user_id"; "content"];
                required := ["user_id"; "content"] |}
             {[ "user_id" := VStr "7"; "content" := VStr "hi";
                "extra" := VInt 1 ]}).
  - reflexivity.
  - apply list_elem_of_In. simpl. tauto.
  - intros key Hk. apply list_elem_of_In in Hk. simpl in Hk.
    destruct Hk as [<-|[<-|[]]]; vm_compute; eauto.
Defined.

(** X13 on a guild the bot does not know. *)
Lemma ban_is_guarded_witness :
  ban_member with_credentials bot_up
    {[ "guild_id" := VStr "999"; "user_id" := VStr "7" ]}
  = ([], Ok "Server not found: 999").
Proof.
  assert (py_int (item ({[ "guild_id" := VStr "999"; "user_id" := VStr "7" ]}
                          : gmap string value) "guild_id") = Ok 999) as Hg
    by (vm_compute; reflexivity).
  assert (delete_message_days
            ({[ "guild_id" := VStr "999"; "user_id" := VStr "7" ]}
               : gmap string value) = Ok 0) as Hd
    by (vm_compute; reflexivity).
  apply (proj1 (proj2 (ban_is_guarded with_credentials bot_up
                         {[ "guild_id" := VStr "999"; "user_id" := VStr "7" ]})
                  {| bot_ident := 0; connected := true |} 999 0
                  eq_refl Hg Hd)).
  vm_compute. reflexivity.
Defined.

(** X14 on a user id that is no number. *)
Lemma ban_raises_only_for_bad_requests_witness :
  py_int (item {[ "guild_id" := VStr "123"; "user_id" := VStr "x" ]} "user_id")
    = Raise (ValueError "invalid literal for int() with base 10: 'x'").
Proof.
  assert ((ban_member with_credentials bot_up
             {[ "guild_id" := VStr "123"; "user_id" := VStr "x" ]}).2
          = Raise (ValueError "invalid literal for int() with base 10: 'x'"))
    as Hraise by (vm_compute; reflexivity).
  destruct (ban_raises_only_for_bad_requests with_credentials bot_up
              {[ "guild_id" := VStr "123"; "user_id" := VStr "x" ]}
              (ValueError "invalid literal for int() with base 10: 'x'")
              Hraise)
    as [H | [H | [H | [H | (_ & gid & uid & reason & days & H)]]]];
    try discriminate H.
  exact H.
Defined.

(** X15 on a page of one member out of two. *)
Lemma members_page_witness :
  list_members with_credentials bot_up
    {[ "guild_id" := VStr "123"; "limit" := VInt 1 ]}
  = ([], Ok "ann").
Proof.
  apply (members_page with_credentials bot_up
           {[ "guild_id" := VStr "123"; "limit" := VInt 1 ]}
           {| bot_ident := 0; connected := true |} 123 guild 1);
    vm_compute; reflexivity.
Defined.

(** X16 on a URI of another scheme. *)
Lemma read_resource_returns_text_witness :
  returned (handle_read_resource with_credentials "http://x" started bot_up)
    = Ok "Error reading resource: Unexpected URI format: http://x".
Proof.
  apply (read_resource_returns_text with_credentials "http://x" started bot_up).
  reflexivity.
Defined.

(** X18 on the one channel of the example guild. *)
Lemma listed_resources_can_be_read_witness :
  returned (handle_read_resource with_credentials (resource_uri 123 456)
              started bot_up)
    = Ok "".
Proof.
  apply (proj2 (listed_resources_can_be_read with_credentials started bot_up
                  {| bot_ident := 0; connected := true |} (Running 0)
                  eq_refl eq_refl eq_refl
                  ltac:(simpl; repeat constructor; rewrite elem_of_nil; tauto))
           guild general).
  - apply list_elem_of_In. simpl. tauto.
  - apply list_elem_of_In. simpl. tauto.
Defined.

(** X19 on a user without credentials once the bot is up. *)
Lemma shared_bot_serves_users_without_credentials_witness :
  let first := handle_list_resources no_credentials None
                 (create_server "mallory" None) bot_up in
  returned first = Raise TimeoutError /\
  returned (handle_list_resources no_credentials None
              (server_after first) (globals_after first))
    = Ok (resources_of [guild]).
Proof.
  intros first.
  destruct (shared_bot_serves_users_without_credentials no_credentials
              (create_server "mallory" None) bot_up
              {| bot_ident := 0; connected := true |}
              (ValueError "Credentials not found for user mallory")
              eq_refl eq_refl eq_refl eq_refl eq_refl) as (H1 & _ & H3).
  split; assumption.
Defined.

(** X20 on a server whose start crashed. *)
Lemma started_server_is_left_alone_witness :
  let crashed :=
    {| user_id := "alice"; api_key := None;
       bot_task := Some (Crashed (ValueError "Credentials not found for user alice"));
       bot_ready := false |} in
  server_after (handle_list_resources with_credentials None crashed fresh)
    = crashed /\
  globals_after (handle_list_resources with_credentials None crashed fresh)
    = fresh.
Proof.
  intros crashed.
  destruct (started_server_is_left_alone with_credentials crashed fresh
              (Crashed (ValueError "Credentials not found for user alice"))
              None "discord:///1/2" "bogus" None eq_refl)
    as ((H1 & H2 & _) & _).
  split; assumption.
Defined.

(** X21 on a gateway that needs 45 time units. *)
Lemma first_operation_outcome_witness :
  returned (handle_list_resources slow_gateway None
              (create_server "alice" None) fresh)
    = Raise TimeoutError.
Proof.
  destruct (first_operation_outcome slow_gateway "alice" None "token-of-alice"
              eq_refl) as (_ & _ & H).
  apply H.
Defined.

(** X22 on a code callback followed by a request for another page. *)
Lemma callback_requests_accumulate_witness :
  is_Some (Linear.auth_error
             (Linear.serve [code_callback; stray_request] Linear.waiting)).
Proof.
  apply (proj1 (proj2 (callback_requests_accumulate
                         [code_callback; stray_request]))).
  apply Exists_cons_tl, Exists_cons_hd. reflexivity.
Defined.

(** X23 on a callback seen at the third check. *)
Lemma wait_is_bounded_witness :
  Linear.pending
    (Linear.observe (linear_env [code_callback] None) 0) = true.
Proof.
  apply (proj2 (proj2 (wait_is_bounded (linear_env [code_callback] None))) 0%nat).
  vm_compute. lia.
Defined.

(** X25 on a code callback followed by a request for another page. *)
Lemma request_without_code_fails_the_flow_witness :
  exists msg,
    (Linear.authenticate_and_save_credentials
       (linear_env [code_callback; stray_request] None)
       "alice" "linear" ["read"; "write"]%string).2
      = Linear.Fails (Linear.ValueError ("Authentication failed: " +:+ msg)).
Proof.
  apply (request_without_code_fails_the_flow
           (linear_env [code_callback; stray_request] None)
           "alice" "linear" ["read"; "write"]%string
           [code_callback; stray_request]).
  - reflexivity.
  - reflexivity.
  - reflexivity.
  - reflexivity.
  - repeat constructor; intros e rest H; vm_compute in H; discriminate H.
  - apply Exists_cons_tl, Exists_cons_hd. reflexivity.
Defined.

(** X26 on stored credentials in the Discord format. *)
Lemma get_linear_client_outcome_witness :
  Linear.get_linear_client
    (linear_env [] (Some {[ "token" := Linear.JStr "abc" ]})) "alice" None
    = Linear.Fails
        (Linear.ValueError "Credentials not found for user alice").
Proof.
  pose proof (get_linear_client_outcome
                (linear_env [] (Some {[ "token" := Linear.JStr "abc" ]}))
                "alice" None) as H.
  destruct (Linear.get_linear_client _ _ _) as [client|f].
  - destruct H as (Ht & d & Hd & Ha). injection Hd as <-.
    vm_compute in Ha. discriminate Ha.
  - destruct H as [-> _]. reflexivity.
Defined.

(** X27 on the flow with a code callback and the store it fills. *)
Lemma saved_credentials_give_a_client_witness :
  Linear.get_linear_client
    (linear_env [] (Some saved_credentials)) "alice" None
    = Linear.Done {| Linear.access_token := Linear.JStr "lin_token" |}.
Proof.
  apply (saved_credentials_give_a_client
           (linear_env [code_callback] None)
           (linear_env [] (Some saved_credentials))
           "alice" ["read"; "write"]%string None saved_credentials).
  - vm_compute. reflexivity.
  - reflexivity.
Defined.

End MoreRuns.
